(** * utho-go: the shared HTTP client core and the API-key service

    A shallow embedding of the Go client of the Utho REST API.  The repository
    holds two copies of the client core: the full client, which declares
    every resource service (NewClient, NewRequest, Do, checkForErrors with a
    300 second default timeout and the JSON content headers), and the client
    in [utho/utho.go] (the same functions with a 5 second default timeout
    and an SDK version header), next to which [api_key.go] lives.  Both are
    embedded, in the modules [Root] and [Sub]; the functions that are
    textually the same in both files are embedded once.

    Go values are modelled as follows.
    - [string] and [[]byte] are Rocq strings (sequences of 8-bit characters).
    - A Go pair [(T, error)] is a pair of options: [None] is [nil].
    - [http.Header] is a finite map from canonical keys to lists of values.
    - A run-time panic is an explicit outcome, [Panics].
    - The functions of [net/url] that the client calls are an interface
      ([NetURL]); [encoding/json] is modelled concretely for the payload and
      response types of the API-key service. *)

From Stdlib Require Import ZArith NArith Ascii String List Lia Bool.
From stdpp Require Import base option strings gmap list.

Local Open Scope Z_scope.

(** ** Go's standard library: data *)

(** [url.Userinfo]: a user name and an optional password. *)
Record Userinfo := {
  username : string;
  password : option string
}.

(** [url.URL], field for field. *)
Record URL := {
  Scheme : string;
  Opaque : string;
  User : option Userinfo;
  Host : string;
  Path : string;
  RawPath : string;
  OmitHost : bool;
  ForceQuery : bool;
  RawQuery : string;
  Fragment : string;
  RawFragment : string
}.

(** [baseURL.Path += "/"]: only the [Path] field is assigned. *)
Definition set_Path (u : URL) (p : string) : URL :=
  {| Scheme := Scheme u; Opaque := Opaque u; User := User u; Host := Host u;
     Path := p; RawPath := RawPath u; OmitHost := OmitHost u;
     ForceQuery := ForceQuery u; RawQuery := RawQuery u;
     Fragment := Fragment u; RawFragment := RawFragment u |}.

Definition set_Host (u : URL) (h : string) : URL :=
  {| Scheme := Scheme u; Opaque := Opaque u; User := User u; Host := h;
     Path := Path u; RawPath := RawPath u; OmitHost := OmitHost u;
     ForceQuery := ForceQuery u; RawQuery := RawQuery u;
     Fragment := Fragment u; RawFragment := RawFragment u |}.

(** [http.Header]: canonical key to the list of its values. *)
Abbreviation Header := (gmap string (list string)).

(** The response body, an [io.ReadCloser]: reading it to the end yields the
    bytes that arrive and, possibly, a read error. *)
Record ReadCloser := {
  content : string;
  readErr : option string
}.

(** [http.Response], the fields the client looks at. *)
Record Response := {
  StatusCode : Z;
  RespHeader : Header;
  Body : option ReadCloser
}.

(** [http.Request], the fields the client sets. *)
Record Request := {
  Method : string;
  ReqURL : URL;
  ReqHeader : Header;
  ReqBody : option string;
  ReqHost : string
}.

Definition set_ReqHeader (r : Request) (h : Header) : Request :=
  {| Method := Method r; ReqURL := ReqURL r; ReqHeader := h;
     ReqBody := ReqBody r; ReqHost := ReqHost r |}.

(** Modelled from the spec: the declaration of [ErrorResponse] is not among
    the source files.  The spec gives the envelope as the original response
    plus a decoded [status]/[message] pair; JSON fills these two fields
    only. *)
Record ErrorResponse := {
  ErrResponse : Response;
  ErrStatus : string;
  ErrMessage : string
}.

(** Go's [error] values that occur in the client. *)
Inductive error : Type :=
| errorString (msg : string)                 (* errors.New(msg) *)
| urlError (op url msg : string)             (* *url.Error *)
| urlErrorOf (op url : string) (err : error) (* *url.Error around [err] *)
| httpError (msg : string)                   (* net/http and transport failures *)
| ioError (msg : string)                     (* a failed read of the body *)
| SyntaxError (msg : string)                 (* *json.SyntaxError *)
| UnmarshalTypeError (value kind : string)   (* *json.UnmarshalTypeError *)
| apiError (e : ErrorResponse).              (* *ErrorResponse *)

(** The result of a standard-library call that returns [(T, error)] with
    exactly one of the two non-nil. *)
Inductive result (A : Type) : Type :=
| Ok (a : A)
| Err (e : error).
Arguments Ok {A} a.
Arguments Err {A} e.

(** The outcome of a call that may panic instead of returning. *)
Inductive outcome (A : Type) : Type :=
| Returns (a : A)
| Panics (msg : string).
Arguments Returns {A} a.
Arguments Panics {A} msg.

Definition nil_deref : string :=
  "runtime error: invalid memory address or nil pointer dereference".

(** [time.Duration] counts nanoseconds. *)
Definition Nanosecond : Z := 1.
Definition Second : Z := 1000000000 * Nanosecond.
Definition Minute : Z := 60 * Second.

(** [http.Client]: the timeout and the round tripper ([Transport]). *)
Record http_Client := {
  Timeout : Z;
  RoundTrip : Request -> result Response
}.

(** [io.ReadAll]: the bytes read and the error that ended the read, if any. *)
Definition io_ReadAll (rc : ReadCloser) : string * option error :=
  (content rc, ioError <$> readErr rc).

(** ** Go's standard library: [strings] *)

(** [strings.HasSuffix]: [len(s) >= len(suffix) && s[len(s)-len(suffix):] == suffix]. *)
Definition HasSuffix (s suffix : string) : bool :=
  (String.length suffix <=? String.length s)%nat &&
  String.eqb
    (String.substring (String.length s - String.length suffix)
       (String.length suffix) s)
    suffix.

(** The first [n] bytes of a string, and the string without them. *)
Fixpoint take_bytes (n : nat) (s : string) : string :=
  match n, s with
  | S n', String c r => String c (take_bytes n' r)
  | _, _ => EmptyString
  end.

Fixpoint drop_bytes (n : nat) (s : string) : string :=
  match n, s with
  | S n', String _ r => drop_bytes n' r
  | _, _ => s
  end.

(** The bytes of a string that satisfy [p], in order. *)
Fixpoint filter_bytes (p : ascii -> bool) (s : string) : string :=
  match s with
  | EmptyString => EmptyString
  | String c r => if p c then String c (filter_bytes p r) else filter_bytes p r
  end.

(** The numeric value of a byte. *)
Definition byte (c : ascii) : N := N_of_ascii c.

(** The double quote and the other bytes that string literals cannot hold
    conveniently. *)
Definition dquote : ascii := ascii_of_N 34.
Definition backslash : ascii := ascii_of_N 92.
Definition char_bs : ascii := ascii_of_N 8.
Definition char_ff : ascii := ascii_of_N 12.
Definition char_lf : ascii := ascii_of_N 10.
Definition char_cr : ascii := ascii_of_N 13.
Definition char_tab : ascii := ascii_of_N 9.

(** ** Go's standard library: [unicode/utf8]

    Shifts and masks are written as multiplication, division and remainder
    by powers of two. *)
Module utf8.
Local Open Scope N_scope.

Definition RuneError : N := 0xFFFD.
Definition RuneSelf : N := 0x80.
Definition MaxRune : N := 0x10FFFF.

(** The table [first] for a lead byte at or above [RuneSelf]: the length of
    the sequence and the range accepted for its second byte; [None] for a
    byte that cannot start a sequence. *)
Definition first (b : N) : option (nat * N * N) :=
  if b <? 0xC2 then None
  else if b <=? 0xDF then Some (2%nat, 0x80, 0xBF)
  else if b =? 0xE0 then Some (3%nat, 0xA0, 0xBF)
  else if b <=? 0xEC then Some (3%nat, 0x80, 0xBF)
  else if b =? 0xED then Some (3%nat, 0x80, 0x9F)
  else if b <=? 0xEF then Some (3%nat, 0x80, 0xBF)
  else if b =? 0xF0 then Some (4%nat, 0x90, 0xBF)
  else if b <=? 0xF3 then Some (4%nat, 0x80, 0xBF)
  else if b =? 0xF4 then Some (4%nat, 0x80, 0x8F)
  else None.

(** A continuation byte lies in [0x80, 0xBF]. *)
Definition cont (b : N) : bool := (0x80 <=? b) && (b <=? 0xBF).

(** [utf8.DecodeRuneInString] (and [utf8.DecodeRune]): the rune at the
    head of [s] and its width in bytes; [(RuneError, 1)] for an invalid
    encoding and [(RuneError, 0)] for the empty string. *)
Definition DecodeRuneInString (s : string) : N * nat :=
  match s with
  | EmptyString => (RuneError, 0%nat)
  | String c0 r0 =>
      let s0 := byte c0 in
      if s0 <? RuneSelf then (s0, 1%nat)
      else
        match first s0, r0 with
        | Some (sz, lo, hi), String c1 r1 =>
            let s1 := byte c1 in
            if (s1 <? lo) || (hi <? s1) then (RuneError, 1%nat)
            else if (sz <=? 2)%nat then ((s0 mod 32) * 64 + s1 mod 64, 2%nat)
            else
              match r1 with
              | String c2 r2 =>
                  let s2 := byte c2 in
                  if negb (cont s2) then (RuneError, 1%nat)
                  else if (sz <=? 3)%nat then
                    ((s0 mod 16) * 4096 + (s1 mod 64) * 64 + s2 mod 64, 3%nat)
                  else
                    match r2 with
                    | String c3 _ =>
                        let s3 := byte c3 in
                        if negb (cont s3) then (RuneError, 1%nat)
                        else ((s0 mod 8) * 262144 + (s1 mod 64) * 4096
                              + (s2 mod 64) * 64 + s3 mod 64, 4%nat)
                    | EmptyString => (RuneError, 1%nat)
                    end
              | EmptyString => (RuneError, 1%nat)
              end
        | _, _ => (RuneError, 1%nat)
        end
  end.

Definition bytes1 (a : N) : string := String (ascii_of_N a) EmptyString.
Definition bytes2 (a b : N) : string := String (ascii_of_N a) (bytes1 b).
Definition bytes3 (a b c : N) : string := String (ascii_of_N a) (bytes2 b c).
Definition bytes4 (a b c d : N) : string := String (ascii_of_N a) (bytes3 b c d).

(** [utf8.AppendRune] on an empty buffer: the encoding of a rune; a
    surrogate or a value above [MaxRune] is encoded as [RuneError]. *)
Definition EncodeRune (r : N) : string :=
  if r <=? 0x7F then bytes1 r
  else if r <=? 0x7FF then bytes2 (0xC0 + r / 64) (0x80 + r mod 64)
  else if (MaxRune <? r) || ((0xD800 <=? r) && (r <=? 0xDFFF)) then
    bytes3 0xEF 0xBF 0xBD
  else if r <=? 0xFFFF then
    bytes3 (0xE0 + r / 4096) (0x80 + (r / 64) mod 64) (0x80 + r mod 64)
  else
    bytes4 (0xF0 + r / 262144) (0x80 + (r / 4096) mod 64)
           (0x80 + (r / 64) mod 64) (0x80 + r mod 64).

(** [utf8.ValidString]: every rune of the string decodes. *)
Fixpoint valid_loop (fuel : nat) (s : string) : bool :=
  match s with
  | EmptyString => true
  | String _ _ =>
      match fuel with
      | O => false
      | S fuel =>
          let '(c, size) := DecodeRuneInString s in
          if (c =? RuneError) && (size =? 1)%nat then false
          else valid_loop fuel (drop_bytes size s)
      end
  end.

Definition ValidString (s : string) : bool := valid_loop (String.length s) s.

End utf8.

(** ** Go's standard library: [encoding/json] *)

(** A parsed JSON text.  An object keeps its members in input order, with
    duplicates; a number keeps its literal. *)
#[local] Unset Elimination Schemes.
Inductive json : Type :=
| JNull
| JBool (b : bool)
| JNumber (lit : string)
| JString (s : string)
| JArray (elems : list json)
| JObject (members : list (string * json)).
#[local] Set Elimination Schemes.

(** The result of scanning a piece of input: a value and the rest of the
    input, or the reason why the scanner stops.  [PFuel] is the model's own:
    the recursion ran out of steps. *)
Inductive presult (A : Type) : Type :=
| POk (a : A)
| PEOF          (* unexpected end of JSON input *)
| PInvalid      (* invalid character *)
| PDepth        (* exceeded max depth *)
| PFuel.
Arguments POk {A} a.
Arguments PEOF {A}.
Arguments PInvalid {A}.
Arguments PDepth {A}.
Arguments PFuel {A}.

Definition pbind {A B} (r : presult A) (k : A -> presult B) : presult B :=
  match r with
  | POk a => k a
  | PEOF => PEOF
  | PInvalid => PInvalid
  | PDepth => PDepth
  | PFuel => PFuel
  end.

(** A result that is not [PFuel] and, when it is a value, leaves fewer
    than [n] bytes of input. *)
Definition good {A} (n : nat) (r : presult (A * string)) : Prop :=
  match r with
  | PFuel => False
  | POk (_, rest) => (String.length rest < n)%nat
  | _ => True
  end.

Module json_enc.
Local Open Scope N_scope.

Definition hex : string := "0123456789abcdef".

Definition hex_digit (n : N) : ascii :=
  match String.get (N.to_nat n) hex with
  | Some c => c
  | None => "0"%char
  end.

(** [safeSet]: the bytes below [RuneSelf] that a JSON string holds as they
    are; [htmlSafeSet]: the same without the three HTML characters. *)
Definition safeSet (c : ascii) : bool :=
  (0x20 <=? byte c) && (byte c <? 0x80)
  && negb (Ascii.eqb c dquote) && negb (Ascii.eqb c backslash).

Definition isHTML (c : ascii) : bool :=
  Ascii.eqb c "<"%char || Ascii.eqb c ">"%char || Ascii.eqb c "&"%char.

Definition htmlSafeSet (c : ascii) : bool := safeSet c && negb (isHTML c).

(** The escape of a byte below [RuneSelf] that is not copied. *)
Definition escape_byte (c : ascii) : string :=
  if Ascii.eqb c backslash || Ascii.eqb c dquote then
    String backslash (String c EmptyString)
  else if Ascii.eqb c char_bs then String backslash "b"
  else if Ascii.eqb c char_ff then String backslash "f"
  else if Ascii.eqb c char_lf then String backslash "n"
  else if Ascii.eqb c char_cr then String backslash "r"
  else if Ascii.eqb c char_tab then String backslash "t"
  else
    String backslash
      (String "u" (String "0" (String "0"
        (String (hex_digit (byte c / 16))
          (String (hex_digit (byte c mod 16)) EmptyString))))).

(** The loop of [appendString], one rune per step: the bytes written for
    [src] between the two quotes. *)
Fixpoint appendString_loop (escapeHTML : bool) (fuel : nat) (src : string)
  : string :=
  match fuel with
  | O => EmptyString
  | S fuel =>
      match src with
      | EmptyString => EmptyString
      | String b rest =>
          if byte b <? utf8.RuneSelf then
            if htmlSafeSet b || (negb escapeHTML && safeSet b) then
              String b (appendString_loop escapeHTML fuel rest)
            else
              escape_byte b +:+ appendString_loop escapeHTML fuel rest
          else
            let '(c, size) := utf8.DecodeRuneInString src in
            if (c =? utf8.RuneError) && (size =? 1)%nat then
              String backslash "ufffd"
              +:+ appendString_loop escapeHTML fuel (drop_bytes size src)
            else if (c =? 0x2028) || (c =? 0x2029) then
              String backslash "u202"
              +:+ String (hex_digit (c mod 16))
                    (appendString_loop escapeHTML fuel (drop_bytes size src))
            else
              take_bytes size src
              +:+ appendString_loop escapeHTML fuel (drop_bytes size src)
      end
  end.

(** [appendString]: a Go string as a JSON string literal. *)
Definition appendString (escapeHTML : bool) (src : string) : string :=
  String dquote
    (appendString_loop escapeHTML (String.length src) src
     +:+ String dquote EmptyString).

(** The text of an object member whose key and value are strings, as the
    encoder writes it with HTML escaping off, followed by [rest]. *)
Definition member_text (k v : string) (rest : string) : string :=
  String dquote
    (appendString_loop false (String.length k) k +:+ String dquote
       (String ":"%char (String dquote
          (appendString_loop false (String.length v) v
           +:+ String dquote rest)))).

End json_enc.

Module json_dec.
Local Open Scope N_scope.

Definition isSpace (c : ascii) : bool :=
  Ascii.eqb c " "%char || Ascii.eqb c char_tab
  || Ascii.eqb c char_cr || Ascii.eqb c char_lf.

Fixpoint skip_ws (s : string) : string :=
  match s with
  | String c r => if isSpace c then skip_ws r else s
  | EmptyString => s
  end.

Definition isDigit (c : ascii) : bool := (48 <=? byte c) && (byte c <=? 57).

(** The value of a hexadecimal digit. *)
Definition hexval (c : ascii) : option N :=
  let b := byte c in
  if (48 <=? b) && (b <=? 57) then Some (b - 48)
  else if (97 <=? b) && (b <=? 102) then Some (b - 97 + 10)
  else if (65 <=? b) && (b <=? 70) then Some (b - 65 + 10)
  else None.

(** [getu4] without the leading backslash and u: four hexadecimal digits
    and the rest of the input. *)
Definition getu4 (s : string) : presult (N * string) :=
  match s with
  | String c1 (String c2 (String c3 (String c4 r))) =>
      match hexval c1, hexval c2, hexval c3, hexval c4 with
      | Some a, Some b, Some c, Some d =>
          POk (a * 4096 + b * 256 + c * 16 + d, r)
      | _, _, _, _ => PInvalid
      end
  | String c1 (String c2 (String c3 EmptyString)) =>
      match hexval c1, hexval c2, hexval c3 with
      | Some _, Some _, Some _ => PEOF
      | _, _, _ => PInvalid
      end
  | String c1 (String c2 EmptyString) =>
      match hexval c1, hexval c2 with
      | Some _, Some _ => PEOF
      | _, _ => PInvalid
      end
  | String c1 EmptyString =>
      match hexval c1 with
      | Some _ => PEOF
      | None => PInvalid
      end
  | EmptyString => PEOF
  end.

(** [utf16.IsSurrogate] and [utf16.DecodeRune]. *)
Definition IsSurrogate (r : N) : bool := (0xD800 <=? r) && (r <? 0xE000).

Definition utf16_DecodeRune (r1 r2 : N) : N :=
  if (0xD800 <=? r1) && (r1 <? 0xDC00) && (0xDC00 <=? r2) && (r2 <? 0xE000)
  then (r1 - 0xD800) * 1024 + (r2 - 0xDC00) + 0x10000
  else utf8.RuneError.

(** The low half of a surrogate pair, when the input goes on with a
    complete backslash-u escape. *)
Definition low_surrogate (s : string) : option (N * string) :=
  match s with
  | String c (String u r) =>
      if Ascii.eqb c backslash && Ascii.eqb u "u"%char then
        match getu4 r with
        | POk p => Some p
        | _ => None
        end
      else None
  | _ => None
  end.

Definition emit {A} (out : string) (r : presult (string * A))
  : presult (string * A) :=
  pbind r (fun '(t, rest) => POk (out +:+ t, rest)).

(** A string literal after its opening quote: the scanner's check of the
    literal and [unquote] in one pass.  The result is the Go string and the
    input after the closing quote. *)
Fixpoint unquote (fuel : nat) (s : string) : presult (string * string) :=
  match fuel with
  | O => PFuel
  | S fuel =>
      match s with
      | EmptyString => PEOF
      | String c r =>
          if Ascii.eqb c dquote then POk (EmptyString, r)
          else if Ascii.eqb c backslash then
            match r with
            | EmptyString => PEOF
            | String e r' =>
                if Ascii.eqb e dquote || Ascii.eqb e backslash
                   || Ascii.eqb e "/"%char
                then emit (String e EmptyString) (unquote fuel r')
                else if Ascii.eqb e "b"%char
                then emit (String char_bs EmptyString) (unquote fuel r')
                else if Ascii.eqb e "f"%char
                then emit (String char_ff EmptyString) (unquote fuel r')
                else if Ascii.eqb e "n"%char
                then emit (String char_lf EmptyString) (unquote fuel r')
                else if Ascii.eqb e "r"%char
                then emit (String char_cr EmptyString) (unquote fuel r')
                else if Ascii.eqb e "t"%char
                then emit (String char_tab EmptyString) (unquote fuel r')
                else if Ascii.eqb e "u"%char then
                  pbind (getu4 r') (fun '(rr, r'') =>
                    if IsSurrogate rr then
                      match low_surrogate r'' with
                      | Some (rr1, r3) =>
                          let dec := utf16_DecodeRune rr rr1 in
                          if negb (dec =? utf8.RuneError) then
                            emit (utf8.EncodeRune dec) (unquote fuel r3)
                          else
                            emit (utf8.EncodeRune utf8.RuneError)
                                 (unquote fuel r'')
                      | None =>
                          emit (utf8.EncodeRune utf8.RuneError)
                               (unquote fuel r'')
                      end
                    else emit (utf8.EncodeRune rr) (unquote fuel r''))
                else PInvalid
            end
          else if byte c <? 0x20 then PInvalid
          else if byte c <? utf8.RuneSelf then
            emit (String c EmptyString) (unquote fuel r)
          else
            let '(rr, size) := utf8.DecodeRuneInString s in
            emit (utf8.EncodeRune rr) (unquote fuel (drop_bytes size s))
      end
  end.

(** A string literal after its opening quote. *)
Definition parse_string (s : string) : presult (string * string) :=
  unquote (S (String.length s)) s.

(** The longest run of digits at the head of the input. *)
Fixpoint span_digits (s : string) : string * string :=
  match s with
  | String c r =>
      if isDigit c then
        let '(ds, rest) := span_digits r in (String c ds, rest)
      else (EmptyString, s)
  | EmptyString => (EmptyString, s)
  end.

(** One digit at least, then as many as follow. *)
Definition digits1 (s : string) : presult (string * string) :=
  match s with
  | EmptyString => PEOF
  | String c _ => if isDigit c then POk (span_digits s) else PInvalid
  end.

Definition parse_frac (s : string) : presult (string * string) :=
  match s with
  | String c r =>
      if Ascii.eqb c "."%char then emit "." (digits1 r)
      else POk (EmptyString, s)
  | EmptyString => POk (EmptyString, s)
  end.

Definition parse_exp (s : string) : presult (string * string) :=
  match s with
  | String c r =>
      if Ascii.eqb c "e"%char || Ascii.eqb c "E"%char then
        match r with
        | String sg r' =>
            if Ascii.eqb sg "+"%char || Ascii.eqb sg "-"%char
            then emit (String c (String sg EmptyString)) (digits1 r')
            else emit (String c EmptyString) (digits1 r)
        | EmptyString => PEOF
        end
      else POk (EmptyString, s)
  | EmptyString => POk (EmptyString, s)
  end.

Definition parse_int (s : string) : presult (string * string) :=
  match s with
  | EmptyString => PEOF
  | String c r =>
      if Ascii.eqb c "0"%char then POk ("0"%string, r)
      else if isDigit c then POk (span_digits s)
      else PInvalid
  end.

(** A number literal: its text and the rest of the input. *)
Definition parse_number (s : string) : presult (string * string) :=
  let after_sign (s : string) :=
    pbind (parse_int s) (fun '(i, r1) =>
    pbind (parse_frac r1) (fun '(f, r2) =>
    pbind (parse_exp r2) (fun '(e, r3) => POk (i +:+ f +:+ e, r3)))) in
  match s with
  | String c r =>
      if Ascii.eqb c "-"%char then emit "-" (after_sign r) else after_sign s
  | EmptyString => after_sign s
  end.

(** The rest of a literal name ([true], [false], [null]). *)
Fixpoint expect (lit s : string) : presult string :=
  match lit with
  | EmptyString => POk s
  | String l lit' =>
      match s with
      | EmptyString => PEOF
      | String c r => if Ascii.eqb c l then expect lit' r else PInvalid
      end
  end.

Definition maxNestingDepth : N := 10000.

(** The members of an object from its first key on, up to the closing
    brace; [value] scans one member value. *)
Fixpoint parse_members (value : string -> presult (json * string))
    (n : nat) (s : string) : presult (list (string * json) * string) :=
  match n with
  | O => PFuel
  | S n =>
      match skip_ws s with
      | EmptyString => PEOF
      | String q r1 =>
          if negb (Ascii.eqb q dquote) then PInvalid else
          pbind (parse_string r1) (fun '(key, r2) =>
          match skip_ws r2 with
          | EmptyString => PEOF
          | String colon r3 =>
              if negb (Ascii.eqb colon ":"%char) then PInvalid else
              pbind (value r3) (fun '(v, r4) =>
              match skip_ws r4 with
              | EmptyString => PEOF
              | String d r5 =>
                  if Ascii.eqb d "}"%char then POk ([(key, v)], r5)
                  else if Ascii.eqb d ","%char then
                    pbind (parse_members value n r5) (fun '(ms, r6) =>
                      POk ((key, v) :: ms, r6))
                  else PInvalid
              end)
          end)
      end
  end.

(** The elements of an array from its first element on, up to the closing
    bracket. *)
Fixpoint parse_elements (value : string -> presult (json * string))
    (n : nat) (s : string) : presult (list json * string) :=
  match n with
  | O => PFuel
  | S n =>
      pbind (value s) (fun '(v, r1) =>
      match skip_ws r1 with
      | EmptyString => PEOF
      | String d r2 =>
          if Ascii.eqb d "]"%char then POk ([v], r2)
          else if Ascii.eqb d ","%char then
            pbind (parse_elements value n r2) (fun '(vs, r3) =>
              POk (v :: vs, r3))
          else PInvalid
      end)
  end.

(** A JSON value at the head of the input, at nesting depth [depth]. *)
Fixpoint parse_value (fuel : nat) (depth : N) (s : string)
  : presult (json * string) :=
  match fuel with
  | O => PFuel
  | S fuel =>
      match skip_ws s with
      | EmptyString => PEOF
      | String c r =>
          if Ascii.eqb c "{"%char then
            if maxNestingDepth <? depth + 1 then PDepth else
            match skip_ws r with
            | EmptyString => PEOF
            | String c' r' =>
                if Ascii.eqb c' "}"%char then POk (JObject [], r')
                else
                  pbind (parse_members (parse_value fuel (depth + 1)) fuel
                           (String c' r'))
                    (fun '(ms, rest) => POk (JObject ms, rest))
            end
          else if Ascii.eqb c "["%char then
            if maxNestingDepth <? depth + 1 then PDepth else
            match skip_ws r with
            | EmptyString => PEOF
            | String c' r' =>
                if Ascii.eqb c' "]"%char then POk (JArray [], r')
                else
                  pbind (parse_elements (parse_value fuel (depth + 1)) fuel
                           (String c' r'))
                    (fun '(vs, rest) => POk (JArray vs, rest))
            end
          else if Ascii.eqb c dquote then
            pbind (parse_string r) (fun '(str, rest) => POk (JString str, rest))
          else if Ascii.eqb c "t"%char then
            pbind (expect "rue" r) (fun rest => POk (JBool true, rest))
          else if Ascii.eqb c "f"%char then
            pbind (expect "alse" r) (fun rest => POk (JBool false, rest))
          else if Ascii.eqb c "n"%char then
            pbind (expect "ull" r) (fun rest => POk (JNull, rest))
          else if Ascii.eqb c "-"%char || isDigit c then
            pbind (parse_number (String c r))
              (fun '(lit, rest) => POk (JNumber lit, rest))
          else PInvalid
      end
  end.

(** [checkValid] and the scan of the whole input: one value, then only
    white space. *)
Definition parse (data : string) : presult json :=
  pbind (parse_value (S (String.length data)) 0 data) (fun '(v, rest) =>
    match skip_ws rest with
    | EmptyString => POk v
    | String _ _ => PInvalid
    end).

End json_dec.

(** *** Storing a parsed value into a Go value *)

(** A type that [json.Unmarshal] can fill: [decode j v] stores the parsed
    value [j] into the current value [v] and gives the new value and the
    error saved on the way, if any. *)
Class Unmarshaler (T : Type) := {
  decode : json -> T -> T * option error
}.

(** The [Value] field of an [UnmarshalTypeError]. *)
Definition describe (j : json) : string :=
  match j with
  | JNull => "null"
  | JBool _ => "bool"
  | JNumber _ => "number"
  | JString _ => "string"
  | JArray _ => "array"
  | JObject _ => "object"
  end.

(** [saveError]: the first error is kept. *)
Definition saveError (saved new : option error) : option error :=
  match saved with
  | Some e => Some e
  | None => new
  end.

(** A Go [string]: a JSON string is stored, [null] leaves the value as it
    is, anything else is a type error. *)
#[export] Instance string_Unmarshaler : Unmarshaler string := {|
  decode j s :=
    match j with
    | JString x => (x, None)
    | JNull => (s, None)
    | _ => (s, Some (UnmarshalTypeError (describe j) "string"))
    end
|}.

(** [foldName] for names that fold into ASCII: letters go to upper case,
    and the two runes outside ASCII whose case orbit holds an ASCII letter
    (U+017F, the long s, and U+212A, the Kelvin sign) go to that letter.
    A name with any other rune outside ASCII has no ASCII fold. *)
Fixpoint foldName (s : string) : option string :=
  match s with
  | EmptyString => Some EmptyString
  | String c r =>
      let b := byte c in
      if (b <? 0x80)%N then
        let c' := if ((97 <=? b) && (b <=? 122))%N
                  then ascii_of_N (b - 32) else c in
        String c' <$> foldName r
      else
        match r with
        | String c1 r1 =>
            if ((b =? 0xC5) && (byte c1 =? 0xBF))%N
            then String "S"%char <$> foldName r1
            else
              match r1 with
              | String c2 r2 =>
                  if ((b =? 0xE2) && (byte c1 =? 0x84) && (byte c2 =? 0xAA))%N
                  then String "K"%char <$> foldName r2
                  else None
              | EmptyString => None
              end
        | EmptyString => None
        end
  end.

(** The fields of a struct type [T] that JSON sees: the name from the
    field's tag and the store into the field.  The names are ASCII. *)
Definition fields (T : Type) : Type :=
  list (string * (json -> T -> T * option error)).

(** The field for an object key: an exact match of the name first, then
    the first field with the same folded name. *)
Definition find_field {T} (fs : fields T) (key : string)
  : option (json -> T -> T * option error) :=
  match List.find (fun f => String.eqb (fst f) key) fs with
  | Some f => Some (snd f)
  | None =>
      match foldName key with
      | Some k =>
          snd <$> List.find (fun f =>
                     match foldName (fst f) with
                     | Some n => String.eqb n k
                     | None => false
                     end) fs
      | None => None
      end
  end.

(** The members of an object, stored one after the other; a key without a
    field is skipped. *)
Fixpoint decode_members {T} (fs : fields T) (ms : list (string * json))
    (v : T) (saved : option error) : T * option error :=
  match ms with
  | [] => (v, saved)
  | (key, x) :: rest =>
      match find_field fs key with
      | Some store =>
          let '(v', e) := store x v in
          decode_members fs rest v' (saveError saved e)
      | None => decode_members fs rest v saved
      end
  end.

(** A struct: an object is stored member by member, [null] leaves the
    value as it is, anything else is a type error. *)
Definition decode_struct {T} (fs : fields T) (j : json) (v : T)
  : T * option error :=
  match j with
  | JObject ms => decode_members fs ms v None
  | JNull => (v, None)
  | _ => (v, Some (UnmarshalTypeError (describe j) "struct"))
  end.

(** The elements of an array stored into a slice: element [i] goes into
    the slice's element [i] when there is one and into a zero value
    otherwise. *)
Fixpoint decode_elements {T} `{Unmarshaler T} (zero : T) (es : list json)
    (old : list T) (saved : option error) : list T * option error :=
  match es with
  | [] => ([], saved)
  | e :: es' =>
      let '(x, err) := decode e (List.hd zero old) in
      let '(xs, saved') :=
        decode_elements zero es' (List.tl old) (saveError saved err) in
      (x :: xs, saved')
  end.

(** A slice ([None] is the nil slice): an array replaces the elements,
    [null] makes the slice nil, anything else is a type error. *)
Definition decode_slice {T} `{Unmarshaler T} (zero : T) (j : json)
    (v : option (list T)) : option (list T) * option error :=
  match j with
  | JArray es =>
      let '(xs, err) := decode_elements zero es (default [] v) None in
      (Some xs, err)
  | JNull => (None, None)
  | _ => (v, Some (UnmarshalTypeError (describe j) "slice"))
  end.

(** [json.Unmarshal(data, &v)]: the input is checked as a whole first, so a
    syntax error leaves the target as it is; then the value is stored.
    The message of a syntax error is kept without the offending character
    and its context.  The scan always finishes (lemma [parse_not_PFuel]),
    so the last branch is never taken. *)
Definition json_Unmarshal {T} `{Unmarshaler T} (data : string) (v : T)
  : T * option error :=
  match json_dec.parse data with
  | POk j => decode j v
  | PEOF => (v, Some (SyntaxError "unexpected end of JSON input"))
  | PInvalid => (v, Some (SyntaxError "invalid character"))
  | PDepth => (v, Some (SyntaxError "exceeded max depth"))
  | PFuel => (v, Some (SyntaxError "scan not finished"))
  end.

(** [ErrorResponse] as JSON sees it: [status] and [message]. *)
Definition ErrorResponse_fields : fields ErrorResponse :=
  [ ("status"%string, fun j e =>
       let '(s, err) := decode j (ErrStatus e) in
       ({| ErrResponse := ErrResponse e; ErrStatus := s;
           ErrMessage := ErrMessage e |}, err));
    ("message"%string, fun j e =>
       let '(s, err) := decode j (ErrMessage e) in
       ({| ErrResponse := ErrResponse e; ErrStatus := ErrStatus e;
           ErrMessage := s |}, err)) ].

#[export] Instance ErrorResponse_Unmarshaler : Unmarshaler ErrorResponse := {|
  decode := decode_struct ErrorResponse_fields
|}.

(** A type that [json.Marshal] can encode. *)
Class Marshaler (P : Type) := {
  json_Marshal : bool -> P -> result string
}.

(** [Encoder.Encode] after [SetEscapeHTML(escapeHTML)]: the encoding of
    the value followed by a newline. *)
Definition json_Encode {P} `{Marshaler P} (escapeHTML : bool) (v : P)
  : result string :=
  match json_Marshal escapeHTML v with
  | Err e => Err e
  | Ok b => Ok (b +:+ String char_lf EmptyString)
  end.

(** ** Go's standard library: [net/textproto] and [net/http] headers *)

(** The bytes of an HTTP token: letters, digits and
    [! # $ % & ' * + - . ^ _ ` | ~]. *)
Definition isTokenByte (c : ascii) : bool :=
  let b := byte c in
  ((48 <=? b) && (b <=? 57) || (65 <=? b) && (b <=? 90)
   || (97 <=? b) && (b <=? 122)
   || (b =? 33) || (35 <=? b) && (b <=? 39) || (b =? 42) || (b =? 43)
   || (b =? 45) || (b =? 46) || (94 <=? b) && (b <=? 96)
   || (b =? 124) || (b =? 126))%N.

Fixpoint all_bytes (p : ascii -> bool) (s : string) : bool :=
  match s with
  | EmptyString => true
  | String c r => p c && all_bytes p r
  end.

(** The canonical form of a key made of token bytes: upper case for the
    first letter and for a letter after a hyphen, lower case elsewhere. *)
Fixpoint canonical_case (upper : bool) (s : string) : string :=
  match s with
  | EmptyString => EmptyString
  | String c r =>
      let b := byte c in
      let c' :=
        if (upper && (97 <=? b) && (b <=? 122))%N then ascii_of_N (b - 32)
        else if (negb upper && (65 <=? b) && (b <=? 90))%N
        then ascii_of_N (b + 32)
        else c in
      String c' (canonical_case (Ascii.eqb c' "-"%char) r)
  end.

(** [textproto.CanonicalMIMEHeaderKey]: a key with a byte outside the
    token bytes is returned as it is. *)
Definition CanonicalMIMEHeaderKey (s : string) : string :=
  if all_bytes isTokenByte s then canonical_case true s else s.

(** [Header.Set], [Header.Add] and [Header.Get]. *)
Definition Header_Set (h : Header) (key value : string) : Header :=
  <[CanonicalMIMEHeaderKey key := [value]]> h.

Definition Header_Add (h : Header) (key value : string) : Header :=
  <[CanonicalMIMEHeaderKey key :=
      default [] (h !! CanonicalMIMEHeaderKey key) ++ [value]]> h.

Definition Header_Get (h : Header) (key : string) : string :=
  match h !! CanonicalMIMEHeaderKey key with
  | Some (v :: _) => v
  | _ => EmptyString
  end.

(** [validMethod]: a non-empty token. *)
Definition validMethod (method : string) : bool :=
  negb (String.eqb method "") && all_bytes isTokenByte method.

(** [removeEmptyPort]: a host that ends in a colon loses it. *)
Definition removeEmptyPort (host : string) : string :=
  if HasSuffix host ":"
  then String.substring 0 (String.length host - 1) host
  else host.

(** ** Go's standard library: [net/url], as an interface *)

Class NetURL := {
  (** [url.Parse] *)
  url_Parse : string -> result URL;
  (** the method [ResolveReference] of [URL] *)
  URL_ResolveReference : URL -> URL -> URL;
  (** the method [String] of [URL] *)
  URL_String : URL -> string
}.

(** The method [Parse] of [URL]: parse the reference, then resolve it
    against the receiver. *)
Definition URL_Parse `{NetURL} (u : URL) (ref : string) : result URL :=
  match url_Parse ref with
  | Err e => Err e
  | Ok refURL => Ok (URL_ResolveReference u refURL)
  end.

(** ** Go's standard library: [net/http], as an interface

    [DefaultTransport] is [http.DefaultTransport].  [http_Client_Do] is
    [http.Client.Do]: it sends the request through the client's round
    tripper within the client's timeout, follows redirects, and hands back
    the last response, or a [url.Error] around whatever went wrong.  None
    of this is the repository's code; the client only calls it.  The one
    thing the client relies on is that a response comes with a body:
    [net/http] never returns a nil [Body], also when the body is empty. *)
Class Network := {
  DefaultTransport : Request -> result Response;
  http_Client_Do : http_Client -> Request -> result Response;
  http_Client_Do_body (hc : http_Client) (req : Request) (resp : Response) :
    http_Client_Do hc req = Ok resp -> exists rc, Body resp = Some rc
}.

(** [http.NewRequest]: the method is checked, the URL is parsed, and the
    request starts with an empty header. *)
Definition http_NewRequest `{NetURL} (method url : string)
    (body : option string) : result Request :=
  let method := if String.eqb method "" then "GET"%string else method in
  if negb (validMethod method) then
    Err (httpError ("net/http: invalid method " +:+ method))
  else
    match url_Parse url with
    | Err err => Err err
    | Ok u =>
        let u := set_Host u (removeEmptyPort (Host u)) in
        Ok {| Method := method; ReqURL := u; ReqHeader := ∅;
              ReqBody := body; ReqHost := Host u |}
    end.

(** *** Go's standard library: [strconv], integers in base 10 *)

Module strconv.
Local Open Scope N_scope.

(** [formatBits] in base 10: the digits of [u] are put in front of [acc],
    the last digit first; a number below [10 ^ fuel] is written in full. *)
Fixpoint formatBits (fuel : nat) (u : N) (acc : string) : string :=
  match fuel with
  | O => acc
  | S fuel =>
      let acc := String (ascii_of_N (48 + u mod 10)) acc in
      if u <? 10 then acc else formatBits fuel (u / 10) acc
  end.

(** [FormatUint(u, 10)]; a number has no more decimal digits than bits. *)
Definition FormatUint (u : N) : string :=
  formatBits (S (N.to_nat (N.log2 u))) u EmptyString.

(** [FormatInt(i, 10)]. *)
Definition FormatInt (i : Z) : string :=
  if (i <? 0)%Z then String "-"%char (FormatUint (Z.to_N (- i)))
  else FormatUint (Z.to_N i).

(** The number that a run of decimal digits denotes, after the digits that
    gave [acc]; [None] when a byte is not a digit. *)
Fixpoint digits_value (s : string) (acc : N) : option N :=
  match s with
  | EmptyString => Some acc
  | String c r =>
      if (48 <=? byte c) && (byte c <=? 57)
      then digits_value r (acc * 10 + (byte c - 48))
      else None
  end.

(** [ParseUint(s, 10, 64)] and [ParseInt(s, 10, 64)] before the range
    check: the number, or [None] for a syntax error. *)
Definition ParseUint (s : string) : option N :=
  match s with
  | EmptyString => None
  | String _ _ => digits_value s 0
  end.

Definition ParseInt (s : string) : option Z :=
  match s with
  | EmptyString => None
  | String c r =>
      if Ascii.eqb c "-"%char then (fun n => (- Z.of_N n)%Z) <$> ParseUint r
      else if Ascii.eqb c "+"%char then Z.of_N <$> ParseUint r
      else Z.of_N <$> ParseUint s
  end.

End strconv.

(** *** Payloads: a universe of Go types and their values

    [NewRequest] takes its payload as an [interface{}].  The types below
    are the ones that [encoding/json] writes and reads back without a
    method of the type's own: booleans, sized integers, strings, pointers,
    slices, maps with string keys and structs whose fields are exported
    and have plain names.  Floating-point numbers, [uint8] (a slice of
    bytes is written as base64 text), interfaces and the field options
    [omitempty] and [string] are left out. *)

Inductive intkind : Type :=
| int8 | int16 | int32 | int64 | uint16 | uint32 | uint64.

Definition unsigned (k : intkind) : bool :=
  match k with
  | uint16 | uint32 | uint64 => true
  | _ => false
  end.

Definition int_min (k : intkind) : Z :=
  match k with
  | int8 => - 2 ^ 7
  | int16 => - 2 ^ 15
  | int32 => - 2 ^ 31
  | int64 => - 2 ^ 63
  | uint16 | uint32 | uint64 => 0
  end.

Definition int_max (k : intkind) : Z :=
  match k with
  | int8 => 2 ^ 7 - 1
  | int16 => 2 ^ 15 - 1
  | int32 => 2 ^ 31 - 1
  | int64 => 2 ^ 63 - 1
  | uint16 => 2 ^ 16 - 1
  | uint32 => 2 ^ 32 - 1
  | uint64 => 2 ^ 64 - 1
  end.

#[local] Unset Elimination Schemes.
(** A struct type lists its fields in declaration order: the name that
    JSON uses and the type. *)
Inductive gotype : Type :=
| TBool
| TInt (k : intkind)
| TString
| TPtr (t : gotype)
| TSlice (t : gotype)
| TMap (t : gotype)
| TStruct (fs : list (string * gotype)).

(** A value.  [None] is the nil pointer, slice or map.  A map is the list
    of its entries in the order of their keys, byte by byte, which is the
    order the encoder writes them in; a struct value carries the names of
    its fields. *)
Inductive value : Type :=
| VBool (b : bool)
| VInt (n : Z)
| VString (s : string)
| VPtr (p : option value)
| VSlice (l : option (list value))
| VMap (m : option (list (string * value)))
| VStruct (fs : list (string * value)).
#[local] Set Elimination Schemes.

Section Lists.
Context {A : Type} (f : A -> string).

(** The texts of the elements with a comma between two of them. *)
Fixpoint commas (l : list A) : string :=
  match l with
  | [] => EmptyString
  | [x] => f x
  | x :: r => f x +:+ String ","%char (commas r)
  end.

End Lists.

(** [appendHTMLEscape], for the name of a struct field when HTML escaping
    is on. *)
Fixpoint HTMLEscape (s : string) : string :=
  match s with
  | EmptyString => EmptyString
  | String c r =>
      if json_enc.isHTML c then
        String backslash
          (String "u" (String "0" (String "0"
            (String (json_enc.hex_digit (byte c / 16))
              (String (json_enc.hex_digit (byte c mod 16)) (HTMLEscape r))))))
      else
        match r with
        | String c1 (String c2 r2) =>
            if ((byte c =? 0xE2) && (byte c1 =? 0x80)
                && ((byte c2 =? 0xA8) || (byte c2 =? 0xA9)))%N
            then
              String backslash
                (String "u" (String "2" (String "0" (String "2"
                  (String (json_enc.hex_digit (byte c2 mod 16))
                     (HTMLEscape r2))))))
            else String c (HTMLEscape r)
        | _ => String c (HTMLEscape r)
        end
  end.

(** The name of a struct field as the encoder writes it, with its quotes
    and colon: the name as it is, or HTML-escaped. *)
Definition struct_key (escapeHTML : bool) (name : string) : string :=
  String dquote
    ((if escapeHTML then HTMLEscape name else name) +:+ String dquote ":").

(** The encoding of a value.  A nil pointer, slice or map is [null]; a
    pointer is written as what it points to. *)
Fixpoint encode (escapeHTML : bool) (v : value) : string :=
  match v with
  | VBool b => if b then "true" else "false"
  | VInt n => strconv.FormatInt n
  | VString s => json_enc.appendString escapeHTML s
  | VPtr None | VSlice None | VMap None => "null"
  | VPtr (Some x) => encode escapeHTML x
  | VSlice (Some l) =>
      String "["%char (commas (encode escapeHTML) l +:+ "]")
  | VMap (Some m) =>
      String "{"%char
        (commas (fun e : string * value =>
                   json_enc.appendString escapeHTML e.1
                   +:+ String ":"%char (encode escapeHTML e.2)) m
         +:+ "}")
  | VStruct fs =>
      String "{"%char
        (commas (fun e : string * value =>
                   struct_key escapeHTML e.1 +:+ encode escapeHTML e.2) fs
         +:+ "}")
  end.

#[export] Instance value_Marshaler : Marshaler value := {|
  json_Marshal escapeHTML v := Ok (encode escapeHTML v)
|}.

(** The zero value of a type. *)
Fixpoint zero (t : gotype) : value :=
  match t with
  | TBool => VBool false
  | TInt _ => VInt 0
  | TString => VString ""
  | TPtr _ => VPtr None
  | TSlice _ => VSlice None
  | TMap _ => VMap None
  | TStruct fs => VStruct (List.map (fun f : string * gotype => (f.1, zero f.2)) fs)
  end.

(** The name of a kind in an [UnmarshalTypeError]. *)
Definition kind_name (t : gotype) : string :=
  match t with
  | TBool => "bool"
  | TInt int8 => "int8"
  | TInt int16 => "int16"
  | TInt int32 => "int32"
  | TInt int64 => "int64"
  | TInt uint16 => "uint16"
  | TInt uint32 => "uint32"
  | TInt uint64 => "uint64"
  | TString => "string"
  | TPtr _ => "ptr"
  | TSlice _ => "slice"
  | TMap _ => "map"
  | TStruct _ => "struct"
  end.

(** A number literal stored into an integer of kind [k]: the literal must
    be an integer in base 10 within the range of the kind. *)
Definition decode_int (k : intkind) (lit : string) : option Z :=
  let n := if unsigned k then Z.of_N <$> strconv.ParseUint lit
           else strconv.ParseInt lit in
  match n with
  | Some n =>
      if (int_min k <=? n) && (n <=? int_max k) then Some n else None
  | None => None
  end.

(** [SetMapIndex]: the entry for [k] is replaced or added, at its place in
    the order of the keys. *)
Fixpoint map_set (k : string) (x : value) (m : list (string * value))
  : list (string * value) :=
  match m with
  | [] => [(k, x)]
  | (k', x') :: r =>
      match String.compare k k' with
      | Eq => (k, x) :: r
      | Lt => (k, x) :: m
      | Gt => (k', x') :: map_set k x r
      end
  end.

Section Stores.
Context (dec : gotype -> json -> value -> value * option error).

(** The fields of a struct type as the decoder sees them: field [i] is
    decoded in place. *)
Fixpoint stores (i : nat) (fs : list (string * gotype)) : fields value :=
  match fs with
  | [] => []
  | (name, t) :: r =>
      (name, fun (j : json) (v : value) =>
               match v with
               | VStruct flds =>
                   match flds !! i with
                   | Some (n, old) =>
                       let '(x, e) := dec t j old in
                       (VStruct (<[i := (n, x)]> flds), e)
                   | None => (v, None)
                   end
               | _ => (v, None)
               end) :: stores (S i) r
  end.

(** The members of an object stored into a map: each value is decoded
    into a fresh zero element and the entry is set. *)
Fixpoint decode_entries (t : gotype) (z : value) (ms : list (string * json))
    (m : list (string * value)) (saved : option error)
  : list (string * value) * option error :=
  match ms with
  | [] => (m, saved)
  | (k, j) :: rest =>
      let '(x, e) := dec t j z in
      decode_entries t z rest (map_set k x m) (saveError saved e)
  end.

End Stores.

(** [json.Unmarshal] into a variable of type [t] that holds [v]. *)
Fixpoint decode_value (t : gotype) (j : json) (v : value)
  : value * option error :=
  match t with
  | TBool =>
      match j with
      | JBool b => (VBool b, None)
      | JNull => (v, None)
      | _ => (v, Some (UnmarshalTypeError (describe j) (kind_name t)))
      end
  | TInt k =>
      match j with
      | JNumber lit =>
          match decode_int k lit with
          | Some n => (VInt n, None)
          | None =>
              (v, Some (UnmarshalTypeError ("number " +:+ lit) (kind_name t)))
          end
      | JNull => (v, None)
      | _ => (v, Some (UnmarshalTypeError (describe j) (kind_name t)))
      end
  | TString =>
      match j with
      | JString s => (VString s, None)
      | JNull => (v, None)
      | _ => (v, Some (UnmarshalTypeError (describe j) (kind_name t)))
      end
  | TPtr t' =>
      match j with
      | JNull => (VPtr None, None)
      | _ =>
          let old := match v with
                     | VPtr (Some x) => x
                     | _ => zero t'
                     end in
          let '(x, e) := decode_value t' j old in
          (VPtr (Some x), e)
      end
  | TSlice t' =>
      let old := match v with
                 | VSlice l => l
                 | _ => None
                 end in
      let '(l, e) :=
        @decode_slice value {| decode := decode_value t' |} (zero t') j old in
      (VSlice l, e)
  | TMap t' =>
      match j with
      | JObject ms =>
          let old := match v with
                     | VMap (Some m) => m
                     | _ => []
                     end in
          let '(m, e) :=
            decode_entries decode_value t' (zero t') ms old None in
          (VMap (Some m), e)
      | JNull => (VMap None, None)
      | _ => (v, Some (UnmarshalTypeError (describe j) (kind_name t)))
      end
  | TStruct fs => decode_struct (stores decode_value 0 fs) j v
  end.

Definition value_Unmarshaler (t : gotype) : Unmarshaler value := {|
  decode := decode_value t
|}.

(** *** Which payloads JSON can represent *)

(** The value is written as [null]. *)
Definition is_null (v : value) : bool :=
  match v with
  | VPtr None | VSlice None | VMap None => true
  | _ => false
  end.

(** The keys are in strictly ascending order. *)
Fixpoint ascending (prev : option string) (m : list (string * value)) : bool :=
  match m with
  | [] => true
  | (k, _) :: r =>
      match prev with
      | Some p => String.ltb p k
      | None => true
      end && ascending (Some k) r
  end.

(** No name twice. *)
Fixpoint distinct (names : list string) : bool :=
  match names with
  | [] => true
  | n :: r => negb (existsb (String.eqb n) r) && distinct r
  end.

(** A value that JSON represents: its strings and keys are valid UTF-8
    (the encoder writes the replacement character for a byte that is not),
    a pointer that is not nil does not point to a nil pointer, slice or
    map (both are written [null]), a map has one entry for a key, and the
    names of the fields of a struct are distinct and made of printable
    ASCII without the quote and the backslash. *)
Fixpoint representable (v : value) : bool :=
  match v with
  | VBool _ | VInt _ => true
  | VString s => utf8.ValidString s
  | VPtr None | VSlice None | VMap None => true
  | VPtr (Some x) => negb (is_null x) && representable x
  | VSlice (Some l) => forallb representable l
  | VMap (Some m) =>
      ascending None m
      && forallb (fun e : string * value =>
                    utf8.ValidString e.1 && representable e.2) m
  | VStruct fs =>
      distinct (List.map fst fs)
      && forallb (fun e : string * value =>
                    all_bytes json_enc.safeSet e.1 && representable e.2) fs
  end.

(** How deep arrays and objects nest in the encoding of a value. *)
Fixpoint nesting (v : value) : N :=
  match v with
  | VPtr (Some x) => nesting x
  | VSlice (Some l) => 1 + fold_right N.max 0%N (List.map nesting l)
  | VMap (Some m) =>
      1 + fold_right N.max 0%N
            (List.map (fun e : string * value => nesting e.2) m)
  | VStruct fs =>
      1 + fold_right N.max 0%N
            (List.map (fun e : string * value => nesting e.2) fs)
  | _ => 0
  end.

(** The value is of the type. *)
Fixpoint has_type (t : gotype) (v : value) : bool :=
  match t, v with
  | TBool, VBool _ => true
  | TInt k, VInt n => (int_min k <=? n) && (n <=? int_max k)
  | TString, VString _ => true
  | TPtr _, VPtr None => true
  | TPtr t', VPtr (Some x) => has_type t' x
  | TSlice _, VSlice None => true
  | TSlice t', VSlice (Some l) => forallb (has_type t') l
  | TMap _, VMap None => true
  | TMap t', VMap (Some m) =>
      forallb (fun e : string * value => has_type t' e.2) m
  | TStruct fs, VStruct vs =>
      (fix fields_typed (fs : list (string * gotype))
           (vs : list (string * value)) : bool :=
         match fs, vs with
         | [], [] => true
         | (n, t') :: fr, (m, x) :: vr =>
             String.eqb n m && has_type t' x && fields_typed fr vr
         | _, _ => false
         end) fs vs
  | _, _ => false
  end.

(** What the scanner makes of the encoding of a value. *)
Fixpoint to_json (v : value) : json :=
  match v with
  | VBool b => JBool b
  | VInt n => JNumber (strconv.FormatInt n)
  | VString s => JString s
  | VPtr None | VSlice None | VMap None => JNull
  | VPtr (Some x) => to_json x
  | VSlice (Some l) => JArray (List.map to_json l)
  | VMap (Some m) =>
      JObject (List.map (fun e : string * value => (e.1, to_json e.2)) m)
  | VStruct fs =>
      JObject (List.map (fun e : string * value => (e.1, to_json e.2)) fs)
  end.

(** The strings of a value, in the order of its encoding: string values,
    map keys and field names. *)
Fixpoint texts (v : value) : string :=
  match v with
  | VString s => s
  | VPtr (Some x) => texts x
  | VSlice (Some l) => String.concat "" (List.map texts l)
  | VMap (Some m) =>
      String.concat "" (List.map (fun e : string * value => e.1 +:+ texts e.2) m)
  | VStruct fs =>
      String.concat "" (List.map (fun e : string * value => e.1 +:+ texts e.2) fs)
  | _ => EmptyString
  end.

(** ** The client core shared by both packages *)

Definition BaseUrl : string := "https://api.utho.com/v2/".

(** The per-resource services are views of one [service] value that holds
    only the back pointer to the client; a service pointer is [None] (nil)
    until [NewClient] has assigned it. *)
Inductive service := commonService.

(** The client.  Its base URL pointer is never nil: [NewClient] takes it
    from a successful parse. *)
Record client := {
  httpClient : http_Client;
  baseURL : URL;
  token : string;
  account : option service;
  apiKey : option service
}.

Definition set_services (c : client) : client :=
  {| httpClient := httpClient c; baseURL := baseURL c; token := token c;
     account := Some commonService; apiKey := Some commonService |}.

(** The client that [NewClient] builds before it runs the options: the
    default HTTP client, the base URL, the token, and no service yet. *)
Definition fresh_client (hc : http_Client) (b : URL) (tok : string) : client :=
  {| httpClient := hc; baseURL := b; token := tok;
     account := None; apiKey := None |}.

(** A construction option, a function from a client pointer to an error:
    the client after the call and the error it reports. *)
Definition ClientOption := client -> client * option error.

(** Two options as one: the second runs on the client the first left,
    unless the first failed.  It serves to state how [NewClient] chains
    its options. *)
Definition then_option (o1 o2 : ClientOption) : ClientOption := fun c =>
  match o1 c with
  | (c1, None) => o2 c1
  | (c1, Some err) => (c1, Some err)
  end.

Section Core.
Context `{NetURL} `{Network}.

Definition toURLWithEndingSlash (u : string) : option URL * option error :=
  match url_Parse u with
  | Err err => (None, Some err)
  | Ok baseURL =>
      let baseURL :=
        if negb (HasSuffix (Path baseURL) "/")
        then set_Path baseURL (Path baseURL +:+ "/")
        else baseURL in
      (Some baseURL, None)
  end.

(** The loop [for _, option := range options] of [NewClient]. *)
Fixpoint apply_options (c : client) (options : list ClientOption)
  : client * option error :=
  match options with
  | [] => (c, None)
  | option :: rest =>
      match option c with
      | (_, Some err) => (c, Some err)
      | (c', None) => apply_options c' rest
      end
  end.

(** The buffer of [NewRequest]: it holds the encoded payload when
    [len(body) > 0 && body[0] != nil], and is nil otherwise. *)
Definition encode_body {P} `{Marshaler P} (body : list (option P))
  : result (option string) :=
  match body with
  | Some payload :: _ =>
      match json_Encode false payload with
      | Err err => Err err
      | Ok buf => Ok (Some buf)
      end
  | _ => Ok None
  end.

(** [checkForErrors].  [io.ReadAll] never returns a nil slice, so the test
    [err == nil && data != nil] is the test [err == nil]. *)
Definition checkForErrors (resp : Response) : outcome (option error) :=
  let c := StatusCode resp in
  if (200 <=? c) && (c <? 400) then Returns None
  else
    let errorResponse :=
      {| ErrResponse := resp; ErrStatus := ""; ErrMessage := "" |} in
    match Body resp with
    | None => Panics nil_deref
    | Some rc =>
        let '(data, err) := io_ReadAll rc in
        let errorResponse :=
          match err with
          | None => fst (json_Unmarshal data errorResponse)
          | Some _ => errorResponse
          end in
        Returns (Some (apiError errorResponse))
    end.

(** The first statement of [Do]:
    [req.Header.Set("Authorization", "Bearer "+c.token)]. *)
Definition authorize (c : client) (req : Request) : Request :=
  set_ReqHeader req
    (Header_Set (ReqHeader req) "Authorization" ("Bearer " +:+ token c)).

(** [Do].  The request and the target are pointers: [None] is nil.  The
    result is the returned pair and the target after the call. *)
Definition Do {T} `{Unmarshaler T} (c : client) (req : option Request)
    (v : option T) : outcome (option Response * option error * option T) :=
  match req with
  | None => Panics nil_deref
  | Some req =>
      let req := authorize c req in
      match http_Client_Do (httpClient c) req with
      | Err err => Returns (None, Some err, v)
      | Ok resp =>
          match Body resp with
          | None => Panics nil_deref      (* defer resp.Body.Close() *)
          | Some rc =>
              match checkForErrors resp with
              | Panics m => Panics m
              | Returns (Some err) => Returns (Some resp, Some err, v)
              | Returns None =>
                  match v with
                  | Some target =>
                      let '(body, err) := io_ReadAll rc in
                      match err with
                      | Some err => Returns (Some resp, Some err, v)
                      | None =>
                          let '(target', err) := json_Unmarshal body target in
                          match err with
                          | Some err => Returns (Some resp, Some err, Some target')
                          | None => Returns (Some resp, None, Some target')
                          end
                      end
                  | None => Returns (Some resp, None, v)
                  end
              end
          end
      end
  end.

End Core.

(** The body of [resp] can be read to its end and decodes, from the zero
    value [zero], into [v] without an error. *)
Definition decodes_to {T} `{Unmarshaler T} (resp : Response) (zero v : T)
  : Prop :=
  exists rc, Body resp = Some rc /\ readErr rc = None
             /\ json_Unmarshal (content rc) zero = (v, None).

(** A call without a payload: the variadic [body] is empty. *)
#[export] Instance Empty_set_Marshaler : Marshaler Empty_set := {|
  json_Marshal := fun _ (p : Empty_set) => match p with end
|}.

Definition no_body : list (option Empty_set) := [].

(** ** The full client *)
Module Root.
Section Root.
Context `{NetURL} `{Network}.

Definition defaultHTTPClient : http_Client :=
  {| Timeout := Second * 300; RoundTrip := DefaultTransport |}.

(** [NewClient].  The pair (nil, nil) is never returned by
    [toURLWithEndingSlash] (lemma [toURLWithEndingSlash_one]); its branch
    only makes the match total. *)
Definition NewClient (token : string) (options : list ClientOption)
  : option client * option error :=
  if String.eqb token "" then
    (None, Some (errorString "you must provide an API token"))
  else
    match toURLWithEndingSlash BaseUrl with
    | (_, Some err) => (None, Some err)
    | (None, None) => (None, None)
    | (Some defaultBaseURL, None) =>
        let client := {| httpClient := defaultHTTPClient;
                         baseURL := defaultBaseURL;
                         token := token;
                         account := None; apiKey := None |} in
        match apply_options client options with
        | (_, Some err) => (None, Some err)
        | (client, None) => (Some (set_services client), None)
        end
    end.

Definition NewRequest {P} `{Marshaler P} (c : client) (method url : string)
    (body : list (option P)) : option Request * option error :=
  match URL_Parse (baseURL c) url with
  | Err err => (None, Some err)
  | Ok fullUrl =>
      match encode_body body with
      | Err err => (None, Some err)
      | Ok buf =>
          match http_NewRequest method (URL_String fullUrl) buf with
          | Err err => (None, Some err)
          | Ok req =>
              let h := Header_Add (ReqHeader req)
                         "Content-Type" "application/json" in
              let h := Header_Add h "Accept-Encoding" "application/json" in
              (Some (set_ReqHeader req h), None)
          end
      end
  end.

End Root.
End Root.

(** ** The client in [utho/utho.go] *)
Module Sub.
Section Sub.
Context `{NetURL} `{Network}.

Definition version : string := "1.49.0".

Definition defaultHTTPClient : http_Client :=
  {| Timeout := Second * 5; RoundTrip := DefaultTransport |}.

(** [NewClient]; see [Root.NewClient] for the branch (nil, nil). *)
Definition NewClient (token : string) (options : list ClientOption)
  : option client * option error :=
  if String.eqb token "" then
    (None, Some (errorString "you must provide an API token"))
  else
    match toURLWithEndingSlash BaseUrl with
    | (_, Some err) => (None, Some err)
    | (None, None) => (None, None)
    | (Some defaultBaseURL, None) =>
        let client := {| httpClient := defaultHTTPClient;
                         baseURL := defaultBaseURL;
                         token := token;
                         account := None; apiKey := None |} in
        match apply_options client options with
        | (_, Some err) => (None, Some err)
        | (client, None) => (Some (set_services client), None)
        end
    end.

Definition NewRequest {P} `{Marshaler P} (c : client) (method url : string)
    (body : list (option P)) : option Request * option error :=
  match URL_Parse (baseURL c) url with
  | Err err => (None, Some err)
  | Ok fullUrl =>
      match encode_body body with
      | Err err => (None, Some err)
      | Ok buf =>
          match http_NewRequest method (URL_String fullUrl) buf with
          | Err err => (None, Some err)
          | Ok req =>
              (* the header with the SDK version *)
              let h := Header_Set (ReqHeader req)
                         "X-Clerk-SDK" ("go/" +:+ version) in
              (Some (set_ReqHeader req h), None)
          end
      end
  end.

End Sub.
End Sub.

(** ** The API-key service ([utho/api_key.go]) *)

Module ApiKey.
Record t := {
  ID : string;
  Name : string;
  Write : string;
  CreatedAt : string
}.
Definition zero : t := {| ID := ""; Name := ""; Write := ""; CreatedAt := "" |}.

Definition json_fields : fields t :=
  [ ("id"%string, fun j v =>
       let '(s, err) := decode j (ID v) in
       ({| ID := s; Name := Name v; Write := Write v;
           CreatedAt := CreatedAt v |}, err));
    ("name"%string, fun j v =>
       let '(s, err) := decode j (Name v) in
       ({| ID := ID v; Name := s; Write := Write v;
           CreatedAt := CreatedAt v |}, err));
    ("write"%string, fun j v =>
       let '(s, err) := decode j (Write v) in
       ({| ID := ID v; Name := Name v; Write := s;
           CreatedAt := CreatedAt v |}, err));
    ("created_at"%string, fun j v =>
       let '(s, err) := decode j (CreatedAt v) in
       ({| ID := ID v; Name := Name v; Write := Write v;
           CreatedAt := s |}, err)) ].
End ApiKey.

#[export] Instance ApiKey_Unmarshaler : Unmarshaler ApiKey.t := {|
  decode := decode_struct ApiKey.json_fields
|}.

Module ApiKeys.
(** [API] is a slice: [None] is the nil slice. *)
Record t := {
  Status : string;
  Message : string;
  API : option (list ApiKey.t)
}.
Definition zero : t := {| Status := ""; Message := ""; API := None |}.

Definition json_fields : fields t :=
  [ ("status"%string, fun j v =>
       let '(s, err) := decode j (Status v) in
       ({| Status := s; Message := Message v; API := API v |}, err));
    ("message"%string, fun j v =>
       let '(s, err) := decode j (Message v) in
       ({| Status := Status v; Message := s; API := API v |}, err));
    ("api"%string, fun j v =>
       let '(l, err) := decode_slice ApiKey.zero j (API v) in
       ({| Status := Status v; Message := Message v; API := l |}, err)) ].
End ApiKeys.

#[export] Instance ApiKeys_Unmarshaler : Unmarshaler ApiKeys.t := {|
  decode := decode_struct ApiKeys.json_fields
|}.

Module CreateApiKeyParams.
Record t := {
  Name : string;
  Write : string
}.
Definition zero : t := {| Name := ""; Write := "" |}.

Definition json_fields : fields t :=
  [ ("name"%string, fun j v =>
       let '(s, err) := decode j (Name v) in
       ({| Name := s; Write := Write v |}, err));
    ("write"%string, fun j v =>
       let '(s, err) := decode j (Write v) in
       ({| Name := Name v; Write := s |}, err)) ].
End CreateApiKeyParams.

(** The name of a struct field as the encoder writes it, with its colon. *)
Definition field_name (name : string) : string :=
  String dquote (name +:+ String dquote ":").

(** A pointer to [CreateApiKeyParams] is encoded as the object of its two
    fields, in declaration order. *)
#[export] Instance CreateApiKeyParams_Marshaler
  : Marshaler CreateApiKeyParams.t := {|
  json_Marshal escapeHTML p :=
    Ok ("{" +:+ field_name "name"
            +:+ json_enc.appendString escapeHTML (CreateApiKeyParams.Name p)
            +:+ "," +:+ field_name "write"
            +:+ json_enc.appendString escapeHTML (CreateApiKeyParams.Write p)
            +:+ "}")
|}.

#[export] Instance CreateApiKeyParams_Unmarshaler
  : Unmarshaler CreateApiKeyParams.t := {|
  decode := decode_struct CreateApiKeyParams.json_fields
|}.

(** A [CreateApiKeyParams] as a value of the universe. *)
Definition CreateApiKeyParams_type : gotype :=
  TStruct [("name"%string, TString); ("write"%string, TString)].

Definition CreateApiKeyParams_value (p : CreateApiKeyParams.t) : value :=
  VStruct [("name"%string, VString (CreateApiKeyParams.Name p));
           ("write"%string, VString (CreateApiKeyParams.Write p))].

Module CreateApiKeyResponse.
Record t := {
  Status : string;
  Apikey : string;
  Message : string
}.
Definition zero : t := {| Status := ""; Apikey := ""; Message := "" |}.

Definition json_fields : fields t :=
  [ ("status"%string, fun j v =>
       let '(s, err) := decode j (Status v) in
       ({| Status := s; Apikey := Apikey v; Message := Message v |}, err));
    ("apikey"%string, fun j v =>
       let '(s, err) := decode j (Apikey v) in
       ({| Status := Status v; Apikey := s; Message := Message v |}, err));
    ("message"%string, fun j v =>
       let '(s, err) := decode j (Message v) in
       ({| Status := Status v; Apikey := Apikey v; Message := s |}, err)) ].
End CreateApiKeyResponse.

#[export] Instance CreateApiKeyResponse_Unmarshaler
  : Unmarshaler CreateApiKeyResponse.t := {|
  decode := decode_struct CreateApiKeyResponse.json_fields
|}.

(** Modelled from the spec: the declaration of [DeleteResponse] is not
    among the source files.  The tests build it from a [Status] and a
    [Message], and the spec's envelope names the two JSON fields. *)
Module DeleteResponse.
Record t := {
  Status : string;
  Message : string
}.
Definition zero : t := {| Status := ""; Message := "" |}.

Definition json_fields : fields t :=
  [ ("status"%string, fun j v =>
       let '(s, err) := decode j (Status v) in
       ({| Status := s; Message := Message v |}, err));
    ("message"%string, fun j v =>
       let '(s, err) := decode j (Message v) in
       ({| Status := Status v; Message := s |}, err)) ].
End DeleteResponse.

#[export] Instance DeleteResponse_Unmarshaler
  : Unmarshaler DeleteResponse.t := {|
  decode := decode_struct DeleteResponse.json_fields
|}.

Module ApiKeyService.
Section ApiKeyService.
Context `{NetURL} `{Network}.

(** The service's client is the client it was made from; [s.client] is
    passed as [c].  The error of [NewRequest] is dropped ([req, _ := ...]).
    The local variable that [Do] fills is read back from [Do]'s third
    result. *)
Definition Create (c : client) (params : CreateApiKeyParams.t)
  : outcome (option CreateApiKeyResponse.t * option error) :=
  let reqUrl := "api/generate"%string in
  let '(req, _) := Sub.NewRequest c "POST" reqUrl [Some params] in
  let apiKey := CreateApiKeyResponse.zero in
  match Do c req (Some apiKey) with
  | Panics m => Panics m
  | Returns (_, Some err, _) => Returns (None, Some err)
  | Returns (_, None, v) =>
      let apiKey := default apiKey v in
      if negb (String.eqb (CreateApiKeyResponse.Status apiKey) "success")
         && negb (String.eqb (CreateApiKeyResponse.Status apiKey) "")
      then Returns (None, Some (errorString (CreateApiKeyResponse.Message apiKey)))
      else Returns (Some apiKey, None)
  end.

Definition List (c : client)
  : outcome (option (list ApiKey.t) * option error) :=
  let reqUrl := "api"%string in
  let '(req, _) := Sub.NewRequest c "GET" reqUrl no_body in
  let apikeys := ApiKeys.zero in
  match Do c req (Some apikeys) with
  | Panics m => Panics m
  | Returns (_, Some err, _) => Returns (None, Some err)
  | Returns (_, None, v) =>
      let apikeys := default apikeys v in
      if negb (String.eqb (ApiKeys.Status apikeys) "success")
         && negb (String.eqb (ApiKeys.Status apikeys) "")
      then Returns (None, Some (errorString (ApiKeys.Message apikeys)))
      else Returns (ApiKeys.API apikeys, None)
  end.

Definition Delete (c : client) (apiKeyId : string)
  : outcome (option DeleteResponse.t * option error) :=
  let reqUrl := ("api/" +:+ apiKeyId +:+ "/delete")%string in
  let '(req, _) := Sub.NewRequest c "DELETE" reqUrl no_body in
  let delResponse := DeleteResponse.zero in
  match Do c req (Some delResponse) with
  | Panics m => Panics m
  | Returns (_, Some err, _) => Returns (None, Some err)
  | Returns (_, None, v) =>
      let delResponse := default delResponse v in
      if negb (String.eqb (DeleteResponse.Status delResponse) "success")
         && negb (String.eqb (DeleteResponse.Status delResponse) "")
      then Returns (None, Some (errorString (DeleteResponse.Message delResponse)))
      else Returns (Some delResponse, None)
  end.

End ApiKeyService.
End ApiKeyService.

(** ** A small world to run the client in

    [simple_url] is an executable instance of [NetURL] for URLs of the shape
    [https://host/path] and for relative paths: it rejects a malformed
    percent escape and otherwise keeps the text as it is (no query, no
    fragment, no unescaping, no dot segments).  [server] is a network whose
    server answers every request with one status and body.  The general
    theorems below do not depend on either. *)
Module Example.

(** [js] writes a JSON text with ' in place of the double quote. *)
Fixpoint js (s : string) : string :=
  match s with
  | EmptyString => EmptyString
  | String c r => String (if Ascii.eqb c "'"%char then dquote else c) (js r)
  end.

Definition ishex (c : ascii) : bool :=
  match json_dec.hexval c with
  | Some _ => true
  | None => false
  end.

Fixpoint bad_escape (s : string) : bool :=
  match s with
  | EmptyString => false
  | String c r =>
      if Ascii.eqb c "%"%char then
        match r with
        | String a (String b r') =>
            if ishex a && ishex b then bad_escape r' else true
        | _ => true
        end
      else bad_escape r
  end.

(** The text up to the first slash, and the text from it on. *)
Fixpoint cut_slash (s : string) : string * string :=
  match s with
  | EmptyString => (EmptyString, EmptyString)
  | String c r =>
      if Ascii.eqb c "/"%char then (EmptyString, s)
      else let '(a, b) := cut_slash r in (String c a, b)
  end.

(** The text up to the last slash, with it. *)
Fixpoint dir (s : string) : string :=
  match s with
  | EmptyString => EmptyString
  | String c r =>
      match dir r with
      | EmptyString =>
          if Ascii.eqb c "/"%char then String c EmptyString else EmptyString
      | d => String c d
      end
  end.

Definition relative (p : string) : URL :=
  {| Scheme := ""; Opaque := ""; User := None; Host := ""; Path := p;
     RawPath := ""; OmitHost := false; ForceQuery := false; RawQuery := "";
     Fragment := ""; RawFragment := "" |}.

Definition simple_Parse (s : string) : result URL :=
  if bad_escape s then Err (urlError "parse" s "invalid URL escape")
  else if String.prefix "https://" s then
    let '(host, path) := cut_slash (drop_bytes 8 s) in
    Ok {| Scheme := "https"; Opaque := ""; User := None; Host := host;
          Path := path; RawPath := ""; OmitHost := false;
          ForceQuery := false; RawQuery := ""; Fragment := "";
          RawFragment := "" |}
  else Ok (relative s).

Definition simple_Resolve (base ref : URL) : URL :=
  if negb (String.eqb (Scheme ref) "") then ref
  else if String.prefix "/" (Path ref) then set_Path base (Path ref)
  else set_Path base (dir (Path base) +:+ Path ref).

Definition simple_String (u : URL) : string :=
  if String.eqb (Scheme u) "" then Path u
  else Scheme u +:+ "://" +:+ Host u +:+ Path u.

Definition simple_url : NetURL := {|
  url_Parse := simple_Parse;
  URL_ResolveReference := simple_Resolve;
  URL_String := simple_String
|}.

Definition reply (status : Z) (body : string) : Response :=
  {| StatusCode := status; RespHeader := ∅;
     Body := Some {| content := body; readErr := None |} |}.

(** [urlErrorOp]: the method with its first letter kept and the others in
    lower case; [Get] for the empty method. *)
Fixpoint lower (s : string) : string :=
  match s with
  | EmptyString => EmptyString
  | String c r =>
      String (if ((65 <=? byte c) && (byte c <=? 90))%N
              then ascii_of_N (byte c + 32) else c) (lower r)
  end.

Definition urlErrorOp (method : string) : string :=
  match method with
  | EmptyString => "Get"
  | String c r => String c (lower r)
  end.

(** [http.Client.Do] where no server redirects and no password is in the
    URL: the round tripper's response, with a nil body replaced by an
    empty one, or the round tripper's error inside a [url.Error]. *)
Definition client_do (hc : http_Client) (req : Request) : result Response :=
  match RoundTrip hc req with
  | Err e =>
      Err (urlErrorOf (urlErrorOp (Method req)) (simple_String (ReqURL req)) e)
  | Ok resp =>
      match Body resp with
      | Some _ => Ok resp
      | None =>
          Ok {| StatusCode := StatusCode resp; RespHeader := RespHeader resp;
                Body := Some {| content := ""; readErr := None |} |}
      end
  end.

(** It returns no response without a body. *)
Definition client_do_body (hc : http_Client) (req : Request)
    (resp : Response) :
  client_do hc req = Ok resp -> exists rc, Body resp = Some rc.
Proof.
  unfold client_do. destruct (RoundTrip hc req) as [r|e]; [|discriminate].
  destruct (Body r) as [rc|] eqn:Hb; intros [= <-]; eauto.
Qed.

(** The network on which every request gets the answer [answer]. *)
Definition network (answer : result Response) : Network :=
  {| DefaultTransport := fun _ => answer;
     http_Client_Do := client_do;
     http_Client_Do_body := client_do_body |}.

Definition server (status : Z) (body : string) : Network :=
  network (Ok (reply status body)).

(** A client of [utho/utho.go] that talks to [server]. *)
Definition client_of (status : Z) (body : string) : client :=
  {| httpClient := @Sub.defaultHTTPClient (server status body);
     baseURL := {| Scheme := "https"; Opaque := ""; User := None;
                   Host := "api.utho.com"; Path := "/v2/"; RawPath := "";
                   OmitHost := false; ForceQuery := false; RawQuery := "";
                   Fragment := ""; RawFragment := "" |};
     token := "tok";
     account := Some commonService; apiKey := Some commonService |}.

End Example.


(** Inputs for the runs below. *)
Module Runs.
Import Example.

Definition params0 : CreateApiKeyParams.t :=
  {| CreateApiKeyParams.Name := "a<b>&c"; CreateApiKeyParams.Write := "1" |}.

(** A request as [http.NewRequest] leaves it. *)
Definition request0 : Request :=
  {| Method := "GET"; ReqURL := baseURL (client_of 200 "");
     ReqHeader := ∅; ReqBody := None; ReqHost := "api.utho.com" |}.

Definition failed_body : string :=
  js "{'status':'failed','message':'quota exceeded'}".

End Runs.

(** ** The accessors and the envelope on the wire *)

(** The accessors [Account] and [ApiKey] of the client. *)
Definition Account (c : client) : option service := account c.
Definition ApiKey (c : client) : option service := apiKey c.

(** The JSON object with a [status] and a [message], in this order, as
    Go's encoder writes the two strings. *)
Definition envelope_text (status message : string) : string :=
  String "{"%char
    (json_enc.member_text "status" status
       (String ","%char
          (json_enc.member_text "message" message
             (String "}"%char EmptyString)))).

(** A response that carries the envelope. *)
Definition envelope_reply (code : Z) (status message : string) : Response :=
  {| StatusCode := code; RespHeader := ∅;
     Body := Some {| content := envelope_text status message;
                     readErr := None |} |}.

(** The text is not a JSON object with a key that matches the field
    [status]: none of its keys folds to STATUS. *)
Definition no_status_key (data : string) : Prop :=
  forall ms, json_dec.parse data = POk (JObject ms) ->
  forall k x, In (k, x) ms -> foldName k <> Some "STATUS"%string.

(** More inputs for the runs: a network that is down, a response whose
    body cannot be read, and three construction options. *)
Module Cases.

Definition down : Network :=
  Example.network (Err (httpError "connection refused")).

(** A client of [utho/utho.go] on the network [net]. *)
Definition client_on (net : Network) : client :=
  {| httpClient := @Sub.defaultHTTPClient net;
     baseURL := baseURL (Example.client_of 200 "");
     token := "tok";
     account := Some commonService; apiKey := Some commonService |}.

Definition unreadable (status : Z) : Response :=
  {| StatusCode := status; RespHeader := ∅;
     Body := Some {| content := "{"; readErr := Some "unexpected EOF" |} |}.

Definition cut_off (status : Z) : Network :=
  Example.network (Ok (unreadable status)).

(** An option that replaces the HTTP client's timeout and forgets the
    service pointers, and an option that fails. *)
Definition with_timeout (d : Z) : ClientOption := fun c =>
  ({| httpClient := {| Timeout := d; RoundTrip := RoundTrip (httpClient c) |};
      baseURL := baseURL c; token := token c;
      account := None; apiKey := None |}, None).

Definition refuse (msg : string) : ClientOption := fun c =>
  (c, Some (errorString msg)).

(** An option that replaces the token. *)
Definition with_token (tok : string) : ClientOption := fun c =>
  ({| httpClient := httpClient c; baseURL := baseURL c; token := tok;
      account := account c; apiKey := apiKey c |}, None).

End Cases.

(** * Properties *)

(** ** Strings *)

Lemma HasSuffix_slash_cons (c : ascii) (r : string) :
  HasSuffix (String c r) "/" =
  match r with
  | EmptyString => Ascii.eqb c "/"%char
  | String _ _ => HasSuffix r "/"
  end.
Proof.
  unfold HasSuffix. destruct r as [|d r']; simpl.
  - destruct (Ascii.eqb_spec c "/"%char) as [->|Hne]; [reflexivity|].
    destruct (String.eqb_spec (String c EmptyString) "/") as [Heq|_];
      [congruence|reflexivity].
  - rewrite Nat.sub_0_r. reflexivity.
Qed.

(** [HasSuffix s "/"] holds exactly when [s] ends in a slash. *)
Lemma HasSuffix_slash_spec (s : string) :
  HasSuffix s "/" = true <-> exists p, s = p +:+ "/".
Proof.
  induction s as [|c r IH].
  - split; [discriminate|]. intros [[|? ?] Hp]; discriminate.
  - rewrite HasSuffix_slash_cons. destruct r as [|d r'].
    + split.
      * intros ->%Ascii.eqb_eq. by exists EmptyString.
      * intros [[|a [|b p]] Hp]; simpl in Hp; try discriminate.
        injection Hp as ->. reflexivity.
    + rewrite IH. split.
      * intros [p ->]. by exists (String c p).
      * intros [[|a p] Hp]; simpl in Hp; [discriminate|].
        injection Hp as -> Hp. by exists p.
Qed.

(** ** The transport never hands out a response without a body *)

(** ** Storing into a struct keeps what no field store touches *)

Section Decode_invariant.
Context {T : Type} (fs : fields T) (P : T -> Prop).
Hypothesis stores_keep :
  forall name store, In (name, store) fs -> forall j v, P v -> P (fst (store j v)).

Lemma find_field_In (key : string) store :
  find_field fs key = Some store -> exists name, In (name, store) fs.
Proof.
  unfold find_field.
  destruct (List.find _ fs) as [[n st]|] eqn:Hf.
  - intros [= <-]. apply List.find_some in Hf as [Hin _]. eauto.
  - clear Hf. destruct (foldName key) as [k|]; [|discriminate].
    destruct (List.find _ fs) as [[n st]|] eqn:Hg; simpl; [|discriminate].
    intros [= <-]. apply List.find_some in Hg as [Hin _]. eauto.
Qed.

Lemma decode_members_keeps ms : forall v saved,
  P v -> P (fst (decode_members fs ms v saved)).
Proof.
  induction ms as [|[key x] ms IH]; intros v saved Hv; simpl; [done|].
  destruct (find_field fs key) as [store|] eqn:Hf; [|by apply IH].
  destruct (find_field_In _ _ Hf) as [name Hin].
  pose proof (stores_keep name store Hin x v Hv) as Hst.
  destruct (store x v) as [v' e]. by apply IH.
Qed.

Lemma decode_struct_keeps j v : P v -> P (fst (decode_struct fs j v)).
Proof.
  destruct j; simpl; try done. apply decode_members_keeps.
Qed.

End Decode_invariant.

Lemma json_Unmarshal_keeps {T} `{Unmarshaler T} (P : T -> Prop) :
  (forall j v, P v -> P (fst (decode j v))) ->
  forall data v, P v -> P (fst (json_Unmarshal data v)).
Proof.
  intros Hd data v Hv. unfold json_Unmarshal.
  destruct (json_dec.parse data); simpl; auto.
Qed.

(** Decoding an error body never replaces the response the envelope
    carries. *)
Lemma ErrorResponse_decode_Response (data : string) (e : ErrorResponse) :
  ErrResponse (fst (json_Unmarshal data e)) = ErrResponse e.
Proof.
  apply (json_Unmarshal_keeps (fun e' => ErrResponse e' = ErrResponse e));
    [|reflexivity].
  intros j v Hv. simpl. apply decode_struct_keeps; [|done].
  intros name store Hin j' v' Hv'.
  simpl in Hin. destruct Hin as [[= <- <-]|[[= <- <-]|[]]]; simpl;
    destruct j'; simpl; done.
Qed.

(** ** Construction *)

Section Construction.
Context `{NetURL} `{Network}.

(** [toURLWithEndingSlash] returns exactly one of a URL and an error. *)
Lemma toURLWithEndingSlash_one (u : string) :
  (exists b, toURLWithEndingSlash u = (Some b, None))
  \/ (exists e, toURLWithEndingSlash u = (None, Some e)).
Proof.
  unfold toURLWithEndingSlash. destruct (url_Parse u); eauto.
Qed.

Lemma Root_NewClient_no_options (token : string) :
  token <> "" ->
  forall b, toURLWithEndingSlash BaseUrl = (Some b, None) ->
  Root.NewClient token [] =
  (Some {| httpClient := Root.defaultHTTPClient; baseURL := b; token := token;
           account := Some commonService; apiKey := Some commonService |}, None).
Proof.
  intros Hne b Hb. unfold Root.NewClient.
  destruct (String.eqb_spec token "") as [?|_]; [done|].
  rewrite Hb. reflexivity.
Qed.

Lemma Sub_NewClient_no_options (token : string) :
  token <> "" ->
  forall b, toURLWithEndingSlash BaseUrl = (Some b, None) ->
  Sub.NewClient token [] =
  (Some {| httpClient := Sub.defaultHTTPClient; baseURL := b; token := token;
           account := Some commonService; apiKey := Some commonService |}, None).
Proof.
  intros Hne b Hb. unfold Sub.NewClient.
  destruct (String.eqb_spec token "") as [?|_]; [done|].
  rewrite Hb. reflexivity.
Qed.

(** A client that [NewClient] returns without options has a non-empty
    token, the package's default HTTP client and the normalized base URL. *)
Lemma Root_NewClient_inv (token : string) (c : client) (e : option error) :
  Root.NewClient token [] = (Some c, e) ->
  token <> "" /\ e = None /\ httpClient c = Root.defaultHTTPClient
  /\ toURLWithEndingSlash BaseUrl = (Some (baseURL c), None).
Proof.
  unfold Root.NewClient.
  destruct (String.eqb_spec token "") as [?|Hne]; [discriminate|].
  destruct (toURLWithEndingSlash BaseUrl) as [[b|] [err|]] eqn:Hb;
    try discriminate.
  simpl. intros [= <- <-]. done.
Qed.

Lemma Sub_NewClient_inv (token : string) (c : client) (e : option error) :
  Sub.NewClient token [] = (Some c, e) ->
  token <> "" /\ e = None /\ httpClient c = Sub.defaultHTTPClient
  /\ toURLWithEndingSlash BaseUrl = (Some (baseURL c), None).
Proof.
  unfold Sub.NewClient.
  destruct (String.eqb_spec token "") as [?|Hne]; [discriminate|].
  destruct (toURLWithEndingSlash BaseUrl) as [[b|] [err|]] eqn:Hb;
    try discriminate.
  simpl. intros [= <- <-]. done.
Qed.

(** [NewClient] returns either a client with its service pointers set and
    no error, or no client and an error. *)
Lemma Root_NewClient_result (tok : string) (options : list ClientOption) :
  (exists c, Root.NewClient tok options = (Some c, None)
             /\ account c = Some commonService
             /\ apiKey c = Some commonService)
  \/ (exists e, Root.NewClient tok options = (None, Some e)).
Proof.
  unfold Root.NewClient. destruct (String.eqb tok ""); [eauto|].
  destruct (toURLWithEndingSlash_one BaseUrl) as [[b ->]|[e ->]]; [|eauto].
  destruct (apply_options _ options) as [c [e|]]; eauto.
Qed.

Lemma Sub_NewClient_result (tok : string) (options : list ClientOption) :
  (exists c, Sub.NewClient tok options = (Some c, None)
             /\ account c = Some commonService
             /\ apiKey c = Some commonService)
  \/ (exists e, Sub.NewClient tok options = (None, Some e)).
Proof.
  unfold Sub.NewClient. destruct (String.eqb tok ""); [eauto|].
  destruct (toURLWithEndingSlash_one BaseUrl) as [[b ->]|[e ->]]; [|eauto].
  destruct (apply_options _ options) as [c [e|]]; eauto.
Qed.

(** C4: in both packages, [NewClient] with an empty token returns a nil
    client and the error "you must provide an API token", whatever the
    options; with a non-empty token and no options it returns a client with
    that token, both service pointers set, and a nil error.  The second
    part needs [url.Parse] to accept the constant [BaseUrl].  Whatever the
    token and the options, a client is returned only with both service
    pointers set and without an error, and otherwise an error is returned
    without a client. *)
Theorem NewClient_token (tok : string) (options : list ClientOption) :
  ((exists c, Root.NewClient tok options = (Some c, None)
              /\ account c = Some commonService
              /\ apiKey c = Some commonService)
   \/ (exists e, Root.NewClient tok options = (None, Some e)))
  /\ ((exists c, Sub.NewClient tok options = (Some c, None)
              /\ account c = Some commonService
              /\ apiKey c = Some commonService)
   \/ (exists e, Sub.NewClient tok options = (None, Some e)))
  /\ (tok = "" ->
   Root.NewClient tok options
     = (None, Some (errorString "you must provide an API token"))
   /\ Sub.NewClient tok options
     = (None, Some (errorString "you must provide an API token")))
  /\ (tok <> "" ->
      forall u, url_Parse BaseUrl = Ok u ->
      exists c c',
        Root.NewClient tok [] = (Some c, None)
        /\ Sub.NewClient tok [] = (Some c', None)
        /\ token c = tok /\ token c' = tok
        /\ account c = Some commonService /\ apiKey c = Some commonService
        /\ account c' = Some commonService /\ apiKey c' = Some commonService).
Proof.
  split; [apply Root_NewClient_result|].
  split; [apply Sub_NewClient_result|].
  split.
  - intros ->. done.
  - intros Hne u Hu.
    assert (exists b, toURLWithEndingSlash BaseUrl = (Some b, None)) as [b Hb].
    { unfold toURLWithEndingSlash. rewrite Hu. eauto. }
    eexists _, _. split; [by apply Root_NewClient_no_options|].
    split; [by apply Sub_NewClient_no_options|]. done.
Qed.

End Construction.

(** ** The default timeout *)

Section Timeout.
Context `{NetURL} `{Network}.

(** C9, as amended: the default HTTP client of the full client has a
    timeout of 300 seconds, five minutes; the one of [utho/utho.go] has a
    timeout of 5 seconds, under a minute.  Both are positive,
    hence bounded (a zero timeout means none), and [NewClient] without
    options installs the package's default. *)
Theorem default_timeouts :
  Timeout Root.defaultHTTPClient = 300 * Second
  /\ Timeout Root.defaultHTTPClient = 5 * Minute
  /\ 0 < Timeout Root.defaultHTTPClient
  /\ Timeout Sub.defaultHTTPClient = 5 * Second
  /\ 0 < Timeout Sub.defaultHTTPClient < Minute
  /\ (forall tok c e, Root.NewClient tok [] = (Some c, e) ->
        Timeout (httpClient c) = 5 * Minute)
  /\ (forall tok c e, Sub.NewClient tok [] = (Some c, e) ->
        Timeout (httpClient c) = 5 * Second).
Proof.
  repeat split; try reflexivity.
  - intros tok c e (_ & _ & -> & _)%Root_NewClient_inv. reflexivity.
  - intros tok c e (_ & _ & -> & _)%Sub_NewClient_inv. reflexivity.
Qed.

End Timeout.

(** ** URLs *)

Section URLs.
Context `{NetURL} `{Network}.

Lemma http_NewRequest_ok (method url : string) (body : option string) (u : URL) :
  validMethod method = true ->
  url_Parse url = Ok u ->
  http_NewRequest method url body =
  Ok {| Method := method; ReqURL := set_Host u (removeEmptyPort (Host u));
        ReqHeader := ∅; ReqBody := body;
        ReqHost := removeEmptyPort (Host u) |}.
Proof.
  intros Hm Hu. unfold http_NewRequest.
  assert (String.eqb method "" = false) as ->.
  { unfold validMethod in Hm. destruct (String.eqb method ""); done. }
  rewrite Hm, Hu. reflexivity.
Qed.

(** What [http.NewRequest] returns: an empty header, the given body, and
    the parsed URL with its host normalized. *)
Lemma http_NewRequest_inv (method url : string) (body : option string)
    (req : Request) :
  http_NewRequest method url body = Ok req ->
  ReqHeader req = ∅ /\ ReqBody req = body
  /\ exists u, url_Parse url = Ok u
               /\ ReqURL req = set_Host u (removeEmptyPort (Host u)).
Proof.
  unfold http_NewRequest.
  destruct (negb (validMethod _)); [discriminate|].
  destruct (url_Parse url) as [u|e]; [|discriminate].
  intros [= <-]. simpl. eauto.
Qed.

(** C6: [toURLWithEndingSlash] fails exactly when [url.Parse] fails, with
    its error; otherwise it returns the parsed URL, unchanged when its path
    ends in a slash and with a slash appended to the path when it does not.
    For a valid method, a path that parses and a payload that encodes,
    [NewRequest] of either package returns a request whose URL is the URL
    that the text of the resolved reference (the path resolved against the
    client's base URL) denotes; the base URL of a client that [NewClient]
    made without options is the normalized [BaseUrl]. *)
Theorem toURLWithEndingSlash_and_request_URL :
  (forall u : string,
     (forall e, url_Parse u = Err e -> toURLWithEndingSlash u = (None, Some e))
     /\ (forall p, url_Parse u = Ok p ->
           ((exists q, Path p = q +:+ "/") ->
              toURLWithEndingSlash u = (Some p, None))
           /\ (~ (exists q, Path p = q +:+ "/") ->
              toURLWithEndingSlash u
                = (Some (set_Path p (Path p +:+ "/")), None)))
     /\ ((exists e, (toURLWithEndingSlash u).2 = Some e)
         <-> (exists e, url_Parse u = Err e)))
  /\ (forall {P} `{Marshaler P} (c : client) (method path : string)
             (body : list (option P)) (ref full : URL) (buf : option string),
        validMethod method = true ->
        url_Parse path = Ok ref ->
        encode_body body = Ok buf ->
        url_Parse (URL_String (URL_ResolveReference (baseURL c) ref)) = Ok full ->
        exists req req',
          Root.NewRequest c method path body = (Some req, None)
          /\ Sub.NewRequest c method path body = (Some req', None)
          /\ ReqURL req = set_Host full (removeEmptyPort (Host full))
          /\ ReqURL req' = set_Host full (removeEmptyPort (Host full))
          /\ Method req = method /\ Method req' = method
          /\ ReqBody req = buf /\ ReqBody req' = buf)
  /\ (forall tok c e,
        Root.NewClient tok [] = (Some c, e) \/ Sub.NewClient tok [] = (Some c, e) ->
        toURLWithEndingSlash BaseUrl = (Some (baseURL c), None)).
Proof.
  split; [|split].
  - intros u. unfold toURLWithEndingSlash. split; [|split].
    + intros e ->. reflexivity.
    + intros p ->. split.
      * intros Hs%HasSuffix_slash_spec. rewrite Hs. reflexivity.
      * intros Hs. destruct (HasSuffix (Path p) "/") eqn:Hh; [|reflexivity].
        apply HasSuffix_slash_spec in Hh. contradiction.
    + destruct (url_Parse u) as [p|e]; simpl.
      * split; intros [e He]; discriminate.
      * split; eauto.
  - intros P HP c method path body ref full buf Hm Hp Hb Hf.
    unfold Root.NewRequest, Sub.NewRequest, URL_Parse.
    rewrite Hp, Hb, (http_NewRequest_ok _ _ _ _ Hm Hf).
    eexists _, _. repeat split; reflexivity.
  - intros tok c e [Hc|Hc].
    + by apply Root_NewClient_inv in Hc as (_ & _ & _ & ?).
    + by apply Sub_NewClient_inv in Hc as (_ & _ & _ & ?).
Qed.

End URLs.

(** ** Responses outside the success band *)

Section Error_band.
Context `{Network} {T : Type} `{Unmarshaler T}.

(** C1: when the transport answers the authorized request with a response
    whose status code is outside [200, 400), [Do] returns that response and
    an [ErrorResponse] error that carries it, whatever the body holds, and
    the caller's target is left as it was. *)
Theorem Do_error_band (c : client) (req : Request) (v : option T)
    (resp : Response) :
  http_Client_Do (httpClient c) (authorize c req) = Ok resp ->
  ~ (200 <= StatusCode resp < 400) ->
  exists e,
    Do c (Some req) v = Returns (Some resp, Some (apiError e), v)
    /\ ErrResponse e = resp
    /\ StatusCode (ErrResponse e) = StatusCode resp.
Proof.
  intros Hdo Hband. unfold Do. rewrite Hdo.
  destruct (http_Client_Do_body _ _ _ Hdo) as [rc Hrc]. rewrite Hrc.
  unfold checkForErrors. rewrite Hrc.
  destruct ((200 <=? StatusCode resp) && (StatusCode resp <? 400)) eqn:Hb.
  { apply andb_true_iff in Hb as [?%Z.leb_le ?%Z.ltb_lt]. lia. }
  unfold io_ReadAll. destruct (readErr rc) as [msg|]; simpl.
  - eexists. split; [reflexivity|]. done.
  - eexists. split; [reflexivity|].
    rewrite ErrorResponse_decode_Response. done.
Qed.

End Error_band.

(** ** Headers *)

Section Headers.
Context `{NetURL} `{Network}.

Lemma Root_NewRequest_header {P} `{Marshaler P} (c : client)
    (method url : string) (body : list (option P)) (req : Request)
    (e : option error) :
  Root.NewRequest c method url body = (Some req, e) ->
  ReqHeader req =
  <["Accept-Encoding" := ["application/json"]]>
    (<["Content-Type" := ["application/json"]]> ∅).
Proof.
  unfold Root.NewRequest.
  destruct (URL_Parse _ _); [|discriminate].
  destruct (encode_body body); [|discriminate].
  destruct (http_NewRequest _ _ _) as [r|] eqn:Hr; [|discriminate].
  apply http_NewRequest_inv in Hr as (-> & _). intros [= <- <-]. reflexivity.
Qed.

Lemma Sub_NewRequest_header {P} `{Marshaler P} (c : client)
    (method url : string) (body : list (option P)) (req : Request)
    (e : option error) :
  Sub.NewRequest c method url body = (Some req, e) ->
  ReqHeader req = <["X-Clerk-Sdk" := ["go/1.49.0"]]> ∅.
Proof.
  unfold Sub.NewRequest.
  destruct (URL_Parse _ _); [|discriminate].
  destruct (encode_body body); [|discriminate].
  destruct (http_NewRequest _ _ _) as [r|] eqn:Hr; [|discriminate].
  apply http_NewRequest_inv in Hr as (-> & _). intros [= <- <-]. reflexivity.
Qed.

(** [Do] looks at the HTTP client only through its answer to the
    authorized request. *)
Lemma Do_dispatch {T} `{Unmarshaler T} (c c' : client) (req : Request)
    (v : option T) :
  token c = token c' ->
  http_Client_Do (httpClient c) (authorize c req)
    = http_Client_Do (httpClient c') (authorize c req) ->
  Do c (Some req) v = Do c' (Some req) v.
Proof.
  intros Ht Hr. unfold Do.
  assert (authorize c' req = authorize c req) as ->
    by (unfold authorize; by rewrite Ht).
  rewrite Hr. reflexivity.
Qed.

(** C5, as amended: a request built by [NewRequest] of the full client
    carries exactly the headers Content-Type: application/json and
    Accept-Encoding: application/json; a request built by [NewRequest] of
    [utho/utho.go] carries exactly the SDK version header and neither of
    the two.  Neither carries Authorization.  [Do] sets Authorization to
    "Bearer " followed by the client's token, keeps every other header, and
    dispatches the request so changed. *)
Theorem request_headers {P} `{Marshaler P} {T} `{Unmarshaler T}
    (c : client) (method url : string) (body : list (option P))
    (req : Request) (e : option error) :
  (Root.NewRequest c method url body = (Some req, e) ->
     ReqHeader req !! "Content-Type" = Some ["application/json"]
     /\ ReqHeader req !! "Accept-Encoding" = Some ["application/json"]
     /\ ReqHeader req !! "Authorization" = None
     /\ dom (ReqHeader req) = {["Content-Type"; "Accept-Encoding"]})
  /\ (Sub.NewRequest c method url body = (Some req, e) ->
     Header_Get (ReqHeader req) "X-Clerk-SDK" = "go/1.49.0"
     /\ dom (ReqHeader req) = {["X-Clerk-Sdk"]}
     /\ ReqHeader req !! "Content-Type" = None
     /\ ReqHeader req !! "Accept-Encoding" = None
     /\ ReqHeader req !! "Authorization" = None)
  /\ ReqHeader (authorize c req) !! "Authorization"
       = Some ["Bearer " +:+ token c]
  /\ (forall k, k <> "Authorization" ->
        ReqHeader (authorize c req) !! k = ReqHeader req !! k)
  /\ (forall (c' : client) (v : option T),
        token c = token c' ->
        http_Client_Do (httpClient c) (authorize c req)
          = http_Client_Do (httpClient c') (authorize c req) ->
        Do c (Some req) v = Do c' (Some req) v).
Proof.
  split; [|split; [|split; [|split]]].
  - intros ->%Root_NewRequest_header. repeat split; done.
  - intros ->%Sub_NewRequest_header. done.
  - unfold authorize, Header_Set. simpl.
    change (CanonicalMIMEHeaderKey "Authorization") with "Authorization".
    apply lookup_insert_eq.
  - intros k Hk. unfold authorize, Header_Set. simpl.
    change (CanonicalMIMEHeaderKey "Authorization") with "Authorization".
    by apply lookup_insert_ne.
  - intros c' v. apply Do_dispatch.
Qed.

End Headers.

(** ** Responses in the success band *)

Section Success_band.
Context `{Network} {T : Type} `{Unmarshaler T}.

(** In the success band [Do] decodes whatever the body holds into the
    target and returns the decoder's error. *)
Lemma Do_success_band (c : client) (req : Request) (target : T)
    (resp : Response) (rc : ReadCloser) :
  http_Client_Do (httpClient c) (authorize c req) = Ok resp ->
  200 <= StatusCode resp < 400 ->
  Body resp = Some rc ->
  readErr rc = None ->
  Do c (Some req) (Some target) =
  Returns (Some resp, (json_Unmarshal (content rc) target).2,
           Some (json_Unmarshal (content rc) target).1).
Proof.
  intros Hdo Hband Hrc Herr. unfold Do. rewrite Hdo, Hrc.
  unfold checkForErrors.
  assert ((200 <=? StatusCode resp) && (StatusCode resp <? 400) = true) as ->.
  { apply andb_true_iff. split; [apply Z.leb_le|apply Z.ltb_lt]; lia. }
  unfold io_ReadAll. rewrite Herr. simpl.
  destruct (json_Unmarshal (content rc) target) as [t' [err|]]; reflexivity.
Qed.

Lemma Do_decodes (c : client) (req : Request) (zero v : T) (resp : Response) :
  http_Client_Do (httpClient c) (authorize c req) = Ok resp ->
  200 <= StatusCode resp < 400 ->
  decodes_to resp zero v ->
  Do c (Some req) (Some zero) = Returns (Some resp, None, Some v).
Proof.
  intros Hdo Hband (rc & Hrc & Herr & Hv).
  rewrite (Do_success_band _ _ _ _ _ Hdo Hband Hrc Herr), Hv. reflexivity.
Qed.

(** C8, the behaviour of the code: a response in the success band with an
    empty body makes [Do] return the decoder's error "unexpected end of
    JSON input" for every non-nil target; the target is left as it was. *)
Theorem Do_empty_body (c : client) (req : Request) (target : T)
    (resp : Response) :
  http_Client_Do (httpClient c) (authorize c req) = Ok resp ->
  200 <= StatusCode resp < 400 ->
  Body resp = Some {| content := ""; readErr := None |} ->
  Do c (Some req) (Some target) =
  Returns (Some resp, Some (SyntaxError "unexpected end of JSON input"),
           Some target).
Proof.
  intros Hdo Hband Hrc.
  rewrite (Do_success_band _ _ _ _ _ Hdo Hband Hrc eq_refl). reflexivity.
Qed.

End Success_band.

(** ** The API-key service *)

Section Service.
Context `{NetURL} `{Network}.

(** The three operations on a response in the success band that decodes:
    the embedded status decides between the decoded value and an error
    with the embedded message. *)
Lemma Create_decoded (c : client) (params : CreateApiKeyParams.t)
    (req : Request) (e0 : option error) (resp : Response)
    (v : CreateApiKeyResponse.t) :
  Sub.NewRequest c "POST" "api/generate" [Some params] = (Some req, e0) ->
  http_Client_Do (httpClient c) (authorize c req) = Ok resp ->
  200 <= StatusCode resp < 400 ->
  decodes_to resp CreateApiKeyResponse.zero v ->
  ApiKeyService.Create c params =
  if negb (String.eqb (CreateApiKeyResponse.Status v) "success")
     && negb (String.eqb (CreateApiKeyResponse.Status v) "")
  then Returns (None, Some (errorString (CreateApiKeyResponse.Message v)))
  else Returns (Some v, None).
Proof.
  intros Hreq Hdo Hband Hdec. unfold ApiKeyService.Create.
  rewrite Hreq, (Do_decodes _ _ _ _ _ Hdo Hband Hdec). reflexivity.
Qed.

Lemma List_decoded (c : client) (req : Request) (e0 : option error)
    (resp : Response) (v : ApiKeys.t) :
  Sub.NewRequest c "GET" "api" no_body = (Some req, e0) ->
  http_Client_Do (httpClient c) (authorize c req) = Ok resp ->
  200 <= StatusCode resp < 400 ->
  decodes_to resp ApiKeys.zero v ->
  ApiKeyService.List c =
  if negb (String.eqb (ApiKeys.Status v) "success")
     && negb (String.eqb (ApiKeys.Status v) "")
  then Returns (None, Some (errorString (ApiKeys.Message v)))
  else Returns (ApiKeys.API v, None).
Proof.
  intros Hreq Hdo Hband Hdec. unfold ApiKeyService.List.
  rewrite Hreq, (Do_decodes _ _ _ _ _ Hdo Hband Hdec). reflexivity.
Qed.

Lemma Delete_decoded (c : client) (apiKeyId : string) (req : Request)
    (e0 : option error) (resp : Response) (v : DeleteResponse.t) :
  Sub.NewRequest c "DELETE" ("api/" +:+ apiKeyId +:+ "/delete") no_body
    = (Some req, e0) ->
  http_Client_Do (httpClient c) (authorize c req) = Ok resp ->
  200 <= StatusCode resp < 400 ->
  decodes_to resp DeleteResponse.zero v ->
  ApiKeyService.Delete c apiKeyId =
  if negb (String.eqb (DeleteResponse.Status v) "success")
     && negb (String.eqb (DeleteResponse.Status v) "")
  then Returns (None, Some (errorString (DeleteResponse.Message v)))
  else Returns (Some v, None).
Proof.
  intros Hreq Hdo Hband Hdec. unfold ApiKeyService.Delete.
  rewrite Hreq, (Do_decodes _ _ _ _ _ Hdo Hband Hdec). reflexivity.
Qed.

(** C2: when the response to the operation's request is in the success
    band and its body decodes to a value whose status is "failed" and whose
    message is [X], each of [Create], [List] and [Delete] returns a nil
    result and the error [errors.New(X)]. *)
Theorem failed_status_is_error (c : client) (X : string) :
  (forall params req e0 resp v,
     Sub.NewRequest c "POST" "api/generate" [Some params] = (Some req, e0) ->
     http_Client_Do (httpClient c) (authorize c req) = Ok resp ->
     200 <= StatusCode resp < 400 ->
     decodes_to resp CreateApiKeyResponse.zero v ->
     CreateApiKeyResponse.Status v = "failed" ->
     CreateApiKeyResponse.Message v = X ->
     ApiKeyService.Create c params = Returns (None, Some (errorString X)))
  /\ (forall req e0 resp v,
     Sub.NewRequest c "GET" "api" no_body = (Some req, e0) ->
     http_Client_Do (httpClient c) (authorize c req) = Ok resp ->
     200 <= StatusCode resp < 400 ->
     decodes_to resp ApiKeys.zero v ->
     ApiKeys.Status v = "failed" ->
     ApiKeys.Message v = X ->
     ApiKeyService.List c = Returns (None, Some (errorString X)))
  /\ (forall apiKeyId req e0 resp v,
     Sub.NewRequest c "DELETE" ("api/" +:+ apiKeyId +:+ "/delete") no_body
       = (Some req, e0) ->
     http_Client_Do (httpClient c) (authorize c req) = Ok resp ->
     200 <= StatusCode resp < 400 ->
     decodes_to resp DeleteResponse.zero v ->
     DeleteResponse.Status v = "failed" ->
     DeleteResponse.Message v = X ->
     ApiKeyService.Delete c apiKeyId = Returns (None, Some (errorString X))).
Proof.
  split; [|split].
  - intros params req e0 resp v Hreq Hdo Hband Hdec Hs Hm.
    rewrite (Create_decoded _ _ _ _ _ _ Hreq Hdo Hband Hdec), Hs, Hm.
    reflexivity.
  - intros req e0 resp v Hreq Hdo Hband Hdec Hs Hm.
    rewrite (List_decoded _ _ _ _ _ Hreq Hdo Hband Hdec), Hs, Hm.
    reflexivity.
  - intros apiKeyId req e0 resp v Hreq Hdo Hband Hdec Hs Hm.
    rewrite (Delete_decoded _ _ _ _ _ _ Hreq Hdo Hband Hdec), Hs, Hm.
    reflexivity.
Qed.

(** The test [x != "success" && x != ""] as a proposition. *)
Lemma status_test (x : string) :
  negb (String.eqb x "success") && negb (String.eqb x "") = true
  <-> x <> "success" /\ x <> "".
Proof.
  rewrite andb_true_iff, !negb_true_iff, !String.eqb_neq. reflexivity.
Qed.

(** C3: when the response to the operation's request is in the success
    band and its body decodes to a value [v] whose status is empty (the
    field is absent), each of [Create], [List] and [Delete] returns the
    decoded result and a nil error; and each returns an error exactly when
    the status of [v] is neither "success" nor empty. *)
Theorem absent_status_is_success (c : client) :
  (forall params req e0 resp v,
     Sub.NewRequest c "POST" "api/generate" [Some params] = (Some req, e0) ->
     http_Client_Do (httpClient c) (authorize c req) = Ok resp ->
     200 <= StatusCode resp < 400 ->
     decodes_to resp CreateApiKeyResponse.zero v ->
     (CreateApiKeyResponse.Status v = "" ->
        ApiKeyService.Create c params = Returns (Some v, None))
     /\ ((exists r e, ApiKeyService.Create c params = Returns (r, Some e))
         <-> CreateApiKeyResponse.Status v <> "success"
             /\ CreateApiKeyResponse.Status v <> ""))
  /\ (forall req e0 resp v,
     Sub.NewRequest c "GET" "api" no_body = (Some req, e0) ->
     http_Client_Do (httpClient c) (authorize c req) = Ok resp ->
     200 <= StatusCode resp < 400 ->
     decodes_to resp ApiKeys.zero v ->
     (ApiKeys.Status v = "" ->
        ApiKeyService.List c = Returns (ApiKeys.API v, None))
     /\ ((exists r e, ApiKeyService.List c = Returns (r, Some e))
         <-> ApiKeys.Status v <> "success" /\ ApiKeys.Status v <> ""))
  /\ (forall apiKeyId req e0 resp v,
     Sub.NewRequest c "DELETE" ("api/" +:+ apiKeyId +:+ "/delete") no_body
       = (Some req, e0) ->
     http_Client_Do (httpClient c) (authorize c req) = Ok resp ->
     200 <= StatusCode resp < 400 ->
     decodes_to resp DeleteResponse.zero v ->
     (DeleteResponse.Status v = "" ->
        ApiKeyService.Delete c apiKeyId = Returns (Some v, None))
     /\ ((exists r e, ApiKeyService.Delete c apiKeyId = Returns (r, Some e))
         <-> DeleteResponse.Status v <> "success"
             /\ DeleteResponse.Status v <> "")).
Proof.
  split; [|split].
  - intros params req e0 resp v Hreq Hdo Hband Hdec.
    rewrite (Create_decoded _ _ _ _ _ _ Hreq Hdo Hband Hdec).
    split; [intros ->; reflexivity|].
    rewrite <- status_test. destruct (negb _ && negb _); split; eauto;
      try discriminate. intros (r & e & [=]).
  - intros req e0 resp v Hreq Hdo Hband Hdec.
    rewrite (List_decoded _ _ _ _ _ Hreq Hdo Hband Hdec).
    split; [intros ->; reflexivity|].
    rewrite <- status_test. destruct (negb _ && negb _); split; eauto;
      try discriminate. intros (r & e & [=]).
  - intros apiKeyId req e0 resp v Hreq Hdo Hband Hdec.
    rewrite (Delete_decoded _ _ _ _ _ _ Hreq Hdo Hband Hdec).
    split; [intros ->; reflexivity|].
    rewrite <- status_test. destruct (negb _ && negb _); split; eauto;
      try discriminate. intros (r & e & [=]).
Qed.

(** When [NewRequest] fails, the operation hands a nil request to [Do]. *)
Lemma Sub_NewRequest_parse_error {P} `{Marshaler P} (c : client)
    (method url : string) (body : list (option P)) (e : error) :
  url_Parse url = Err e ->
  Sub.NewRequest c method url body = (None, Some e).
Proof.
  intros Hu. unfold Sub.NewRequest, URL_Parse. rewrite Hu. reflexivity.
Qed.

(** C10: each operation drops the error of [NewRequest].  When the
    request cannot be built the operation calls [Do] with a nil request,
    and [Do] panics on it with a nil dereference instead of returning an
    error; this is what [Delete] does for a key id that makes the path
    unparsable. *)
Theorem dropped_request_error_panics (c : client) :
  (forall apiKeyId e,
     url_Parse ("api/" +:+ apiKeyId +:+ "/delete") = Err e ->
     Sub.NewRequest c "DELETE" ("api/" +:+ apiKeyId +:+ "/delete") no_body
       = (None, Some e)
     /\ ApiKeyService.Delete c apiKeyId = Panics nil_deref)
  /\ (forall apiKeyId e,
     Sub.NewRequest c "DELETE" ("api/" +:+ apiKeyId +:+ "/delete") no_body
       = (None, e) ->
     ApiKeyService.Delete c apiKeyId = Panics nil_deref)
  /\ (forall params e,
     Sub.NewRequest c "POST" "api/generate" [Some params] = (None, e) ->
     ApiKeyService.Create c params = Panics nil_deref)
  /\ (forall e,
     Sub.NewRequest c "GET" "api" no_body = (None, e) ->
     ApiKeyService.List c = Panics nil_deref)
  /\ (forall T (U : Unmarshaler T) (v : option T),
     Do c None v = Panics nil_deref).
Proof.
  split; [|split; [|split; [|split]]].
  - intros apiKeyId e He.
    pose proof (Sub_NewRequest_parse_error c "DELETE" _ no_body e He) as Hreq.
    split; [exact Hreq|]. unfold ApiKeyService.Delete. rewrite Hreq. reflexivity.
  - intros apiKeyId e Hreq. unfold ApiKeyService.Delete. rewrite Hreq. reflexivity.
  - intros params e Hreq. unfold ApiKeyService.Create. rewrite Hreq. reflexivity.
  - intros e Hreq. unfold ApiKeyService.List. rewrite Hreq. reflexivity.
  - reflexivity.
Qed.

End Service.

(** ** The theorems at work in the small world *)

Lemma NewClient_token_witness :
  "tok" <> "" /\
  exists c c',
    @Root.NewClient Example.simple_url (Example.server 200 "") "tok" []
      = (Some c, None)
    /\ @Sub.NewClient Example.simple_url (Example.server 200 "") "tok" []
      = (Some c', None)
    /\ token c = "tok" /\ token c' = "tok".
Proof.
  split; [discriminate|].
  destruct (proj2 (proj2 (proj2
              (@NewClient_token Example.simple_url (Example.server 200 "")
                 "tok" [])))
              ltac:(discriminate) _ eq_refl)
    as (c & c' & H1 & H2 & H3 & H4 & _).
  exists c, c'. auto.
Defined.

Lemma default_timeouts_witness :
  exists c,
    @Root.NewClient Example.simple_url (Example.server 200 "") "tok" []
      = (Some c, None)
    /\ Timeout (httpClient c) = 5 * Minute.
Proof.
  eexists. split; [vm_compute; reflexivity|].
  apply (proj1 (proj2 (proj2 (proj2 (proj2 (proj2
            (@default_timeouts Example.simple_url (Example.server 200 "")))))))
           "tok" _ None).
  reflexivity.
Defined.

(** C9, as stated, fails in [utho/utho.go]: the client that
    [NewClient] makes without options has a timeout under one minute. *)
Lemma default_timeout_not_minutes :
  exists c,
    @Sub.NewClient Example.simple_url (Example.server 200 "") "tok" []
      = (Some c, None)
    /\ Timeout (httpClient c) = 5 * Second
    /\ ~ (Minute <= Timeout (httpClient c)).
Proof.
  eexists. split; [vm_compute; reflexivity|]. split; [reflexivity|].
  vm_compute. intros Hle. apply Hle. reflexivity.
Qed.

Lemma toURLWithEndingSlash_and_request_URL_witness :
  exists req,
    @Root.NewRequest Example.simple_url _ _ (Example.client_of 200 "")
      "POST" "api/generate" [Some Runs.params0] = (Some req, None)
    /\ Path (ReqURL req) = "/v2/api/generate".
Proof.
  assert (exists full,
    @url_Parse Example.simple_url
      (@URL_String Example.simple_url
         (@URL_ResolveReference Example.simple_url
            (baseURL (Example.client_of 200 ""))
            (Example.relative "api/generate"))) = Ok full
    /\ Path full = "/v2/api/generate") as (full & Hfull & Hpath).
  { eexists. split; vm_compute; reflexivity. }
  assert (exists buf, encode_body [Some Runs.params0] = Ok buf) as (buf & Hbuf).
  { eexists. vm_compute. reflexivity. }
  destruct (proj1 (proj2
      (@toURLWithEndingSlash_and_request_URL Example.simple_url
         (Example.server 200 "")))
      _ _ (Example.client_of 200 "") "POST" "api/generate"
      [Some Runs.params0] (Example.relative "api/generate") full buf
      eq_refl eq_refl Hbuf Hfull)
    as (req & req' & H1 & H2 & H3 & _).
  exists req. split; [exact H1|]. rewrite H3. exact Hpath.
Defined.

Lemma Do_error_band_witness :
  exists e,
    @Do (Example.server 404 "not found, and not JSON") _ _ (Example.client_of 404 "not found, and not JSON") (Some Runs.request0)
       (Some DeleteResponse.zero)
    = Returns (Some (Example.reply 404 "not found, and not JSON"),
               Some (apiError e), Some DeleteResponse.zero)
    /\ StatusCode (ErrResponse e) = 404.
Proof.
  destruct (@Do_error_band (Example.server 404 "not found, and not JSON") _ _ (Example.client_of 404 "not found, and not JSON")
              Runs.request0 (Some DeleteResponse.zero)
              (Example.reply 404 "not found, and not JSON") eq_refl
              ltac:(simpl; lia))
    as (e & H1 & H2 & H3).
  exists e. split; [exact H1|exact H3].
Defined.

Lemma request_headers_witness :
  exists req,
    @Root.NewRequest Example.simple_url _ _ (Example.client_of 200 "")
      "GET" "api" no_body = (Some req, None)
    /\ ReqHeader req !! "Content-Type" = Some ["application/json"]
    /\ ReqHeader req !! "Authorization" = None.
Proof.
  eexists. split; [vm_compute; reflexivity|].
  pose proof (proj1 (@request_headers Example.simple_url
                       (Example.server 200 "") _ _ ApiKeys.t _
                       (Example.client_of 200 "") "GET" "api" no_body _ None)
                eq_refl) as (H1 & _ & H3 & _).
  split; [exact H1|exact H3].
Defined.

(** C5, as stated, fails in [utho/utho.go]: its [NewRequest]
    builds a request without the Content-Type and Accept-Encoding headers. *)
Lemma request_without_content_type :
  exists req,
    @Sub.NewRequest Example.simple_url _ _ (Example.client_of 200 "")
      "POST" "api/generate" [Some Runs.params0] = (Some req, None)
    /\ ReqHeader req !! "Content-Type" = None
    /\ ReqHeader req !! "Accept-Encoding" = None
    /\ Header_Get (ReqHeader req) "Content-Type" = "".
Proof.
  eexists. split; [vm_compute; reflexivity|]. repeat split.
Qed.

Lemma Do_empty_body_witness :
  @Do (Example.server 204 "") _ _ (Example.client_of 204 "") (Some Runs.request0) (Some ApiKeys.zero)
  = Returns (Some (Example.reply 204 ""),
             Some (SyntaxError "unexpected end of JSON input"),
             Some ApiKeys.zero).
Proof.
  apply (@Do_empty_body (Example.server 204 "") _ _ (Example.client_of 204 "") Runs.request0 ApiKeys.zero
           (Example.reply 204 "") eq_refl); [simpl; lia|reflexivity].
Defined.

Lemma failed_status_is_error_witness :
  @ApiKeyService.Create Example.simple_url (Example.server 200 Runs.failed_body)
    (Example.client_of 200 Runs.failed_body) Runs.params0
  = Returns (None, Some (errorString "quota exceeded")).
Proof.
  eapply (proj1 (@failed_status_is_error Example.simple_url (Example.server 200 Runs.failed_body)
                   (Example.client_of 200 Runs.failed_body) "quota exceeded"))
    with (resp := Example.reply 200 Runs.failed_body).
  - reflexivity.
  - reflexivity.
  - simpl; lia.
  - eexists. split; [vm_compute; reflexivity|]. split; [reflexivity|]. vm_compute. reflexivity.
  - reflexivity.
  - reflexivity.
Defined.

Lemma absent_status_is_success_witness :
  @ApiKeyService.List Example.simple_url (Example.server 200 (Example.js "{'api':[{'id':'7','name':'ci'}]}"))
    (Example.client_of 200 (Example.js "{'api':[{'id':'7','name':'ci'}]}"))
  = Returns (Some [ {| ApiKey.ID := "7"; ApiKey.Name := "ci";
                       ApiKey.Write := ""; ApiKey.CreatedAt := "" |} ], None).
Proof.
  eapply (proj1 (proj1 (proj2 (@absent_status_is_success Example.simple_url (Example.server 200
                (Example.js "{'api':[{'id':'7','name':'ci'}]}"))
             (Example.client_of 200
                (Example.js "{'api':[{'id':'7','name':'ci'}]}"))))
           _ _ (Example.reply 200 (Example.js "{'api':[{'id':'7','name':'ci'}]}"))
           {| ApiKeys.Status := ""; ApiKeys.Message := "";
              ApiKeys.API := Some [ {| ApiKey.ID := "7"; ApiKey.Name := "ci";
                       ApiKey.Write := ""; ApiKey.CreatedAt := "" |} ] |}
           _ _ _ _)).
  Unshelve.
  all: try reflexivity.
  - simpl; lia.
  - eexists. split; [vm_compute; reflexivity|]. split; [reflexivity|]. vm_compute. reflexivity.
Defined.

Lemma dropped_request_error_panics_witness :
  (exists e, @url_Parse Example.simple_url "api/%zz/delete" = Err e)
  /\ @ApiKeyService.Delete Example.simple_url (Example.server 200 "") (Example.client_of 200 "") "%zz"
     = Panics nil_deref.
Proof.
  split; [eexists; reflexivity|].
  apply (proj1 (@dropped_request_error_panics Example.simple_url (Example.server 200 "")
                  (Example.client_of 200 "")) "%zz" _ eq_refl).
Defined.

(** ** UTF-8: decoding a valid sequence and encoding the rune again *)

Module utf8_facts.
Import utf8.
Local Open Scope N_scope.

Ltac div_lia := zify; Z.to_euclidean_division_equations; lia.

Lemma ascii_of_byte (c : ascii) : ascii_of_N (byte c) = c.
Proof. apply ascii_N_embedding. Qed.

Lemma cont_spec (b : N) : cont b = true <-> 0x80 <= b <= 0xBF.
Proof. unfold cont. rewrite andb_true_iff, !N.leb_le. reflexivity. Qed.

Lemma digits2 (x y : N) :
  y < 64 -> (x * 64 + y) / 64 = x /\ (x * 64 + y) mod 64 = y.
Proof. intros. split; div_lia. Qed.

Lemma digits3 (x y z : N) :
  y < 64 -> z < 64 ->
  (x * 4096 + y * 64 + z) / 4096 = x
  /\ ((x * 4096 + y * 64 + z) / 64) mod 64 = y
  /\ (x * 4096 + y * 64 + z) mod 64 = z.
Proof. intros. repeat split; div_lia. Qed.

Lemma digits4 (x y z w : N) :
  y < 64 -> z < 64 -> w < 64 ->
  (x * 262144 + y * 4096 + z * 64 + w) / 262144 = x
  /\ ((x * 262144 + y * 4096 + z * 64 + w) / 4096) mod 64 = y
  /\ ((x * 262144 + y * 4096 + z * 64 + w) / 64) mod 64 = z
  /\ (x * 262144 + y * 4096 + z * 64 + w) mod 64 = w.
Proof. intros. repeat split; div_lia. Qed.

(** The three shapes of [EncodeRune] above ASCII. *)
Lemma EncodeRune_2 (r : N) :
  0x80 <= r <= 0x7FF -> EncodeRune r = bytes2 (0xC0 + r / 64) (0x80 + r mod 64).
Proof.
  intros Hr. unfold EncodeRune.
  destruct (N.leb_spec r 0x7F); [lia|].
  destruct (N.leb_spec r 0x7FF); [reflexivity|lia].
Qed.

Lemma EncodeRune_3 (r : N) :
  0x800 <= r <= 0xFFFF -> ~ (0xD800 <= r <= 0xDFFF) ->
  EncodeRune r =
  bytes3 (0xE0 + r / 4096) (0x80 + (r / 64) mod 64) (0x80 + r mod 64).
Proof.
  intros Hr Hs. unfold EncodeRune, MaxRune.
  destruct (N.leb_spec r 0x7F); [lia|].
  destruct (N.leb_spec r 0x7FF); [lia|].
  destruct (N.ltb_spec 0x10FFFF r); [lia|].
  destruct (N.leb_spec 0xD800 r), (N.leb_spec r 0xDFFF); simpl; try lia;
    destruct (N.leb_spec r 0xFFFF); try reflexivity; lia.
Qed.

Lemma EncodeRune_4 (r : N) :
  0x10000 <= r <= 0x10FFFF ->
  EncodeRune r =
  bytes4 (0xF0 + r / 262144) (0x80 + (r / 4096) mod 64)
         (0x80 + (r / 64) mod 64) (0x80 + r mod 64).
Proof.
  intros Hr. unfold EncodeRune, MaxRune.
  destruct (N.leb_spec r 0x7F); [lia|].
  destruct (N.leb_spec r 0x7FF); [lia|].
  destruct (N.ltb_spec 0x10FFFF r); [lia|].
  destruct (N.leb_spec 0xD800 r), (N.leb_spec r 0xDFFF); simpl; try lia;
    destruct (N.leb_spec r 0xFFFF); try reflexivity; lia.
Qed.

(** What the table [first] says about a lead byte. *)
Lemma first_spec (b : N) (sz : nat) (lo hi : N) :
  first b = Some (sz, lo, hi) ->
  0x80 <= lo /\ hi <= 0xBF /\
  ((sz = 2%nat /\ 0xC2 <= b <= 0xDF)
   \/ (sz = 3%nat /\ 0xE0 <= b <= 0xEF
       /\ (b = 0xE0 -> lo = 0xA0) /\ (b = 0xED -> hi = 0x9F))
   \/ (sz = 4%nat /\ 0xF0 <= b <= 0xF4
       /\ (b = 0xF0 -> lo = 0x90) /\ (b = 0xF4 -> hi = 0x8F))).
Proof.
  unfold first.
  repeat match goal with
  | |- context [N.ltb ?x ?y] => destruct (N.ltb_spec x y)
  | |- context [N.leb ?x ?y] => destruct (N.leb_spec x y)
  | |- context [N.eqb ?x ?y] => destruct (N.eqb_spec x y)
  end; intros [= <- <- <-] || discriminate; lia.
Qed.

(** Lead bytes and continuation bytes without their marker bits. *)
Lemma cont_low (s : N) : 0x80 <= s <= 0xBF -> s mod 64 = s - 0x80.
Proof. intros. div_lia. Qed.

Lemma lead2_low (s : N) : 0xC2 <= s <= 0xDF -> s mod 32 = s - 0xC0.
Proof. intros. div_lia. Qed.

Lemma lead3_low (s : N) : 0xE0 <= s <= 0xEF -> s mod 16 = s - 0xE0.
Proof. intros. div_lia. Qed.

Lemma lead4_low (s : N) : 0xF0 <= s <= 0xF4 -> s mod 8 = s - 0xF0.
Proof. intros. div_lia. Qed.

(** A sequence of two or more bytes that [DecodeRuneInString] accepts: the
    rune encodes back to the same bytes, the decoder looks at these bytes
    only, and all of them are outside ASCII. *)
Lemma DecodeRune_multibyte (c0 : ascii) (r0 : string) (c : N) (size : nat) :
  0x80 <= byte c0 ->
  DecodeRuneInString (String c0 r0) = (c, size) ->
  ~ (c = RuneError /\ size = 1%nat) ->
  exists pre rest,
    String c0 r0 = pre +:+ rest
    /\ take_bytes size (String c0 r0) = pre
    /\ drop_bytes size (String c0 r0) = rest
    /\ String.length pre = size
    /\ (1 <= size)%nat
    /\ EncodeRune c = pre
    /\ (forall t, DecodeRuneInString (pre +:+ t) = (c, size))
    /\ (forall t, drop_bytes size (pre +:+ t) = t)
    /\ all_bytes (fun a => 0x80 <=? byte a) pre = true.
Proof.
  intros H0 Hd Hv. unfold DecodeRuneInString in Hd.
  assert ((byte c0 <? RuneSelf) = false) as Ht0
    by (apply N.ltb_ge; unfold RuneSelf; lia).
  rewrite Ht0 in Hd.
  assert ((0x80 <=? byte c0) = true) as Hb0 by (apply N.leb_le; lia).
  destruct (first (byte c0)) as [[[sz lo] hi]|] eqn:Hf;
    [|injection Hd as <- <-; tauto].
  destruct r0 as [|c1 r1]; [injection Hd as <- <-; tauto|].
  destruct ((byte c1 <? lo) || (hi <? byte c1)) eqn:Ht1;
    [injection Hd as <- <-; tauto|].
  pose proof Ht1 as Hr1.
  apply orb_false_iff in Hr1 as [Hlo1%N.ltb_ge Hhi1%N.ltb_ge].
  pose proof (first_spec _ _ _ _ Hf) as (Hlo & Hhi & Hshape).
  assert (0x80 <= byte c1 <= 0xBF) as Hc1 by lia.
  assert ((0x80 <=? byte c1) = true) as Hb1 by (apply N.leb_le; lia).
  pose proof (cont_low _ Hc1) as Hl1.
  destruct Hshape as [(-> & Hb)|[(-> & Hb & HE0 & HED)|(-> & Hb & HF0 & HF4)]].
  - (* two bytes *)
    simpl in Hd. injection Hd as <- <-.
    pose proof (lead2_low _ Hb) as Hl0.
    exists (String c0 (String c1 EmptyString)), r1.
    repeat split; try reflexivity; try (simpl; lia).
    + destruct (digits2 (byte c0 mod 32) (byte c1 mod 64)) as [Hq Hr];
        [lia|].
      rewrite EncodeRune_2 by lia. rewrite Hq, Hr, Hl0, Hl1.
      replace (0xC0 + (byte c0 - 0xC0)) with (byte c0) by lia.
      replace (0x80 + (byte c1 - 0x80)) with (byte c1) by lia.
      unfold bytes2, bytes1. by rewrite !ascii_of_byte.
    + intros t. simpl. rewrite Ht0, Hf, Ht1. reflexivity.
    + simpl. by rewrite Hb0, Hb1.
  - (* three bytes *)
    simpl in Hd. destruct r1 as [|c2 r2]; [injection Hd as <- <-; tauto|].
    destruct (cont (byte c2)) eqn:Ht2; simpl in Hd;
      [|injection Hd as <- <-; tauto].
    injection Hd as <- <-.
    pose proof Ht2 as Hc2. apply cont_spec in Hc2.
    pose proof (cont_low _ Hc2) as Hl2.
    pose proof (lead3_low _ Hb) as Hl0.
    assert ((0x80 <=? byte c2) = true) as Hb2 by (apply N.leb_le; lia).
    exists (String c0 (String c1 (String c2 EmptyString))), r2.
    repeat split; try reflexivity; try (simpl; lia).
    + destruct (digits3 (byte c0 mod 16) (byte c1 mod 64) (byte c2 mod 64))
        as (Hq & Hr & Hs); [lia|lia|].
      assert (byte c0 = 0xE0 \/ byte c0 = 0xED
              \/ (byte c0 <> 0xE0 /\ byte c0 <> 0xED)) as Hcase by lia.
      rewrite EncodeRune_3.
      * rewrite Hq, Hr, Hs, Hl0, Hl1, Hl2.
        replace (0xE0 + (byte c0 - 0xE0)) with (byte c0) by lia.
        replace (0x80 + (byte c1 - 0x80)) with (byte c1) by lia.
        replace (0x80 + (byte c2 - 0x80)) with (byte c2) by lia.
        unfold bytes3, bytes2, bytes1. by rewrite !ascii_of_byte.
      * rewrite Hl0, Hl1, Hl2.
        destruct Hcase as [Heq|[Heq|[? ?]]];
          [specialize (HE0 Heq)|specialize (HED Heq)|]; lia.
      * rewrite Hl0, Hl1, Hl2.
        destruct Hcase as [Heq|[Heq|[? ?]]];
          [specialize (HE0 Heq)|specialize (HED Heq)|]; lia.
    + intros t. simpl. rewrite Ht0, Hf, Ht1, Ht2. reflexivity.
    + simpl. by rewrite Hb0, Hb1, Hb2.
  - (* four bytes *)
    simpl in Hd. destruct r1 as [|c2 r2]; [injection Hd as <- <-; tauto|].
    destruct (cont (byte c2)) eqn:Ht2; simpl in Hd;
      [|injection Hd as <- <-; tauto].
    destruct r2 as [|c3 r3]; [injection Hd as <- <-; tauto|].
    destruct (cont (byte c3)) eqn:Ht3; simpl in Hd;
      [|injection Hd as <- <-; tauto].
    injection Hd as <- <-.
    pose proof Ht2 as Hc2. apply cont_spec in Hc2.
    pose proof Ht3 as Hc3. apply cont_spec in Hc3.
    pose proof (cont_low _ Hc2) as Hl2.
    pose proof (cont_low _ Hc3) as Hl3.
    pose proof (lead4_low _ Hb) as Hl0.
    assert ((0x80 <=? byte c2) = true) as Hb2 by (apply N.leb_le; lia).
    assert ((0x80 <=? byte c3) = true) as Hb3 by (apply N.leb_le; lia).
    exists (String c0 (String c1 (String c2 (String c3 EmptyString)))), r3.
    repeat split; try reflexivity; try (simpl; lia).
    + destruct (digits4 (byte c0 mod 8) (byte c1 mod 64) (byte c2 mod 64)
                  (byte c3 mod 64)) as (Hq & Hr & Hs & Hw); [lia|lia|lia|].
      assert (byte c0 = 0xF0 \/ byte c0 = 0xF4
              \/ (byte c0 <> 0xF0 /\ byte c0 <> 0xF4)) as Hcase by lia.
      rewrite EncodeRune_4.
      * rewrite Hq, Hr, Hs, Hw, Hl0, Hl1, Hl2, Hl3.
        replace (0xF0 + (byte c0 - 0xF0)) with (byte c0) by lia.
        replace (0x80 + (byte c1 - 0x80)) with (byte c1) by lia.
        replace (0x80 + (byte c2 - 0x80)) with (byte c2) by lia.
        replace (0x80 + (byte c3 - 0x80)) with (byte c3) by lia.
        unfold bytes4, bytes3, bytes2, bytes1. by rewrite !ascii_of_byte.
      * rewrite Hl0, Hl1, Hl2, Hl3.
        destruct Hcase as [Heq|[Heq|[? ?]]];
          [specialize (HF0 Heq)|specialize (HF4 Heq)|]; lia.
    + intros t. simpl. rewrite Ht0, Hf, Ht1, Ht2, Ht3. reflexivity.
    + simpl. by rewrite Hb0, Hb1, Hb2, Hb3.
Qed.

End utf8_facts.

(** ** Strings through the encoder and back *)

Module string_round_trip.
Import utf8 utf8_facts json_enc json_dec.
Local Open Scope N_scope.
#[local] Arguments String.append !_ _ / : simpl nomatch.
#[local] Arguments DecodeRuneInString : simpl never.
#[local] Arguments EncodeRune : simpl never.

Lemma append_assoc (a b c : string) : (a +:+ b) +:+ c = a +:+ (b +:+ c).
Proof. induction a as [|x a IH]; simpl; [reflexivity|by rewrite IH]. Qed.

Lemma length_append (a b : string) :
  String.length (a +:+ b) = (String.length a + String.length b)%nat.
Proof. induction a as [|x a IH]; simpl; [reflexivity|by rewrite IH]. Qed.

Lemma take_drop_bytes (n : nat) (s : string) :
  take_bytes n s +:+ drop_bytes n s = s.
Proof.
  revert s. induction n as [|n IH]; intros [|c r]; simpl; try reflexivity.
  f_equal. apply IH.
Qed.

Lemma length_drop_bytes (n : nat) (s : string) :
  (String.length (drop_bytes n s) <= String.length s)%nat.
Proof.
  revert s. induction n as [|n IH]; intros [|c r]; simpl; try lia.
  specialize (IH r). lia.
Qed.

Lemma length_drop_bytes_lt (n : nat) (c : ascii) (r : string) :
  (1 <= n)%nat ->
  (String.length (drop_bytes n (String c r)) <= String.length r)%nat.
Proof.
  destruct n as [|n]; [lia|]. intros _. simpl. apply length_drop_bytes.
Qed.

Lemma emit_ok {A} (out t : string) (rest : A) :
  emit out (POk (t, rest)) = POk (out +:+ t, rest).
Proof. reflexivity. Qed.

(** A hexadecimal digit reads back as its value. *)
Lemma hexval_hex_digit (n : N) : n < 16 -> hexval (hex_digit n) = Some n.
Proof.
  intros Hn. rewrite <- (N2Nat.id n).
  assert (N.to_nat n < 16)%nat as Hk by lia.
  revert Hk. generalize (N.to_nat n) as k. intros k Hk.
  do 16 (destruct k as [|k]; [reflexivity|]). lia.
Qed.

Lemma isHTML_hex_digit (n : N) : isHTML (hex_digit n) = false.
Proof.
  unfold hex_digit. generalize (N.to_nat n) as k. intros k.
  do 16 (destruct k as [|k]; [reflexivity|]). reflexivity.
Qed.

(** *** One step of [unquote] *)

Lemma unquote_end (m : nat) (r : string) :
  unquote (S m) (String dquote r) = POk (EmptyString, r).
Proof. reflexivity. Qed.

Lemma unquote_plain (m : nat) (c : ascii) (r : string) :
  Ascii.eqb c dquote = false -> Ascii.eqb c backslash = false ->
  (byte c <? 0x20) = false -> (byte c <? RuneSelf) = true ->
  unquote (S m) (String c r) = emit (String c EmptyString) (unquote m r).
Proof. intros H1 H2 H3 H4. simpl. rewrite H1, H2, H3, H4. reflexivity. Qed.

Lemma unquote_multi (m : nat) (c : ascii) (r : string) :
  Ascii.eqb c dquote = false -> Ascii.eqb c backslash = false ->
  (byte c <? 0x20) = false -> (byte c <? RuneSelf) = false ->
  unquote (S m) (String c r) =
  let '(rr, size) := DecodeRuneInString (String c r) in
  emit (EncodeRune rr) (unquote m (drop_bytes size (String c r))).
Proof. intros H1 H2 H3 H4. simpl. rewrite H1, H2, H3, H4. reflexivity. Qed.

Lemma unquote_escaped (m : nat) (e : ascii) (r : string) :
  e = dquote \/ e = backslash ->
  unquote (S m) (String backslash (String e r))
  = emit (String e EmptyString) (unquote m r).
Proof. intros [->| ->]; reflexivity. Qed.

Lemma unquote_letter (m : nat) (r : string) :
  unquote (S m) (String backslash (String "b" r))
    = emit (String char_bs EmptyString) (unquote m r)
  /\ unquote (S m) (String backslash (String "f" r))
    = emit (String char_ff EmptyString) (unquote m r)
  /\ unquote (S m) (String backslash (String "n" r))
    = emit (String char_lf EmptyString) (unquote m r)
  /\ unquote (S m) (String backslash (String "r" r))
    = emit (String char_cr EmptyString) (unquote m r)
  /\ unquote (S m) (String backslash (String "t" r))
    = emit (String char_tab EmptyString) (unquote m r).
Proof. repeat split; reflexivity. Qed.

Lemma unquote_u4 (m : nat) (a b c d : N) (r : string) :
  a < 16 -> b < 16 -> c < 16 -> d < 16 ->
  IsSurrogate (a * 4096 + b * 256 + c * 16 + d) = false ->
  unquote (S m)
    (String backslash (String "u" (String (hex_digit a) (String (hex_digit b)
       (String (hex_digit c) (String (hex_digit d) r))))))
  = emit (EncodeRune (a * 4096 + b * 256 + c * 16 + d)) (unquote m r).
Proof.
  intros Ha Hb Hc Hd Hs.
  change (unquote (S m) ?x) with
    (pbind (getu4 (String (hex_digit a) (String (hex_digit b)
              (String (hex_digit c) (String (hex_digit d) r)))))
       (fun '(rr, r'') =>
          if IsSurrogate rr then
            match low_surrogate r'' with
            | Some (rr1, r3) =>
                let dec := utf16_DecodeRune rr rr1 in
                if negb (dec =? utf8.RuneError) then
                  emit (utf8.EncodeRune dec) (unquote m r3)
                else emit (utf8.EncodeRune utf8.RuneError) (unquote m r'')
            | None => emit (utf8.EncodeRune utf8.RuneError) (unquote m r'')
            end
          else emit (utf8.EncodeRune rr) (unquote m r''))).
  unfold getu4. rewrite !hexval_hex_digit by assumption. simpl pbind.
  rewrite Hs. reflexivity.
Qed.

(** *** Facts about the byte classes *)

Lemma safeSet_spec (b : ascii) :
  safeSet b = true ->
  Ascii.eqb b dquote = false /\ Ascii.eqb b backslash = false
  /\ (byte b <? 0x20) = false /\ (byte b <? RuneSelf) = true.
Proof.
  unfold safeSet. rewrite !andb_true_iff, !negb_true_iff.
  intros [[[H1%N.leb_le H2] H3] H4]. repeat split; try assumption.
  apply N.ltb_ge. lia.
Qed.

Lemma htmlSafeSet_safeSet (b : ascii) :
  htmlSafeSet b || (negb false && safeSet b) = safeSet b.
Proof. unfold htmlSafeSet. destruct (safeSet b), (isHTML b); reflexivity. Qed.

Lemma high_byte_tests (b : ascii) :
  0x80 <= byte b ->
  Ascii.eqb b dquote = false /\ Ascii.eqb b backslash = false
  /\ (byte b <? 0x20) = false /\ (byte b <? RuneSelf) = false
  /\ isHTML b = false.
Proof.
  intros Hb.
  assert (forall c : ascii, byte c < 0x80 -> Ascii.eqb b c = false) as Hne.
  { intros c Hc. apply Ascii.eqb_neq. intros ->. lia. }
  unfold isHTML. rewrite !Hne by (vm_compute; reflexivity).
  repeat split; try reflexivity; apply N.ltb_ge; unfold RuneSelf; lia.
Qed.

(** The escape of an ASCII byte reads back as the byte. *)
Lemma unquote_escape_byte (b : ascii) (r : string) :
  byte b < 0x80 ->
  exists k, (1 <= k)%nat /\ String.length (escape_byte b) = S k
  /\ forall m, unquote (S m) (escape_byte b +:+ r)
               = emit (String b EmptyString) (unquote m r).
Proof.
  intros Hb. unfold escape_byte.
  destruct (Ascii.eqb_spec b backslash) as [->|Hn1].
  { exists 1%nat. split; [lia|]. split; [reflexivity|]. intros m'. apply unquote_escaped. by right. }
  destruct (Ascii.eqb_spec b dquote) as [->|Hn2].
  { exists 1%nat. split; [lia|]. split; [reflexivity|]. intros m'. apply unquote_escaped. by left. }
  simpl orb. cbv iota.
  destruct (Ascii.eqb_spec b char_bs) as [->|Hn3].
  { exists 1%nat. split; [lia|]. split; [reflexivity|]. intros m'. apply unquote_letter. }
  destruct (Ascii.eqb_spec b char_ff) as [->|Hn4].
  { exists 1%nat. split; [lia|]. split; [reflexivity|]. intros m'. apply unquote_letter. }
  destruct (Ascii.eqb_spec b char_lf) as [->|Hn5].
  { exists 1%nat. split; [lia|]. split; [reflexivity|]. intros m'. apply unquote_letter. }
  destruct (Ascii.eqb_spec b char_cr) as [->|Hn6].
  { exists 1%nat. split; [lia|]. split; [reflexivity|]. intros m'. apply unquote_letter. }
  destruct (Ascii.eqb_spec b char_tab) as [->|Hn7].
  { exists 1%nat. split; [lia|]. split; [reflexivity|]. intros m'. apply unquote_letter. }
  exists 5%nat. split; [lia|]. split; [reflexivity|]. intros m'. simpl String.append.
  change "0"%char with (hex_digit 0).
  assert (byte b / 16 < 16 /\ byte b mod 16 < 16
          /\ 0 * 4096 + 0 * 256 + byte b / 16 * 16 + byte b mod 16 = byte b)
    as (H1 & H2 & H3) by div_lia.
  rewrite unquote_u4; try lia.
  - rewrite H3. unfold EncodeRune.
    destruct (N.leb_spec (byte b) 0x7F); [|lia].
    unfold bytes1. by rewrite ascii_of_byte.
  - rewrite H3. unfold IsSurrogate.
    destruct (N.leb_spec 0xD800 (byte b)); [lia|reflexivity].
Qed.

Lemma isHTML_escape_byte (b : ascii) :
  filter_bytes isHTML (escape_byte b) = EmptyString.
Proof.
  unfold escape_byte.
  destruct (Ascii.eqb_spec b backslash) as [->|_]; [reflexivity|].
  destruct (Ascii.eqb_spec b dquote) as [->|_]; [reflexivity|].
  simpl orb. cbv iota.
  repeat match goal with
  | |- context [Ascii.eqb b ?c] => destruct (Ascii.eqb b c); [reflexivity|]
  end.
  simpl. by rewrite !isHTML_hex_digit.
Qed.

(** One step of the validity check on a non-empty string. *)
Lemma valid_loop_step (n : nat) (b : ascii) (r : string) :
  valid_loop (S n) (String b r) = true ->
  exists c size,
    DecodeRuneInString (String b r) = (c, size)
    /\ ~ (c = RuneError /\ size = 1%nat)
    /\ ((c =? RuneError) && (size =? 1)%nat) = false
    /\ valid_loop n (drop_bytes size (String b r)) = true.
Proof.
  simpl valid_loop.
  destruct (DecodeRuneInString (String b r)) as [c size].
  destruct ((c =? RuneError) && (size =? 1)%nat) eqn:Ht; [discriminate|].
  intros Hv. exists c, size. repeat split; try assumption.
  intros [-> ->]. discriminate.
Qed.

Lemma DecodeRune_ascii (b : ascii) (r : string) :
  (byte b <? RuneSelf) = true ->
  DecodeRuneInString (String b r) = (byte b, 1%nat).
Proof. intros Hb. unfold DecodeRuneInString. by rewrite Hb. Qed.

(** The string literal that the encoder writes for a valid UTF-8 string
    is read back by the decoder as that string. *)
Lemma unquote_appendString_loop (n : nat) : forall (s : string),
  (String.length s <= n)%nat ->
  valid_loop n s = true ->
  forall (m : nat) (rest : string),
    (String.length (appendString_loop false n s) < m)%nat ->
    unquote m (appendString_loop false n s +:+ String dquote rest)
    = POk (s, rest).
Proof.
  induction n as [|n IH]; intros s Hlen Hval m rest Hm.
  { destruct s; [|simpl in Hlen; lia].
    destruct m as [|m]; [simpl in Hm; lia|]. reflexivity. }
  destruct s as [|b r].
  { destruct m as [|m]; [simpl in Hm; lia|]. reflexivity. }
  simpl in Hlen.
  destruct (valid_loop_step _ _ _ Hval) as (c & size & Hd & Hv & Ht & Hval').
  simpl appendString_loop in *.
  destruct (byte b <? RuneSelf) eqn:Hb.
  - (* an ASCII byte *)
    rewrite (DecodeRune_ascii _ _ Hb) in Hd. injection Hd as <- <-.
    simpl drop_bytes in Hval'.
    rewrite htmlSafeSet_safeSet in *.
    destruct (safeSet b) eqn:Hsafe.
    + destruct (safeSet_spec _ Hsafe) as (H1 & H2 & H3 & H4).
      destruct m as [|m]; [lia|]. simpl in Hm. simpl String.append.
      rewrite unquote_plain by assumption.
      rewrite (IH r) by (assumption || lia). reflexivity.
    + apply N.ltb_lt in Hb. unfold RuneSelf in Hb.
      destruct (unquote_escape_byte b
                  (appendString_loop false n r +:+ String dquote rest) Hb)
        as (k & Hk & Hlenk & Hstep).
      rewrite length_append, Hlenk in Hm.
      destruct m as [|m]; [lia|].
      rewrite append_assoc, Hstep.
      rewrite (IH r) by (assumption || lia). reflexivity.
  - (* a sequence of two or more bytes *)
    rewrite Hd in *. rewrite Ht in *.
    apply N.ltb_ge in Hb. unfold RuneSelf in Hb.
    destruct (DecodeRune_multibyte _ _ _ _ Hb Hd Hv)
      as (pre & rest0 & Hs & Htake & Hdrop & Hlp & Hsz & Henc & Hdec & Hdr & _).
    rewrite Hdrop in *.
    assert (String.length rest0 <= n)%nat as Hlen0.
    { rewrite <- Hdrop.
      pose proof (length_drop_bytes_lt size b r Hsz). lia. }
    destruct ((c =? 0x2028) || (c =? 0x2029)) eqn:Hsep.
    + (* U+2028 and U+2029 are written as escapes *)
      simpl in Hm. destruct m as [|m]; [lia|].
      assert (c = 0x2028 \/ c = 0x2029) as Hc.
      { apply orb_true_iff in Hsep as [?%N.eqb_eq|?%N.eqb_eq]; auto. }
      assert (2 * 4096 + 0 * 256 + 2 * 16 + c mod 16 = c) as Hval4
        by (destruct Hc as [->| ->]; reflexivity).
      simpl String.append.
      change "2"%char with (hex_digit 2). change "0"%char with (hex_digit 0).
      rewrite unquote_u4; try lia.
      * rewrite Hval4, Henc.
        rewrite (IH rest0) by (assumption || lia).
        rewrite emit_ok, <- Hs. reflexivity.
      * rewrite Hval4. destruct Hc as [->| ->]; reflexivity.
    + (* any other rune is copied *)
      rewrite Htake in *. rewrite length_append, Hlp in Hm.
      destruct m as [|m]; [lia|].
      rewrite append_assoc.
      destruct pre as [|b' pre']; [simpl in Hlp; lia|].
      injection Hs as <- Hs'.
      destruct (high_byte_tests b Hb) as (H1 & H2 & H3 & H4 & _).
      change (String b pre' +:+ ?t) with (String b (pre' +:+ t)).
      rewrite unquote_multi by assumption.
      change (String b (pre' +:+ ?t)) with (String b pre' +:+ t).
      rewrite Hdec, Hdr, Henc.
      rewrite (IH rest0) by (assumption || lia).
      rewrite emit_ok. simpl. by rewrite <- Hs'.
Qed.

(** [parse_string] on the literal of a valid UTF-8 string. *)
Lemma parse_string_appendString (s rest : string) :
  ValidString s = true ->
  parse_string
    (appendString_loop false (String.length s) s +:+ String dquote rest)
  = POk (s, rest).
Proof.
  intros Hv. unfold parse_string.
  apply unquote_appendString_loop; [lia|exact Hv|].
  rewrite length_append. lia.
Qed.

End string_round_trip.

(** ** The encoder keeps the HTML characters *)

Module html_verbatim.
Import utf8 utf8_facts json_enc string_round_trip.
Local Open Scope N_scope.
#[local] Arguments String.append !_ _ / : simpl nomatch.
#[local] Arguments DecodeRuneInString : simpl never.

Lemma filter_bytes_app (p : ascii -> bool) (a b : string) :
  filter_bytes p (a +:+ b) = filter_bytes p a +:+ filter_bytes p b.
Proof.
  induction a as [|x a IH]; simpl; [reflexivity|].
  destruct (p x); simpl; by rewrite IH.
Qed.

Lemma filter_high_bytes (s : string) :
  all_bytes (fun a => 0x80 <=? byte a) s = true ->
  filter_bytes isHTML s = EmptyString.
Proof.
  induction s as [|x s IH]; simpl; [reflexivity|].
  intros [Hx Hs]%andb_true_iff. apply N.leb_le in Hx.
  destruct (high_byte_tests x Hx) as (_ & _ & _ & _ & ->). auto.
Qed.

Lemma isHTML_safe (b : ascii) : isHTML b = true -> safeSet b = true.
Proof.
  unfold isHTML. rewrite !orb_true_iff.
  intros [[->%Ascii.eqb_eq| ->%Ascii.eqb_eq]| ->%Ascii.eqb_eq]; reflexivity.
Qed.

(** With HTML escaping off, the bytes [<], [>] and [&] of the encoded
    string are those of the string, in the same order: none is escaped and
    none is added. *)
Lemma appendString_loop_html (n : nat) : forall s : string,
  (String.length s <= n)%nat ->
  filter_bytes isHTML (appendString_loop false n s) = filter_bytes isHTML s.
Proof.
  induction n as [|n IH]; intros s Hlen.
  { destruct s; [reflexivity|simpl in Hlen; lia]. }
  destruct s as [|b r]; [reflexivity|]. simpl in Hlen.
  simpl appendString_loop.
  destruct (byte b <? RuneSelf) eqn:Hb.
  - rewrite htmlSafeSet_safeSet. destruct (safeSet b) eqn:Hsafe.
    + simpl. rewrite (IH r) by lia. reflexivity.
    + rewrite filter_bytes_app, isHTML_escape_byte, (IH r) by lia. simpl.
      destruct (isHTML b) eqn:Hh; [|reflexivity].
      apply isHTML_safe in Hh. congruence.
  - apply N.ltb_ge in Hb. unfold RuneSelf in Hb.
    destruct (high_byte_tests b Hb) as (_ & _ & _ & _ & Hh).
    destruct (DecodeRuneInString (String b r)) as [c size] eqn:Hd.
    destruct ((c =? RuneError) && (size =? 1)%nat) eqn:Ht.
    + apply andb_true_iff in Ht as [_ ->%Nat.eqb_eq].
      simpl. rewrite Hh, (IH r) by lia. reflexivity.
    + assert (~ (c = RuneError /\ size = 1%nat)) as Hv
        by (intros [-> ->]; discriminate).
      destruct (DecodeRune_multibyte _ _ _ _ Hb Hd Hv)
        as (pre & rest0 & Hs & Htake & Hdrop & Hlp & Hsz & _ & _ & _ & Hhigh).
      assert (String.length rest0 <= n)%nat as Hlen0.
      { rewrite <- Hdrop.
        pose proof (length_drop_bytes_lt size b r Hsz). lia. }
      rewrite Htake, Hdrop, Hs, (filter_bytes_app _ pre rest0),
        (filter_high_bytes _ Hhigh).
      destruct ((c =? 0x2028) || (c =? 0x2029)).
      * simpl. rewrite isHTML_hex_digit, (IH rest0) by lia. reflexivity.
      * rewrite filter_bytes_app, (filter_high_bytes _ Hhigh),
          (IH rest0) by lia. reflexivity.
Qed.

Lemma appendString_html (s : string) :
  filter_bytes isHTML (appendString false s) = filter_bytes isHTML s.
Proof.
  unfold appendString. simpl.
  rewrite filter_bytes_app, appendString_loop_html by lia. simpl.
  induction (filter_bytes isHTML s) as [|x t IH]; simpl; [reflexivity|].
  by rewrite IH.
Qed.

End html_verbatim.

(** ** The payload of a request, encoded and decoded *)

Module payload.
Import utf8 json_enc json_dec string_round_trip html_verbatim.
#[local] Arguments String.append !_ _ / : simpl nomatch.
#[local] Arguments parse_string : simpl never.
#[local] Arguments appendString_loop : simpl never.

Lemma parse_value_string (f : nat) (d : N) (r : string) :
  parse_value (S f) d (String dquote r)
  = pbind (parse_string r) (fun '(str, rest) => POk (JString str, rest)).
Proof. reflexivity. Qed.

(** A member with a string value, as the encoder writes it, is scanned as
    the pair of the key and the value. *)
Lemma parse_members_member (f n : nat) (d : N) (k v : string) (c : ascii)
    (rest : string) :
  ValidString k = true -> ValidString v = true ->
  isSpace c = false ->
  parse_members (parse_value (S f) d) (S n) (member_text k v (String c rest))
  = if Ascii.eqb c "}"%char then POk ([(k, JString v)], rest)
    else if Ascii.eqb c ","%char then
      pbind (parse_members (parse_value (S f) d) n rest) (fun '(ms, r6) =>
        POk ((k, JString v) :: ms, r6))
    else PInvalid.
Proof.
  intros Hk Hv Hc. unfold member_text. simpl parse_members.
  rewrite (parse_string_appendString k _ Hk). simpl.
  rewrite (parse_string_appendString v _ Hv). simpl.
  rewrite Hc. reflexivity.
Qed.

Lemma parse_members_comma (f n : nat) (d : N) (k v rest : string) :
  ValidString k = true -> ValidString v = true ->
  parse_members (parse_value (S f) d) (S n)
    (member_text k v (String ","%char rest))
  = pbind (parse_members (parse_value (S f) d) n rest) (fun '(ms, r6) =>
      POk ((k, JString v) :: ms, r6)).
Proof. intros Hk Hv. by rewrite parse_members_member. Qed.

Lemma parse_members_close (f n : nat) (d : N) (k v rest : string) :
  ValidString k = true -> ValidString v = true ->
  parse_members (parse_value (S f) d) (S n)
    (member_text k v (String "}"%char rest))
  = POk ([(k, JString v)], rest).
Proof. intros Hk Hv. by rewrite parse_members_member. Qed.

(** The encoding of [CreateApiKeyParams], member by member. *)
Lemma Marshal_text (escapeHTML : bool) (p : CreateApiKeyParams.t) :
  json_Encode false p =
  Ok (String "{"%char
        (member_text "name" (CreateApiKeyParams.Name p)
           (String ","%char
              (member_text "write" (CreateApiKeyParams.Write p)
                 (String "}"%char (String char_lf EmptyString)))))).
Proof.
  unfold json_Encode, json_Marshal, CreateApiKeyParams_Marshaler.
  f_equal. unfold member_text, field_name, appendString.
  simpl. rewrite !append_assoc. simpl. rewrite !append_assoc. reflexivity.
Qed.

Lemma parse_params (n w : string) :
  ValidString n = true -> ValidString w = true ->
  parse (String "{"%char
           (member_text "name" n
              (String ","%char
                 (member_text "write" w
                    (String "}"%char (String char_lf EmptyString))))))
  = POk (JObject [("name"%string, JString n); ("write"%string, JString w)]).
Proof.
  intros Hn Hw. unfold parse.
  set (body := String "{" _).
  assert (exists f, String.length body = S (S (S f))) as [f Hf].
  { unfold body, member_text. simpl String.length.
    rewrite !length_append. simpl String.length. eexists. reflexivity. }
  rewrite Hf. unfold body.
  change (parse_value (S (S (S (S f)))) 0 (String "{"%char ?m))
    with (pbind (parse_members (parse_value (S (S (S f))) 1) (S (S (S f))) m)
            (fun '(ms, rest) => POk (JObject ms, rest))).
  rewrite parse_members_comma by (assumption || reflexivity).
  rewrite parse_members_close by (assumption || reflexivity).
  reflexivity.
Qed.

(** Decoding the encoding gives the payload back, whatever the target
    held before. *)
Lemma Unmarshal_Encode (p v : CreateApiKeyParams.t) (body : string) :
  ValidString (CreateApiKeyParams.Name p) = true ->
  ValidString (CreateApiKeyParams.Write p) = true ->
  json_Encode false p = Ok body ->
  json_Unmarshal body v = (p, None).
Proof.
  intros Hn Hw. rewrite (Marshal_text false). intros [= <-].
  unfold json_Unmarshal. rewrite (parse_params _ _ Hn Hw).
  destruct p as [n w]. reflexivity.
Qed.

Lemma member_text_html (k v rest : string) :
  filter_bytes isHTML (member_text k v rest)
  = filter_bytes isHTML k +:+ filter_bytes isHTML v
    +:+ filter_bytes isHTML rest.
Proof.
  unfold member_text. simpl.
  rewrite filter_bytes_app, appendString_loop_html by lia. simpl.
  rewrite filter_bytes_app, appendString_loop_html by lia. simpl.
  reflexivity.
Qed.

Lemma filter_bytes_skip (p : ascii -> bool) (c : ascii) (r : string) :
  p c = false -> filter_bytes p (String c r) = filter_bytes p r.
Proof. intros Hc. simpl. by rewrite Hc. Qed.

Lemma append_empty_r (s : string) : s +:+ EmptyString = s.
Proof. induction s as [|x s IH]; simpl; [reflexivity|by rewrite IH]. Qed.

(** The HTML characters of the encoding are those of the two fields. *)
Lemma Encode_html (p : CreateApiKeyParams.t) (body : string) :
  json_Encode false p = Ok body ->
  filter_bytes isHTML body
  = filter_bytes isHTML
      (CreateApiKeyParams.Name p +:+ CreateApiKeyParams.Write p).
Proof.
  rewrite (Marshal_text false). intros [= <-].
  rewrite (filter_bytes_skip _ "{"%char), member_text_html by reflexivity.
  rewrite (filter_bytes_skip _ ","%char), member_text_html by reflexivity.
  change (filter_bytes isHTML "name") with EmptyString.
  change (filter_bytes isHTML "write") with EmptyString.
  change (filter_bytes isHTML (String "}"%char (String char_lf EmptyString)))
    with EmptyString.
  simpl. by rewrite append_empty_r, filter_bytes_app.
Qed.

End payload.

Section Request_body.
Context `{NetURL} `{Network}.

(** The body of a built request is the encoding of the payload. *)
Lemma NewRequest_body {P} `{Marshaler P} (c : client) (method url : string)
    (p : P) (req : Request) (e : option error) :
  Root.NewRequest c method url [Some p] = (Some req, e)
  \/ Sub.NewRequest c method url [Some p] = (Some req, e) ->
  exists body, json_Encode false p = Ok body /\ ReqBody req = Some body.
Proof.
  unfold Root.NewRequest, Sub.NewRequest, encode_body.
  destruct (URL_Parse _ _); [|intros [|]; discriminate].
  destruct (json_Encode false p) as [body|]; [|intros [|]; discriminate].
  destruct (http_NewRequest _ _ _) as [r|] eqn:Hr; [|intros [|]; discriminate].
  apply http_NewRequest_inv in Hr as (_ & Hbody & _).
  intros [[= <- <-]|[= <- <-]]; exists body; simpl; auto.
Qed.


End Request_body.


(** A field that is not valid UTF-8 is not JSON-representable: the encoder
    writes the replacement character for the offending byte, and the
    decoder reads that back. *)
Lemma invalid_utf8_not_round_trip :
  let p := {| CreateApiKeyParams.Name := String (ascii_of_N 255) EmptyString;
              CreateApiKeyParams.Write := "1" |} in
  utf8.ValidString (CreateApiKeyParams.Name p) = false
  /\ exists body,
       json_Encode false p = Ok body
       /\ json_Unmarshal body CreateApiKeyParams.zero
          = ({| CreateApiKeyParams.Name := utf8.EncodeRune utf8.RuneError;
                CreateApiKeyParams.Write := "1" |}, None).
Proof.
  split; [reflexivity|]. eexists. split; reflexivity.
Qed.

(** ** The scanner always finishes

    The recursion of the scanner is bounded by the length of its input
    plus one; with that bound it never stops for lack of steps. *)

Module scanner_total.
Import utf8 json_dec string_round_trip.
#[local] Arguments String.append !_ _ / : simpl nomatch.
#[local] Arguments DecodeRuneInString : simpl never.
#[local] Arguments EncodeRune : simpl never.
#[local] Arguments getu4 : simpl never.
#[local] Arguments low_surrogate : simpl never.

Lemma good_mono {A} (n n' : nat) (r : presult (A * string)) :
  (n <= n')%nat -> good n r -> good n' r.
Proof. destruct r as [[a rest]| | | |]; simpl; auto. lia. Qed.

Lemma good_emit (n : nat) (out : string) (r : presult (string * string)) :
  good n r -> good n (emit out r).
Proof. destruct r as [[a rest]| | | |]; simpl; auto. Qed.

(** A rune takes one byte of a non-empty input at least. *)
Lemma DecodeRune_size (c : ascii) (r : string) :
  (1 <= (DecodeRuneInString (String c r)).2)%nat.
Proof.
  unfold DecodeRuneInString.
  repeat match goal with
  | |- context [if ?b then _ else _] => destruct b
  | |- context [match ?x with _ => _ end] => destruct x
  end; simpl; lia.
Qed.

Lemma getu4_length (s : string) (n : N) (rest : string) :
  getu4 s = POk (n, rest) -> String.length s = (4 + String.length rest)%nat.
Proof.
  unfold getu4.
  destruct s as [|c1 [|c2 [|c3 [|c4 r]]]];
    repeat match goal with
    | |- context [match ?x with _ => _ end] => destruct x
    end; try discriminate.
  intros [= _ <-]. reflexivity.
Qed.

Lemma getu4_not_fuel (s : string) : getu4 s <> PFuel.
Proof.
  unfold getu4.
  destruct s as [|c1 [|c2 [|c3 [|c4 r]]]];
    repeat match goal with
    | |- context [match ?x with _ => _ end] => destruct x
    end; discriminate.
Qed.

Lemma low_surrogate_length (s : string) (n : N) (rest : string) :
  low_surrogate s = Some (n, rest) ->
  (String.length rest < String.length s)%nat.
Proof.
  unfold low_surrogate. destruct s as [|c [|u r]]; try discriminate.
  destruct (Ascii.eqb c backslash && Ascii.eqb u "u"); try discriminate.
  destruct (getu4 r) as [[k r']| | | |] eqn:Hg; try discriminate.
  intros [= _ <-]. apply getu4_length in Hg. simpl. lia.
Qed.

(** [unquote] with more steps than bytes. *)
Lemma unquote_good (m : nat) : forall s : string,
  (String.length s < m)%nat -> good (S (String.length s)) (unquote m s).
Proof.
  induction m as [|m IH]; intros s Hlen; [lia|].
  assert (forall r' : string, (String.length r' < String.length s)%nat ->
            forall out, good (S (String.length s)) (emit out (unquote m r')))
    as Hrec.
  { intros r' Hr' out. apply good_emit.
    apply (good_mono (S (String.length r'))); [lia|]. apply IH. lia. }
  destruct s as [|c r]; [exact I|]. simpl String.length in *.
  simpl unquote.
  destruct (Ascii.eqb c dquote); [simpl; lia|].
  destruct (Ascii.eqb c backslash).
  - destruct r as [|e r']; [exact I|]. simpl String.length in *.
    repeat match goal with
    | |- good _ (if ?b then _ else _) => destruct b
    | |- good _ (emit _ (unquote m r')) => apply Hrec; lia
    end; try exact I.
    destruct (getu4 r') as [[rr r'']| | | |] eqn:Hg; try exact I;
      [|by apply getu4_not_fuel in Hg].
    apply getu4_length in Hg. simpl pbind.
    destruct (IsSurrogate rr); [|apply Hrec; lia].
    destruct (low_surrogate r'') as [[rr1 r3]|] eqn:Hl; [|apply Hrec; lia].
    apply low_surrogate_length in Hl.
    destruct (negb _); apply Hrec; lia.
  - destruct (byte c <? 32)%N; [exact I|].
    destruct (byte c <? RuneSelf)%N; [apply Hrec; lia|].
    pose proof (DecodeRune_size c r) as Hsz.
    destruct (DecodeRuneInString (String c r)) as [rr size]. simpl in Hsz.
    apply Hrec. pose proof (length_drop_bytes_lt size c r Hsz). lia.
Qed.

Lemma parse_string_good (s : string) :
  good (S (String.length s)) (parse_string s).
Proof. apply unquote_good. lia. Qed.

Lemma skip_ws_length (s : string) :
  (String.length (skip_ws s) <= String.length s)%nat.
Proof.
  induction s as [|c r IH]; simpl; [lia|].
  destruct (isSpace c); simpl; lia.
Qed.

Lemma skip_ws_cons (s : string) (c : ascii) (r : string) :
  skip_ws s = String c r -> (String.length r < String.length s)%nat.
Proof.
  intros Hs. pose proof (skip_ws_length s) as Hl. rewrite Hs in Hl.
  simpl in Hl. lia.
Qed.

Lemma span_digits_length (s : string) :
  (String.length (span_digits s).2 <= String.length s)%nat.
Proof.
  induction s as [|c r IH]; simpl; [lia|].
  destruct (isDigit c); simpl; [|lia].
  destruct (span_digits r) as [ds rest]. simpl in *. lia.
Qed.

Lemma digits1_good (s : string) : good (S (String.length s)) (digits1 s).
Proof.
  unfold digits1. destruct s as [|c r]; [exact I|].
  destruct (isDigit c); [|exact I].
  pose proof (span_digits_length (String c r)) as Hl.
  destruct (span_digits (String c r)) as [ds rest]. simpl in *. lia.
Qed.

Lemma parse_frac_good (s : string) : good (S (String.length s)) (parse_frac s).
Proof.
  unfold parse_frac. destruct s as [|c r]; [simpl; lia|].
  destruct (Ascii.eqb c "."); [|simpl; lia].
  apply good_emit. apply (good_mono (S (String.length r))); [simpl; lia|].
  apply digits1_good.
Qed.

Lemma parse_exp_good (s : string) : good (S (String.length s)) (parse_exp s).
Proof.
  unfold parse_exp. destruct s as [|c r]; [simpl; lia|].
  destruct (Ascii.eqb c "e" || Ascii.eqb c "E"); [|simpl; lia].
  destruct r as [|sg r']; [exact I|].
  destruct (Ascii.eqb sg "+" || Ascii.eqb sg "-"); apply good_emit.
  - apply (good_mono (S (String.length r'))); [simpl; lia|].
    apply digits1_good.
  - apply (good_mono (S (String.length (String sg r')))); [simpl; lia|].
    apply digits1_good.
Qed.

Lemma parse_int_good (s : string) : good (String.length s) (parse_int s).
Proof.
  unfold parse_int. destruct s as [|c r]; [exact I|].
  destruct (Ascii.eqb c "0"); [simpl; lia|].
  destruct (isDigit c) eqn:Hd; [|exact I].
  simpl span_digits. rewrite Hd.
  pose proof (span_digits_length r) as Hl.
  destruct (span_digits r) as [ds rest]. simpl in *. lia.
Qed.

(** Binding a good result to a continuation that is good on what is left. *)
Lemma good_pbind {A B} (n : nat) (r : presult (A * string))
    (k : A * string -> presult (B * string)) :
  good n r ->
  (forall a rest, (String.length rest < n)%nat -> good n (k (a, rest))) ->
  good n (pbind r k).
Proof. destruct r as [[a rest]| | | |]; simpl; auto. Qed.

Lemma after_sign_good (s : string) :
  good (String.length s)
    (pbind (parse_int s) (fun '(i, r1) =>
     pbind (parse_frac r1) (fun '(f, r2) =>
     pbind (parse_exp r2) (fun '(e, r3) => POk (i +:+ f +:+ e, r3))))).
Proof.
  apply good_pbind; [apply parse_int_good|]. intros i r1 H1.
  apply good_pbind.
  { apply (good_mono (S (String.length r1))); [lia|apply parse_frac_good]. }
  intros f r2 H2. apply good_pbind.
  { apply (good_mono (S (String.length r2))); [lia|apply parse_exp_good]. }
  intros e r3 H3. simpl. exact H3.
Qed.

Lemma parse_number_good (c : ascii) (r : string) :
  good (S (String.length r)) (parse_number (String c r)).
Proof.
  unfold parse_number. destruct (Ascii.eqb c "-").
  - apply good_emit. apply (good_mono (String.length r)); [lia|].
    apply after_sign_good.
  - apply (after_sign_good (String c r)).
Qed.

Lemma expect_good (lit s : string) (k : string -> json) :
  good (S (String.length s))
    (pbind (expect lit s) (fun rest => POk (k rest, rest))).
Proof.
  revert s. induction lit as [|l lit IH]; intros s; simpl; [lia|].
  destruct s as [|c r]; [exact I|].
  destruct (Ascii.eqb c l); [|exact I].
  apply (good_mono (S (String.length r))); [simpl; lia|]. apply IH.
Qed.

(** The same with a tighter bound on what the first scan leaves. *)
Lemma good_bind {A B} (n n' : nat) (r : presult (A * string))
    (k : A * string -> presult (B * string)) :
  good n' r ->
  (forall a rest, (String.length rest < n')%nat -> good n (k (a, rest))) ->
  good n (pbind r k).
Proof. destruct r as [[a rest]| | | |]; simpl; auto. Qed.

Section Loops.
Context (value : string -> presult (json * string)) (bound : nat).
Hypothesis value_good :
  forall s, (String.length s < bound)%nat -> good (String.length s) (value s).

Lemma parse_members_good (n : nat) : forall s : string,
  (String.length s < n)%nat -> (String.length s <= bound)%nat ->
  good (S (String.length s)) (parse_members value n s).
Proof.
  induction n as [|n IH]; intros s Hn Hb; [lia|]. simpl parse_members.
  destruct (skip_ws s) as [|q r1] eqn:Hs; [exact I|].
  apply skip_ws_cons in Hs.
  destruct (negb (Ascii.eqb q dquote)); [exact I|].
  apply (good_bind _ (S (String.length r1))); [apply parse_string_good|].
  intros key r2 H2.
  destruct (skip_ws r2) as [|colon r3] eqn:Hs2; [exact I|].
  apply skip_ws_cons in Hs2.
  destruct (negb (Ascii.eqb colon ":")); [exact I|].
  apply (good_bind _ (String.length r3)); [apply value_good; lia|].
  intros v r4 H4.
  destruct (skip_ws r4) as [|d r5] eqn:Hs4; [exact I|].
  apply skip_ws_cons in Hs4.
  destruct (Ascii.eqb d "}"); [simpl; lia|].
  destruct (Ascii.eqb d ","); [|exact I].
  apply (good_bind _ (S (String.length r5))); [apply IH; lia|].
  intros ms r6 H6. simpl. lia.
Qed.

Lemma parse_elements_good (n : nat) : forall s : string,
  (String.length s < n)%nat -> (String.length s < bound)%nat ->
  good (String.length s) (parse_elements value n s).
Proof.
  induction n as [|n IH]; intros s Hn Hb; [lia|]. simpl parse_elements.
  apply (good_bind _ (String.length s)); [by apply value_good|].
  intros v r1 H1.
  destruct (skip_ws r1) as [|d r2] eqn:Hs1; [exact I|].
  apply skip_ws_cons in Hs1.
  destruct (Ascii.eqb d "]"); [simpl; lia|].
  destruct (Ascii.eqb d ","); [|exact I].
  apply (good_bind _ (String.length r2)); [apply IH; lia|].
  intros vs r3 H3. simpl. lia.
Qed.

End Loops.

(** A value is scanned with more steps than bytes. *)
Lemma parse_value_good (fuel : nat) : forall (depth : N) (s : string),
  (String.length s < fuel)%nat ->
  good (String.length s) (parse_value fuel depth s).
Proof.
  induction fuel as [|fuel IH]; intros depth s Hlen; [lia|].
  simpl parse_value.
  destruct (skip_ws s) as [|c r] eqn:Hs; [exact I|].
  apply skip_ws_cons in Hs.
  destruct (Ascii.eqb c "{").
  { destruct (maxNestingDepth <? depth + 1)%N; [exact I|].
    destruct (skip_ws r) as [|c' r'] eqn:Hr; [exact I|].
    pose proof (skip_ws_length r) as Hl. rewrite Hr in Hl.
    destruct (Ascii.eqb c' "}").
    { simpl in *. lia. }
    apply (good_bind _ (S (String.length (String c' r')))).
    - apply (parse_members_good _ fuel); [intros; apply IH; lia|lia|lia].
    - intros ms rest Hrest. simpl in *. lia. }
  destruct (Ascii.eqb c "[").
  { destruct (maxNestingDepth <? depth + 1)%N; [exact I|].
    destruct (skip_ws r) as [|c' r'] eqn:Hr; [exact I|].
    pose proof (skip_ws_length r) as Hl. rewrite Hr in Hl.
    destruct (Ascii.eqb c' "]").
    { simpl in *. lia. }
    apply (good_bind _ (String.length (String c' r'))).
    - apply (parse_elements_good _ fuel); [intros; apply IH; lia|lia|lia].
    - intros vs rest Hrest. simpl in *. lia. }
  destruct (Ascii.eqb c dquote).
  { apply (good_bind _ (S (String.length r))); [apply parse_string_good|].
    intros str rest Hrest. simpl. lia. }
  destruct (Ascii.eqb c "t").
  { apply (good_mono (S (String.length r))); [lia|].
    apply (expect_good "rue" r (fun _ => JBool true)). }
  destruct (Ascii.eqb c "f").
  { apply (good_mono (S (String.length r))); [lia|].
    apply (expect_good "alse" r (fun _ => JBool false)). }
  destruct (Ascii.eqb c "n").
  { apply (good_mono (S (String.length r))); [lia|].
    apply (expect_good "ull" r (fun _ => JNull)). }
  destruct (Ascii.eqb c "-" || isDigit c); [|exact I].
  apply (good_bind _ (S (String.length r))); [apply parse_number_good|].
  intros lit rest Hrest. simpl. lia.
Qed.

(** The scan of a whole input never stops for lack of steps. *)
Lemma parse_not_PFuel (data : string) : parse data <> PFuel.
Proof.
  unfold parse.
  pose proof (parse_value_good (S (String.length data)) 0 data ltac:(lia)) as Hg.
  destruct (parse_value _ _ _) as [[v rest]| | | |]; simpl in *;
    try discriminate; [|contradiction].
  destruct (skip_ws rest); discriminate.
Qed.

End scanner_total.

(** * Further properties of the client core *)

(** ** The base URL *)

Lemma HasSuffix_slash_append (p : string) : HasSuffix (p +:+ "/") "/" = true.
Proof. apply HasSuffix_slash_spec. by exists p. Qed.

Section Base_URL.
Context `{NetURL} `{Network}.

(** X1: a URL that [toURLWithEndingSlash] returns comes without an error,
    has a path that ends in a slash, and differs from the parsed URL in its
    [Path] at most, by that one slash: [RawPath] and every other field are
    as parsed.  The base URL of a client that [NewClient] made without
    options ends in a slash. *)
Theorem toURLWithEndingSlash_path :
  (forall (u : string) (b : URL) (e : option error),
     toURLWithEndingSlash u = (Some b, e) ->
     e = None
     /\ HasSuffix (Path b) "/" = true
     /\ exists p, url_Parse u = Ok p
                  /\ b = set_Path p (Path b)
                  /\ (Path b = Path p \/ Path b = Path p +:+ "/"))
  /\ (forall tok c e,
        Root.NewClient tok [] = (Some c, e) \/ Sub.NewClient tok [] = (Some c, e) ->
        HasSuffix (Path (baseURL c)) "/" = true).
Proof.
  assert (forall (u : string) (b : URL) (e : option error),
     toURLWithEndingSlash u = (Some b, e) ->
     e = None
     /\ HasSuffix (Path b) "/" = true
     /\ exists p, url_Parse u = Ok p
                  /\ b = set_Path p (Path b)
                  /\ (Path b = Path p \/ Path b = Path p +:+ "/")) as Hone.
  { intros u b e. unfold toURLWithEndingSlash.
    destruct (url_Parse u) as [p|err]; [|discriminate].
    destruct (HasSuffix (Path p) "/") eqn:Hs; simpl; intros [= <- <-].
    - split; [reflexivity|]. split; [exact Hs|]. exists p.
      split; [reflexivity|]. split; [by destruct p|by left].
    - split; [reflexivity|]. split; [apply HasSuffix_slash_append|].
      exists p. split; [reflexivity|]. split; [reflexivity|by right]. }
  split; [exact Hone|].
  intros tok c e [Hc|Hc].
  - apply Root_NewClient_inv in Hc as (_ & _ & _ & Hb).
    by apply Hone in Hb as (_ & ? & _).
  - apply Sub_NewClient_inv in Hc as (_ & _ & _ & Hb).
    by apply Hone in Hb as (_ & ? & _).
Qed.

End Base_URL.

Lemma toURLWithEndingSlash_path_witness :
  exists b,
    @toURLWithEndingSlash Example.simple_url "https://api.example.com/v2"
      = (Some b, None)
    /\ Path b = "/v2/" /\ HasSuffix (Path b) "/" = true.
Proof.
  eexists. split; [vm_compute; reflexivity|]. split; [reflexivity|].
  eapply (proj1 (@toURLWithEndingSlash_path Example.simple_url
                   (Example.server 200 ""))
            "https://api.example.com/v2" _ None).
  vm_compute. reflexivity.
Defined.

(** ** Construction options *)

Section Options.
Context `{NetURL} `{Network}.

(** X2: [NewClient] runs its options in order, each on the client the
    earlier ones left, and stops at the first that fails.  With one
    option, the option runs on the fresh client (default HTTP client,
    base URL, the token, no services): if it fails, [NewClient] returns no
    client and its error; otherwise the client it left is returned (so
    what it did to the HTTP client, the base URL and the token stands),
    with the service pointers assigned after it ran.  With two options or
    more, the first two act as one option, the second on the client the
    first left; so every list comes down to the case of one option. *)
Theorem NewClient_options (tok : string) (b : URL) :
  tok <> "" ->
  toURLWithEndingSlash BaseUrl = (Some b, None) ->
  (Root.NewClient tok []
     = (Some (set_services (fresh_client Root.defaultHTTPClient b tok)),
        None)
   /\ Sub.NewClient tok []
     = (Some (set_services (fresh_client Sub.defaultHTTPClient b tok)),
        None))
  /\ (forall o : ClientOption,
      Root.NewClient tok [o]
      = match o (fresh_client Root.defaultHTTPClient b tok) with
        | (c1, None) => (Some (set_services c1), None)
        | (_, Some err) => (None, Some err)
        end
      /\ Sub.NewClient tok [o]
      = match o (fresh_client Sub.defaultHTTPClient b tok) with
        | (c1, None) => (Some (set_services c1), None)
        | (_, Some err) => (None, Some err)
        end)
  /\ (forall (o1 o2 : ClientOption) (rest : list ClientOption),
      Root.NewClient tok (o1 :: o2 :: rest)
      = Root.NewClient tok (then_option o1 o2 :: rest)
      /\ Sub.NewClient tok (o1 :: o2 :: rest)
      = Sub.NewClient tok (then_option o1 o2 :: rest)).
Proof.
  intros Hne Hb. unfold Root.NewClient, Sub.NewClient.
  destruct (String.eqb_spec tok "") as [?|_]; [done|]. rewrite Hb.
  split; [split; reflexivity|]. split.
  - intros o. unfold fresh_client. simpl.
    split; destruct (o _) as [c1 [err|]]; reflexivity.
  - intros o1 o2 rest. unfold then_option. simpl.
    split; destruct (o1 _) as [c1 [err|]]; try reflexivity;
      destruct (o2 c1) as [c2 [err|]]; reflexivity.
Qed.

End Options.

Lemma NewClient_options_witness :
  (exists c,
     @Sub.NewClient Example.simple_url (Example.server 200 "") "tok"
       [Cases.with_timeout (30 * Second); Cases.with_token "other"]
     = (Some c, None)
     /\ Timeout (httpClient c) = 30 * Second
     /\ token c = "other"
     /\ ApiKey c = Some commonService)
  /\ @Root.NewClient Example.simple_url (Example.server 200 "") "tok"
       [Cases.with_timeout (30 * Second); Cases.refuse "no";
        Cases.with_timeout Second]
     = (None, Some (errorString "no")).
Proof.
  assert (exists b, @toURLWithEndingSlash Example.simple_url BaseUrl
                    = (Some b, None)) as [b Hb].
  { eexists. vm_compute. reflexivity. }
  destruct (@NewClient_options Example.simple_url (Example.server 200 "")
              "tok" b ltac:(discriminate) Hb) as (_ & Hone & Htwo).
  split.
  - eexists. split.
    + rewrite (proj2 (Htwo _ _ _)), (proj2 (Hone _)). reflexivity.
    + repeat split.
  - rewrite (proj1 (Htwo _ _ _)), (proj1 (Htwo _ _ _)), (proj1 (Hone _)).
    reflexivity.
Defined.

(** ** Building a request *)

Section Building.
Context `{NetURL} `{Network}.

(** X3: [NewRequest] of either copy returns exactly one of a request and
    an error. *)
Theorem NewRequest_one_of {P} `{Marshaler P} (c : client)
    (method url : string) (body : list (option P)) :
  ((exists req, Root.NewRequest c method url body = (Some req, None))
   \/ (exists e, Root.NewRequest c method url body = (None, Some e)))
  /\ ((exists req, Sub.NewRequest c method url body = (Some req, None))
   \/ (exists e, Sub.NewRequest c method url body = (None, Some e))).
Proof.
  unfold Root.NewRequest, Sub.NewRequest.
  destruct (URL_Parse _ _); [|split; eauto].
  destruct (encode_body body); [|split; eauto].
  destruct (http_NewRequest _ _ _); split; eauto.
Qed.

(** X4: only the first element of the variadic [body] counts.  With no
    element, or with a nil first element, a request that [NewRequest]
    returns has no body; with a non-nil first element the elements after
    it are ignored. *)
Theorem NewRequest_first_body {P} `{Marshaler P} (c : client)
    (method url : string) (p : P) (rest : list (option P)) :
  (forall req e,
     Root.NewRequest c method url (@nil (option P)) = (Some req, e)
     \/ Root.NewRequest c method url (None :: rest) = (Some req, e)
     \/ Sub.NewRequest c method url (@nil (option P)) = (Some req, e)
     \/ Sub.NewRequest c method url (None :: rest) = (Some req, e) ->
     ReqBody req = None)
  /\ Root.NewRequest c method url (Some p :: rest)
     = Root.NewRequest c method url [Some p]
  /\ Sub.NewRequest c method url (Some p :: rest)
     = Sub.NewRequest c method url [Some p]
  /\ Root.NewRequest c method url (None :: rest)
     = Root.NewRequest c method url (@nil (option P))
  /\ Sub.NewRequest c method url (None :: rest)
     = Sub.NewRequest c method url (@nil (option P)).
Proof.
  split; [|repeat split; reflexivity].
  intros req e. unfold Root.NewRequest, Sub.NewRequest. simpl encode_body.
  destruct (URL_Parse _ _); [|intros [|[|[|]]]; discriminate].
  destruct (http_NewRequest _ _ _) as [r|] eqn:Hr;
    [|intros [|[|[|]]]; discriminate].
  apply http_NewRequest_inv in Hr as (_ & Hbody & _).
  intros [[= <- <-]|[[= <- <-]|[[= <- <-]|[= <- <-]]]]; exact Hbody.
Qed.

(** X5: an empty method stands for GET, and a method that is not an HTTP
    token never yields a request. *)
Theorem NewRequest_method {P} `{Marshaler P} (c : client)
    (method url : string) (body : list (option P)) :
  Root.NewRequest c "" url body = Root.NewRequest c "GET" url body
  /\ Sub.NewRequest c "" url body = Sub.NewRequest c "GET" url body
  /\ (method <> "" -> validMethod method = false ->
      (exists e, Root.NewRequest c method url body = (None, Some e))
      /\ (exists e, Sub.NewRequest c method url body = (None, Some e))).
Proof.
  split; [reflexivity|]. split; [reflexivity|].
  intros Hne Hv. unfold Root.NewRequest, Sub.NewRequest.
  destruct (URL_Parse _ _); [|split; eauto].
  destruct (encode_body body); [|split; eauto].
  unfold http_NewRequest.
  destruct (String.eqb_spec method "") as [?|_]; [done|].
  rewrite Hv. simpl. split; eauto.
Qed.

End Building.

Lemma NewRequest_first_body_witness :
  exists req,
    @Sub.NewRequest Example.simple_url _ _ (Example.client_of 200 "")
      "GET" "api" [None; Some Runs.params0] = (Some req, None)
    /\ ReqBody req = None.
Proof.
  eexists. split; [vm_compute; reflexivity|].
  eapply (proj1 (@NewRequest_first_body Example.simple_url _ _
                   (Example.client_of 200 "") "GET" "api" Runs.params0
                   [Some Runs.params0]) _ None).
  right. right. right. vm_compute. reflexivity.
Defined.

Lemma NewRequest_method_witness :
  "GET api" <> "" /\ validMethod "GET api" = false
  /\ exists e,
       @Sub.NewRequest Example.simple_url _ _ (Example.client_of 200 "")
         "GET api" "api" no_body = (None, Some e).
Proof.
  split; [discriminate|]. split; [reflexivity|].
  apply (proj2 (proj2 (@NewRequest_method Example.simple_url _ _
                         (Example.client_of 200 "") "GET api" "api" no_body))
           ltac:(discriminate) eq_refl).
Defined.

(** ** Classifying and sending *)

Lemma band_test (code : Z) :
  (200 <=? code) && (code <? 400) = true <-> 200 <= code < 400.
Proof. rewrite andb_true_iff, Z.leb_le, Z.ltb_lt. reflexivity. Qed.

(** X6: on a response with a body, [checkForErrors] returns nil exactly
    when the status code is at least 200 and below 400; otherwise it
    returns an [ErrorResponse] that carries the response.  It never reads
    the body of a response in the band. *)
Theorem checkForErrors_band (resp : Response) (rc : ReadCloser) :
  Body resp = Some rc ->
  (checkForErrors resp = Returns None <-> 200 <= StatusCode resp < 400)
  /\ (~ (200 <= StatusCode resp < 400) ->
      exists e, checkForErrors resp = Returns (Some (apiError e))
                /\ ErrResponse e = resp)
  /\ (200 <= StatusCode resp < 400 ->
      forall body,
        checkForErrors {| StatusCode := StatusCode resp;
                          RespHeader := RespHeader resp; Body := body |}
        = Returns None).
Proof.
  intros Hrc.
  assert (~ (200 <= StatusCode resp < 400) ->
      exists e, checkForErrors resp = Returns (Some (apiError e))
                /\ ErrResponse e = resp) as Hout.
  { intros Hb. unfold checkForErrors. rewrite Hrc.
    destruct ((200 <=? StatusCode resp) && (StatusCode resp <? 400)) eqn:Ht;
      [by apply band_test in Ht|].
    unfold io_ReadAll. destruct (readErr rc); simpl; eexists; split;
      try reflexivity. apply ErrorResponse_decode_Response. }
  split; [|split; [exact Hout|]].
  - split.
    + intros Hnil.
      destruct (decide (200 <= StatusCode resp < 400)) as [|Hb]; [done|].
      destruct (Hout Hb) as (e & He & _). congruence.
    + intros Hb%band_test. unfold checkForErrors. by rewrite Hb.
  - intros Hb%band_test body. unfold checkForErrors. simpl. by rewrite Hb.
Qed.

Lemma checkForErrors_band_witness :
  checkForErrors (Example.reply 399 "") = Returns None
  /\ exists e, checkForErrors (Example.reply 400 "") = Returns (Some (apiError e))
               /\ ErrResponse e = Example.reply 400 "".
Proof.
  split.
  - apply (proj1 (checkForErrors_band (Example.reply 399 "") _ eq_refl)).
    simpl. lia.
  - apply (proj1 (proj2 (checkForErrors_band (Example.reply 400 "") _ eq_refl))).
    simpl. lia.
Defined.

(** A body that is not a JSON object leaves a struct as it was. *)
Lemma json_Unmarshal_not_object {T} (fs : fields T) (data : string) (v : T) :
  (forall ms, json_dec.parse data <> POk (JObject ms)) ->
  (@json_Unmarshal T {| decode := decode_struct fs |} data v).1 = v.
Proof.
  intros Hno. unfold json_Unmarshal.
  destruct (json_dec.parse data) as [j| | | |]; try reflexivity.
  destruct j; try reflexivity. by destruct (Hno members).
Qed.

(** X7: outside the band, when the body cannot be read to its end, or is
    not the text of a JSON object (not JSON at all, or an array, a string,
    a number, a literal), the [ErrorResponse] carries the response with an
    empty status and an empty message. *)
Theorem checkForErrors_plain_envelope (resp : Response) (rc : ReadCloser) :
  Body resp = Some rc ->
  ~ (200 <= StatusCode resp < 400) ->
  (exists msg, readErr rc = Some msg)
  \/ (forall ms, json_dec.parse (content rc) <> POk (JObject ms)) ->
  checkForErrors resp =
  Returns (Some (apiError {| ErrResponse := resp; ErrStatus := "";
                             ErrMessage := "" |})).
Proof.
  intros Hrc Hb Hbody. unfold checkForErrors. rewrite Hrc.
  destruct ((200 <=? StatusCode resp) && (StatusCode resp <? 400)) eqn:Ht;
    [by apply band_test in Ht|].
  unfold io_ReadAll. destruct Hbody as [[msg ->]|Hno]; [reflexivity|].
  destruct (readErr rc); simpl; [reflexivity|].
  do 3 f_equal. by apply (json_Unmarshal_not_object ErrorResponse_fields).
Qed.

Lemma checkForErrors_plain_envelope_witness :
  checkForErrors (Example.reply 502 "<html>Bad Gateway</html>") =
  Returns (Some (apiError
    {| ErrResponse := Example.reply 502 "<html>Bad Gateway</html>";
       ErrStatus := ""; ErrMessage := "" |})).
Proof.
  apply (checkForErrors_plain_envelope
           (Example.reply 502 "<html>Bad Gateway</html>")
           {| content := "<html>Bad Gateway</html>"; readErr := None |}
           eq_refl); [simpl; lia|].
  right. intros ms. vm_compute. discriminate.
Defined.

Section Sending.
Context `{Network} {T : Type} `{Unmarshaler T}.

(** X8: when the HTTP client returns an error in place of a response,
    [Do] returns no response, that error as it is, and the target as it
    was; and [Do] returns no response only then: whenever the HTTP client
    returns a response, [Do] returns it, with or without an error. *)
Theorem Do_client_failure (c : client) (req : Request) (v : option T) :
  (forall err,
     http_Client_Do (httpClient c) (authorize c req) = Err err ->
     Do c (Some req) v = Returns (None, Some err, v))
  /\ (forall r e v',
     Do c (Some req) v = Returns (r, e, v') ->
     (r = None <-> exists err,
                     http_Client_Do (httpClient c) (authorize c req) = Err err)
     /\ (forall resp, r = Some resp ->
           http_Client_Do (httpClient c) (authorize c req) = Ok resp)).
Proof.
  split.
  - intros err Herr. unfold Do. rewrite Herr. reflexivity.
  - intros r e v'. unfold Do.
    destruct (http_Client_Do (httpClient c) (authorize c req)) as [resp|err]
      eqn:Hdo.
    + destruct (Body resp) as [rc|]; [|discriminate].
      assert (forall x, Returns (Some resp, x.1, x.2) = Returns (r, e, v') ->
              (r = None <-> exists err, Ok resp = Err err)
              /\ (forall resp0, r = Some resp0 -> Ok resp = Ok resp0)) as Hres.
      { intros x [= <- _ _]. split; [|by intros ? [= ->]].
        split; [discriminate|]. by intros [err Herr]. }
      destruct (checkForErrors resp) as [[err|]|]; [| |discriminate].
      * apply (Hres (Some err, v)).
      * destruct v as [target|]; [|apply (Hres (None, None))].
        destruct (io_ReadAll rc) as [data [err|]];
          [apply (Hres (Some err, Some target))|].
        destruct (json_Unmarshal data target) as [t' [err|]].
        -- apply (Hres (Some err, Some t')).
        -- apply (Hres (None, Some t')).
    + intros [= <- <- <-]. split; [|discriminate].
      split; [|reflexivity]. eauto.
Qed.

(** X9: with a nil target, [Do] returns a response in the band without an
    error and without reading its body, whatever the body holds. *)
Theorem Do_nil_target (c : client) (req : Request) (resp : Response) :
  http_Client_Do (httpClient c) (authorize c req) = Ok resp ->
  200 <= StatusCode resp < 400 ->
  Do c (Some req) (@None T) = Returns (Some resp, None, None).
Proof.
  intros Hdo Hb%band_test. unfold Do. rewrite Hdo.
  destruct (http_Client_Do_body _ _ _ Hdo) as [rc ->].
  unfold checkForErrors. by rewrite Hb.
Qed.

End Sending.

(** A struct target: on a text that is not JSON, [json.Unmarshal] returns a
    syntax error. *)
Lemma json_Unmarshal_syntax {T} `{Unmarshaler T} (data : string) (v : T) :
  (forall j, json_dec.parse data <> POk j) ->
  exists msg, json_Unmarshal data v = (v, Some (SyntaxError msg)).
Proof.
  intros Hno. unfold json_Unmarshal.
  destruct (json_dec.parse data) as [j| | | |]; eauto. by destruct (Hno j).
Qed.

Section Sending_failures.
Context `{Network} {T : Type} `{Unmarshaler T}.

(** X10: in the band, with a non-nil target, a body that cannot be read to
    its end makes [Do] return the response and the read error, and a body
    that is not JSON makes it return the response and a syntax error; in
    both cases the target is left as it was. *)
Theorem Do_body_failure (c : client) (req : Request) (target : T)
    (resp : Response) (rc : ReadCloser) :
  http_Client_Do (httpClient c) (authorize c req) = Ok resp ->
  200 <= StatusCode resp < 400 ->
  Body resp = Some rc ->
  (forall msg, readErr rc = Some msg ->
     Do c (Some req) (Some target)
     = Returns (Some resp, Some (ioError msg), Some target))
  /\ (readErr rc = None ->
      (forall j, json_dec.parse (content rc) <> POk j) ->
      exists msg,
        Do c (Some req) (Some target)
        = Returns (Some resp, Some (SyntaxError msg), Some target)).
Proof.
  intros Hdo Hband Hrc. split.
  - intros msg Hmsg. unfold Do. rewrite Hdo, Hrc.
    unfold checkForErrors. apply band_test in Hband. rewrite Hband.
    unfold io_ReadAll. rewrite Hmsg. reflexivity.
  - intros Hread Hno.
    destruct (json_Unmarshal_syntax (content rc) target Hno) as [msg Hmsg].
    exists msg. rewrite (Do_success_band _ _ _ _ _ Hdo Hband Hrc Hread), Hmsg.
    reflexivity.
Qed.

End Sending_failures.

(** X11: setting the credential replaces the Authorization header and
    touches nothing else, so sending a request again, also through a client
    with another token, leaves exactly one credential on it: the last. *)
Theorem authorize_again (c c' : client) (req : Request) :
  authorize c (authorize c' req) = authorize c req
  /\ Header_Get (ReqHeader (authorize c (authorize c' req))) "Authorization"
     = "Bearer " +:+ token c
  /\ Method (authorize c req) = Method req
  /\ ReqURL (authorize c req) = ReqURL req
  /\ ReqBody (authorize c req) = ReqBody req
  /\ ReqHost (authorize c req) = ReqHost req.
Proof.
  assert (authorize c (authorize c' req) = authorize c req) as Heq.
  { unfold authorize, Header_Set. simpl. by rewrite insert_insert_eq. }
  split; [exact Heq|]. rewrite Heq. repeat split.
  unfold authorize, Header_Get, Header_Set. simpl.
  change (CanonicalMIMEHeaderKey "Authorization") with "Authorization".
  by rewrite lookup_insert_eq.
Qed.

Lemma Do_client_failure_witness :
  @Do Cases.down _ _ (Cases.client_on Cases.down) (Some Runs.request0)
     (Some DeleteResponse.zero)
  = Returns (None,
             Some (urlErrorOf "Get" "https://api.utho.com/v2/"
                     (httpError "connection refused")),
             Some DeleteResponse.zero).
Proof.
  apply (proj1 (@Do_client_failure Cases.down _ _
                  (Cases.client_on Cases.down) Runs.request0
                  (Some DeleteResponse.zero))).
  reflexivity.
Defined.

Lemma Do_nil_target_witness :
  @Do (Example.server 200 "not JSON") _ _ (Example.client_of 200 "not JSON") (Some Runs.request0)
     (@None DeleteResponse.t)
  = Returns (Some (Example.reply 200 "not JSON"), None, None).
Proof.
  apply (@Do_nil_target (Example.server 200 "not JSON") _ _ (Example.client_of 200 "not JSON") Runs.request0
           (Example.reply 200 "not JSON") eq_refl).
  simpl. lia.
Defined.

Lemma Do_body_failure_witness :
  @Do (Cases.cut_off 200) _ _ (Cases.client_on (Cases.cut_off 200)) (Some Runs.request0)
     (Some DeleteResponse.zero)
  = Returns (Some (Cases.unreadable 200), Some (ioError "unexpected EOF"),
             Some DeleteResponse.zero)
  /\ exists msg,
       @Do (Example.server 200 "<html>") _ _ (Example.client_of 200 "<html>") (Some Runs.request0)
          (Some DeleteResponse.zero)
       = Returns (Some (Example.reply 200 "<html>"), Some (SyntaxError msg),
                  Some DeleteResponse.zero).
Proof.
  split.
  - apply (proj1 (@Do_body_failure (Cases.cut_off 200) _ _ (Cases.client_on (Cases.cut_off 200))
                    Runs.request0 DeleteResponse.zero (Cases.unreadable 200)
                    {| content := "{"; readErr := Some "unexpected EOF" |}
                    eq_refl ltac:(simpl; lia) eq_refl)).
    reflexivity.
  - apply (proj2 (@Do_body_failure (Example.server 200 "<html>") _ _ (Example.client_of 200 "<html>")
                    Runs.request0 DeleteResponse.zero
                    (Example.reply 200 "<html>")
                    {| content := "<html>"; readErr := None |}
                    eq_refl ltac:(simpl; lia) eq_refl)).
    + reflexivity.
    + intros j. vm_compute. discriminate.
Defined.

(** * Further properties of the API-key service *)

Section Service_errors.
Context `{NetURL} `{Network}.

(** The three operations pass on the error of [Do] with a nil result. *)
Lemma Create_Do_error (c : client) (params : CreateApiKeyParams.t)
    (req : Request) (e0 : option error) r err v :
  Sub.NewRequest c "POST" "api/generate" [Some params] = (Some req, e0) ->
  Do c (Some req) (Some CreateApiKeyResponse.zero) = Returns (r, Some err, v) ->
  ApiKeyService.Create c params = Returns (None, Some err).
Proof.
  intros Hreq Hdo. unfold ApiKeyService.Create. by rewrite Hreq, Hdo.
Qed.

Lemma List_Do_error (c : client) (req : Request) (e0 : option error) r err v :
  Sub.NewRequest c "GET" "api" no_body = (Some req, e0) ->
  Do c (Some req) (Some ApiKeys.zero) = Returns (r, Some err, v) ->
  ApiKeyService.List c = Returns (None, Some err).
Proof.
  intros Hreq Hdo. unfold ApiKeyService.List. by rewrite Hreq, Hdo.
Qed.

Lemma Delete_Do_error (c : client) (apiKeyId : string) (req : Request)
    (e0 : option error) r err v :
  Sub.NewRequest c "DELETE" ("api/" +:+ apiKeyId +:+ "/delete") no_body
    = (Some req, e0) ->
  Do c (Some req) (Some DeleteResponse.zero) = Returns (r, Some err, v) ->
  ApiKeyService.Delete c apiKeyId = Returns (None, Some err).
Proof.
  intros Hreq Hdo. unfold ApiKeyService.Delete. by rewrite Hreq, Hdo.
Qed.

(** [Do] on a response outside the band, for the proofs below. *)
Lemma Do_outside_band {T} `{Unmarshaler T} (c : client) (req : Request)
    (v : option T) (resp : Response) :
  http_Client_Do (httpClient c) (authorize c req) = Ok resp ->
  ~ (200 <= StatusCode resp < 400) ->
  exists rc,
    Body resp = Some rc
    /\ Do c (Some req) v =
       Returns (Some resp,
                Some (apiError
                  match (io_ReadAll rc).2 with
                  | None =>
                      (json_Unmarshal (content rc)
                         {| ErrResponse := resp; ErrStatus := "";
                            ErrMessage := "" |}).1
                  | Some _ =>
                      {| ErrResponse := resp; ErrStatus := "";
                         ErrMessage := "" |}
                  end), v).
Proof.
  intros Hdo Hband. unfold Do. rewrite Hdo.
  destruct (http_Client_Do_body _ _ _ Hdo) as [rc Hrc]. rewrite Hrc.
  exists rc. split; [reflexivity|].
  unfold checkForErrors. rewrite Hrc.
  destruct ((200 <=? StatusCode resp) && (StatusCode resp <? 400)) eqn:Hb;
    [by apply band_test in Hb|].
  unfold io_ReadAll. destruct (readErr rc); reflexivity.
Qed.

Lemma envelope_Response (resp : Response) (rc : ReadCloser) :
  ErrResponse
    match (io_ReadAll rc).2 with
    | None =>
        (json_Unmarshal (content rc)
           {| ErrResponse := resp; ErrStatus := ""; ErrMessage := "" |}).1
    | Some _ => {| ErrResponse := resp; ErrStatus := ""; ErrMessage := "" |}
    end = resp.
Proof.
  destruct (io_ReadAll rc).2; [reflexivity|].
  apply ErrorResponse_decode_Response.
Qed.

(** X12: when the response to the operation's request has a status code
    outside [200, 400), each of [Create], [List] and [Delete] returns a nil
    result and an [ErrorResponse] error that carries the response. *)
Theorem service_error_band (c : client) (resp : Response) :
  ~ (200 <= StatusCode resp < 400) ->
  (forall params req e0,
     Sub.NewRequest c "POST" "api/generate" [Some params] = (Some req, e0) ->
     http_Client_Do (httpClient c) (authorize c req) = Ok resp ->
     exists e, ApiKeyService.Create c params = Returns (None, Some (apiError e))
               /\ ErrResponse e = resp)
  /\ (forall req e0,
     Sub.NewRequest c "GET" "api" no_body = (Some req, e0) ->
     http_Client_Do (httpClient c) (authorize c req) = Ok resp ->
     exists e, ApiKeyService.List c = Returns (None, Some (apiError e))
               /\ ErrResponse e = resp)
  /\ (forall apiKeyId req e0,
     Sub.NewRequest c "DELETE" ("api/" +:+ apiKeyId +:+ "/delete") no_body
       = (Some req, e0) ->
     http_Client_Do (httpClient c) (authorize c req) = Ok resp ->
     exists e, ApiKeyService.Delete c apiKeyId
               = Returns (None, Some (apiError e))
               /\ ErrResponse e = resp).
Proof.
  intros Hband. split; [|split].
  - intros params req e0 Hreq Hdo.
    destruct (Do_outside_band c req (Some CreateApiKeyResponse.zero) resp
                Hdo Hband) as (rc & Hrc & He).
    eexists. split; [by eapply Create_Do_error|apply envelope_Response].
  - intros req e0 Hreq Hdo.
    destruct (Do_outside_band c req (Some ApiKeys.zero) resp Hdo Hband)
      as (rc & Hrc & He).
    eexists. split; [by eapply List_Do_error|apply envelope_Response].
  - intros apiKeyId req e0 Hreq Hdo.
    destruct (Do_outside_band c req (Some DeleteResponse.zero) resp Hdo Hband)
      as (rc & Hrc & He).
    eexists. split; [by eapply Delete_Do_error|apply envelope_Response].
Qed.

End Service_errors.

Section Service_failures.
Context `{NetURL} `{Network}.

(** [Do] when the HTTP client returns an error, for the proofs below. *)
Lemma Do_client_error {T} `{Unmarshaler T} (c : client) (req : Request)
    (v : option T) (err : error) :
  http_Client_Do (httpClient c) (authorize c req) = Err err ->
  Do c (Some req) v = Returns (None, Some err, v).
Proof. intros Herr. unfold Do. by rewrite Herr. Qed.


(** X14: when [Create] or [Delete] returns, exactly one of the result and
    the error is nil.  When [List] returns an error its result is nil, but
    a nil result does not mean an error: on a response in the band that
    decodes to a value with a nil [API] slice and a status that is
    "success" or empty, [List] returns a nil slice and a nil error. *)
Theorem service_results (c : client) :
  (forall params r e,
     ApiKeyService.Create c params = Returns (r, e) ->
     (r = None <-> e <> None))
  /\ (forall apiKeyId r e,
     ApiKeyService.Delete c apiKeyId = Returns (r, e) ->
     (r = None <-> e <> None))
  /\ (forall r e,
     ApiKeyService.List c = Returns (r, e) -> e <> None -> r = None)
  /\ (forall req e0 resp v,
     Sub.NewRequest c "GET" "api" no_body = (Some req, e0) ->
     http_Client_Do (httpClient c) (authorize c req) = Ok resp ->
     200 <= StatusCode resp < 400 ->
     decodes_to resp ApiKeys.zero v ->
     ApiKeys.Status v = "success" \/ ApiKeys.Status v = "" ->
     ApiKeys.API v = None ->
     ApiKeyService.List c = Returns (None, None)).
Proof.
  split; [|split; [|split]].
  - intros params r e. unfold ApiKeyService.Create.
    destruct (Sub.NewRequest _ _ _ _) as [req e0].
    destruct (Do c req _) as [[[r' [err|]] v]|]; [| |discriminate].
    + intros [= <- <-]. done.
    + destruct (negb _ && negb _); intros [= <- <-]; split; done.
  - intros apiKeyId r e. unfold ApiKeyService.Delete.
    destruct (Sub.NewRequest _ _ _ _) as [req e0].
    destruct (Do c req _) as [[[r' [err|]] v]|]; [| |discriminate].
    + intros [= <- <-]. done.
    + destruct (negb _ && negb _); intros [= <- <-]; split; done.
  - intros r e. unfold ApiKeyService.List.
    destruct (Sub.NewRequest _ _ _ _) as [req e0].
    destruct (Do c req _) as [[[r' [err|]] v]|]; [| |discriminate].
    + intros [= <- <-]. done.
    + destruct (negb _ && negb _); intros [= <- <-]; done.
  - intros req e0 resp v Hreq Hdo Hband Hdec Hs Hapi.
    rewrite (List_decoded _ _ _ _ _ Hreq Hdo Hband Hdec), Hapi.
    destruct Hs as [-> | ->]; reflexivity.
Qed.

End Service_failures.

Lemma service_error_band_witness :
  exists e,
    @ApiKeyService.Delete Example.simple_url (Example.server 404 "gone")
      (Example.client_of 404 "gone") "12"
    = Returns (None, Some (apiError e))
    /\ StatusCode (ErrResponse e) = 404.
Proof.
  assert (exists req,
    @Sub.NewRequest Example.simple_url _ _ (Example.client_of 404 "gone")
      "DELETE" ("api/" +:+ "12" +:+ "/delete") no_body = (Some req, None))
    as [req Hreq] by (eexists; vm_compute; reflexivity).
  destruct (proj2 (proj2 (@service_error_band Example.simple_url (Example.server 404 "gone")
              (Example.client_of 404 "gone") (Example.reply 404 "gone")
              ltac:(simpl; lia))) "12" req None Hreq eq_refl)
    as (e & He & Hresp).
  exists e. split; [exact He|]. by rewrite Hresp.
Defined.


Lemma service_results_witness :
  @ApiKeyService.List Example.simple_url (Example.server 200 "{}") (Example.client_of 200 "{}")
  = Returns (None, None).
Proof.
  assert (exists req,
    @Sub.NewRequest Example.simple_url _ _ (Example.client_of 200 "{}")
      "GET" "api" no_body = (Some req, None))
    as [req Hreq] by (eexists; vm_compute; reflexivity).
  apply (proj2 (proj2 (proj2 (@service_results Example.simple_url (Example.server 200 "{}")
            (Example.client_of 200 "{}"))))
            req None (Example.reply 200 "{}") ApiKeys.zero Hreq eq_refl).
  - simpl; lia.
  - eexists. split; [reflexivity|]. split; [reflexivity|]. vm_compute. reflexivity.
  - by right.
  - reflexivity.
Defined.

(** ** The envelope on the wire *)

Module wire.
Import utf8 json_enc json_dec string_round_trip payload.
#[local] Arguments String.append !_ _ / : simpl nomatch.
#[local] Arguments parse_string : simpl never.
#[local] Arguments appendString_loop : simpl never.
#[local] Arguments member_text : simpl never.

Lemma parse_envelope (s m : string) :
  ValidString s = true -> ValidString m = true ->
  parse (envelope_text s m)
  = POk (JObject [("status"%string, JString s); ("message"%string, JString m)]).
Proof.
  intros Hs Hm. unfold parse, envelope_text.
  set (body := String "{"%char _).
  assert (exists f, String.length body = S (S (S f))) as [f Hf].
  { unfold body, member_text. simpl String.length.
    rewrite !length_append. simpl String.length. eexists. reflexivity. }
  rewrite Hf. unfold body.
  change (parse_value (S (S (S (S f)))) 0 (String "{"%char ?x))
    with (pbind (parse_members (parse_value (S (S (S f))) 1) (S (S (S f))) x)
            (fun '(ms, rest) => POk (JObject ms, rest))).
  rewrite parse_members_comma by (assumption || reflexivity).
  rewrite parse_members_close by (assumption || reflexivity).
  reflexivity.
Qed.

(** The envelope decodes into each of the response types. *)
Lemma Unmarshal_envelope (s m : string) :
  ValidString s = true -> ValidString m = true ->
  (forall resp,
     json_Unmarshal (envelope_text s m)
       {| ErrResponse := resp; ErrStatus := ""; ErrMessage := "" |}
     = ({| ErrResponse := resp; ErrStatus := s; ErrMessage := m |}, None))
  /\ json_Unmarshal (envelope_text s m) CreateApiKeyResponse.zero
     = ({| CreateApiKeyResponse.Status := s; CreateApiKeyResponse.Apikey := "";
           CreateApiKeyResponse.Message := m |}, None)
  /\ json_Unmarshal (envelope_text s m) ApiKeys.zero
     = ({| ApiKeys.Status := s; ApiKeys.Message := m; ApiKeys.API := None |},
        None)
  /\ json_Unmarshal (envelope_text s m) DeleteResponse.zero
     = ({| DeleteResponse.Status := s; DeleteResponse.Message := m |}, None).
Proof.
  intros Hs Hm. unfold json_Unmarshal. rewrite (parse_envelope s m Hs Hm).
  repeat split.
Qed.

End wire.

Section Wire.
Context `{NetURL} `{Network}.

(** X15: the server's message reaches the caller as it is.  When the
    response to the operation's request is in the band and its body is the
    envelope with a status [s] other than "success" and the empty string
    and a message [m], both valid UTF-8, each of [Create], [List] and
    [Delete] returns a nil result and the error whose text is [m]; with
    the status "success", [Create] and [Delete] return the decoded envelope
    and [List] returns a nil slice, all without an error. *)
Theorem service_envelope (c : client) (code : Z) (s m : string) :
  utf8.ValidString s = true -> utf8.ValidString m = true ->
  200 <= code < 400 ->
  (forall params req e0,
     Sub.NewRequest c "POST" "api/generate" [Some params] = (Some req, e0) ->
     http_Client_Do (httpClient c) (authorize c req)
       = Ok (envelope_reply code s m) ->
     (s <> "success" -> s <> "" ->
        ApiKeyService.Create c params = Returns (None, Some (errorString m)))
     /\ (s = "success" ->
        ApiKeyService.Create c params
        = Returns (Some {| CreateApiKeyResponse.Status := "success";
                           CreateApiKeyResponse.Apikey := "";
                           CreateApiKeyResponse.Message := m |}, None)))
  /\ (forall req e0,
     Sub.NewRequest c "GET" "api" no_body = (Some req, e0) ->
     http_Client_Do (httpClient c) (authorize c req)
       = Ok (envelope_reply code s m) ->
     (s <> "success" -> s <> "" ->
        ApiKeyService.List c = Returns (None, Some (errorString m)))
     /\ (s = "success" -> ApiKeyService.List c = Returns (None, None)))
  /\ (forall apiKeyId req e0,
     Sub.NewRequest c "DELETE" ("api/" +:+ apiKeyId +:+ "/delete") no_body
       = (Some req, e0) ->
     http_Client_Do (httpClient c) (authorize c req)
       = Ok (envelope_reply code s m) ->
     (s <> "success" -> s <> "" ->
        ApiKeyService.Delete c apiKeyId
        = Returns (None, Some (errorString m)))
     /\ (s = "success" ->
        ApiKeyService.Delete c apiKeyId
        = Returns (Some {| DeleteResponse.Status := "success";
                           DeleteResponse.Message := m |}, None))).
Proof.
  intros Hs Hm Hband.
  destruct (wire.Unmarshal_envelope s m Hs Hm) as (_ & Hc & Hl & Hd).
  split; [|split].
  - intros params req e0 Hreq Hdo.
    assert (decodes_to (envelope_reply code s m) CreateApiKeyResponse.zero
              {| CreateApiKeyResponse.Status := s;
                 CreateApiKeyResponse.Apikey := "";
                 CreateApiKeyResponse.Message := m |}) as Hdec
      by (eexists; repeat split; exact Hc).
    rewrite (Create_decoded _ _ _ _ _ _ Hreq Hdo Hband Hdec). simpl. split.
    + intros H1 H2. by rewrite (proj2 (status_test s) (conj H1 H2)).
    + intros ->. reflexivity.
  - intros req e0 Hreq Hdo.
    assert (decodes_to (envelope_reply code s m) ApiKeys.zero
              {| ApiKeys.Status := s; ApiKeys.Message := m;
                 ApiKeys.API := None |}) as Hdec
      by (eexists; repeat split; exact Hl).
    rewrite (List_decoded _ _ _ _ _ Hreq Hdo Hband Hdec). simpl. split.
    + intros H1 H2. by rewrite (proj2 (status_test s) (conj H1 H2)).
    + intros ->. reflexivity.
  - intros apiKeyId req e0 Hreq Hdo.
    assert (decodes_to (envelope_reply code s m) DeleteResponse.zero
              {| DeleteResponse.Status := s; DeleteResponse.Message := m |})
      as Hdec by (eexists; repeat split; exact Hd).
    rewrite (Delete_decoded _ _ _ _ _ _ Hreq Hdo Hband Hdec). simpl. split.
    + intros H1 H2. by rewrite (proj2 (status_test s) (conj H1 H2)).
    + intros ->. reflexivity.
Qed.

(** X16: outside the band the envelope is decoded into the error.  When
    the response to the operation's request has a status code outside
    [200, 400) and its body is the envelope with a status [s] and a
    message [m], both valid UTF-8, each of [Create], [List] and [Delete]
    returns a nil result and the [ErrorResponse] that carries the
    response, [s] and [m]. *)
Theorem service_error_envelope (c : client) (code : Z) (s m : string) :
  utf8.ValidString s = true -> utf8.ValidString m = true ->
  ~ (200 <= code < 400) ->
  (forall params req e0,
     Sub.NewRequest c "POST" "api/generate" [Some params] = (Some req, e0) ->
     http_Client_Do (httpClient c) (authorize c req)
       = Ok (envelope_reply code s m) ->
     ApiKeyService.Create c params
     = Returns (None, Some (apiError
         {| ErrResponse := envelope_reply code s m; ErrStatus := s;
            ErrMessage := m |})))
  /\ (forall req e0,
     Sub.NewRequest c "GET" "api" no_body = (Some req, e0) ->
     http_Client_Do (httpClient c) (authorize c req)
       = Ok (envelope_reply code s m) ->
     ApiKeyService.List c
     = Returns (None, Some (apiError
         {| ErrResponse := envelope_reply code s m; ErrStatus := s;
            ErrMessage := m |})))
  /\ (forall apiKeyId req e0,
     Sub.NewRequest c "DELETE" ("api/" +:+ apiKeyId +:+ "/delete") no_body
       = (Some req, e0) ->
     http_Client_Do (httpClient c) (authorize c req)
       = Ok (envelope_reply code s m) ->
     ApiKeyService.Delete c apiKeyId
     = Returns (None, Some (apiError
         {| ErrResponse := envelope_reply code s m; ErrStatus := s;
            ErrMessage := m |}))).
Proof.
  intros Hs Hm Hband.
  destruct (wire.Unmarshal_envelope s m Hs Hm) as (He & _).
  assert (forall T (U : Unmarshaler T) req (v : option T),
    http_Client_Do (httpClient c) (authorize c req)
      = Ok (envelope_reply code s m) ->
    Do c (Some req) v
    = Returns (Some (envelope_reply code s m),
               Some (apiError
                 {| ErrResponse := envelope_reply code s m; ErrStatus := s;
                    ErrMessage := m |}), v)) as Hdo'.
  { intros T U req v Hdo.
    destruct (Do_outside_band c req v _ Hdo Hband) as (rc & Hrc & ->).
    injection Hrc as <-. simpl. by rewrite He. }
  split; [|split].
  - intros params req e0 Hreq Hdo. eapply Create_Do_error; [exact Hreq|].
    by apply Hdo'.
  - intros req e0 Hreq Hdo. eapply List_Do_error; [exact Hreq|].
    by apply Hdo'.
  - intros apiKeyId req e0 Hreq Hdo. eapply Delete_Do_error; [exact Hreq|].
    by apply Hdo'.
Qed.

End Wire.

Lemma service_envelope_witness :
  @ApiKeyService.Create Example.simple_url (Example.server 200 (envelope_text "failed" "quota <exceeded>"))
    (Example.client_of 200 (envelope_text "failed" "quota <exceeded>"))
    Runs.params0
  = Returns (None, Some (errorString "quota <exceeded>")).
Proof.
  assert (exists req,
    @Sub.NewRequest Example.simple_url _ _
      (Example.client_of 200 (envelope_text "failed" "quota <exceeded>"))
      "POST" "api/generate" [Some Runs.params0] = (Some req, None))
    as [req Hreq] by (eexists; vm_compute; reflexivity).
  apply (proj1 (proj1 (@service_envelope Example.simple_url (Example.server 200 (envelope_text "failed" "quota <exceeded>"))
           (Example.client_of 200 (envelope_text "failed" "quota <exceeded>"))
           200 "failed" "quota <exceeded>" eq_refl eq_refl ltac:(lia))
           Runs.params0 req None Hreq eq_refl));
    discriminate.
Defined.

Lemma service_error_envelope_witness :
  @ApiKeyService.Delete Example.simple_url (Example.server 404 (envelope_text "failed" "not found"))
    (Example.client_of 404 (envelope_text "failed" "not found")) "12"
  = Returns (None, Some (apiError
      {| ErrResponse := envelope_reply 404 "failed" "not found";
         ErrStatus := "failed"; ErrMessage := "not found" |})).
Proof.
  assert (exists req,
    @Sub.NewRequest Example.simple_url _ _
      (Example.client_of 404 (envelope_text "failed" "not found"))
      "DELETE" ("api/" +:+ "12" +:+ "/delete") no_body = (Some req, None))
    as [req Hreq] by (eexists; vm_compute; reflexivity).
  apply (proj2 (proj2 (@service_error_envelope Example.simple_url (Example.server 404 (envelope_text "failed" "not found"))
           (Example.client_of 404 (envelope_text "failed" "not found"))
           404 "failed" "not found" eq_refl eq_refl ltac:(lia)))
           "12" req None Hreq eq_refl).
Defined.

(** ** A response without a status *)

Section Untouched.
Context {T A : Type} (fs : fields T) (g : T -> A) (folded : string).
Hypothesis others_keep :
  forall n store, In (n, store) fs -> foldName n <> Some folded ->
  forall j v, g (store j v).1 = g v.

(** The field that a key selects has the key's name, exactly or folded. *)
Lemma find_field_name (key : string) store :
  find_field fs key = Some store ->
  exists n, In (n, store) fs /\ foldName n = foldName key.
Proof.
  unfold find_field.
  destruct (List.find _ fs) as [[n st]|] eqn:Hf.
  - intros [= <-]. apply List.find_some in Hf as [Hin Heq].
    apply String.eqb_eq in Heq. simpl in Heq.
    exists n. split; [exact Hin|by rewrite Heq].
  - clear Hf. destruct (foldName key) as [k|] eqn:Hk; [|discriminate].
    destruct (List.find _ fs) as [[n st]|] eqn:Hg; simpl; [|discriminate].
    intros [= <-]. apply List.find_some in Hg as [Hin Heq]. simpl in Heq.
    destruct (foldName n) as [k'|] eqn:Hn; [|discriminate].
    apply String.eqb_eq in Heq. subst.
    exists n. split; [exact Hin|exact Hn].
Qed.

(** Members whose keys do not fold to [folded] leave [g] as it was. *)
Lemma decode_members_untouched (ms : list (string * json)) :
  (forall k x, In (k, x) ms -> foldName k <> Some folded) ->
  forall v saved, g (decode_members fs ms v saved).1 = g v.
Proof.
  induction ms as [|[key x] ms IH]; intros Hkeys v saved; simpl; [done|].
  assert (forall k y, In (k, y) ms -> foldName k <> Some folded) as Hrest
    by (intros k y Hin; apply (Hkeys k y); by right).
  destruct (find_field fs key) as [store|] eqn:Hf; [|by apply IH].
  destruct (find_field_name _ _ Hf) as (n & Hin & Hfold).
  assert (foldName n <> Some folded) as Hn.
  { rewrite Hfold. apply (Hkeys key x). by left. }
  pose proof (others_keep n store Hin Hn x v) as Hst.
  destruct (store x v) as [v' e]. simpl in Hst. rewrite <- Hst. by apply IH.
Qed.

Lemma json_Unmarshal_untouched (data : string) (v : T) :
  (forall ms, json_dec.parse data = POk (JObject ms) ->
     forall k x, In (k, x) ms -> foldName k <> Some folded) ->
  g (@json_Unmarshal T {| decode := decode_struct fs |} data v).1 = g v.
Proof.
  intros Hkeys. unfold json_Unmarshal.
  destruct (json_dec.parse data) as [j| | | |]; try reflexivity.
  destruct j; try reflexivity. simpl.
  apply decode_members_untouched. by apply Hkeys.
Qed.

End Untouched.

Lemma no_status_CreateApiKeyResponse (data : string) :
  no_status_key data ->
  CreateApiKeyResponse.Status
    (json_Unmarshal data CreateApiKeyResponse.zero).1 = "".
Proof.
  intros Hno.
  apply (json_Unmarshal_untouched CreateApiKeyResponse.json_fields
           CreateApiKeyResponse.Status "STATUS"); [|exact Hno].
  intros n store Hin Hn j v. simpl in Hin.
  destruct Hin as [[= <- <-]|[[= <- <-]|[[= <- <-]|[]]]];
    try (by destruct Hn); destruct j; reflexivity.
Qed.

Lemma no_status_ApiKeys (data : string) :
  no_status_key data ->
  ApiKeys.Status (json_Unmarshal data ApiKeys.zero).1 = "".
Proof.
  intros Hno.
  apply (json_Unmarshal_untouched ApiKeys.json_fields
           ApiKeys.Status "STATUS"); [|exact Hno].
  intros n store Hin Hn j v. simpl in Hin.
  destruct Hin as [[= <- <-]|[[= <- <-]|[[= <- <-]|[]]]];
    try (by destruct Hn); [destruct j; reflexivity|].
  destruct (decode_slice ApiKey.zero j (ApiKeys.API v)) as [l err].
  reflexivity.
Qed.

Lemma no_status_DeleteResponse (data : string) :
  no_status_key data ->
  DeleteResponse.Status (json_Unmarshal data DeleteResponse.zero).1 = "".
Proof.
  intros Hno.
  apply (json_Unmarshal_untouched DeleteResponse.json_fields
           DeleteResponse.Status "STATUS"); [|exact Hno].
  intros n store Hin Hn j v. simpl in Hin.
  destruct Hin as [[= <- <-]|[[= <- <-]|[]]];
    try (by destruct Hn); destruct j; reflexivity.
Qed.

Section No_status.
Context `{NetURL} `{Network}.

(** X17: a missing status is a success.  When the response to the
    operation's request is in the band and its body decodes without an
    error and is not a JSON object with a key that matches [status]
    (a key whose case fold is STATUS), each of [Create], [List] and
    [Delete] returns what was decoded and a nil error. *)
Theorem service_no_status (c : client) (resp : Response) (rc : ReadCloser) :
  200 <= StatusCode resp < 400 ->
  Body resp = Some rc -> readErr rc = None ->
  no_status_key (content rc) ->
  (forall params req e0,
     Sub.NewRequest c "POST" "api/generate" [Some params] = (Some req, e0) ->
     http_Client_Do (httpClient c) (authorize c req) = Ok resp ->
     (json_Unmarshal (content rc) CreateApiKeyResponse.zero).2 = None ->
     ApiKeyService.Create c params
     = Returns (Some (json_Unmarshal (content rc) CreateApiKeyResponse.zero).1,
                None))
  /\ (forall req e0,
     Sub.NewRequest c "GET" "api" no_body = (Some req, e0) ->
     http_Client_Do (httpClient c) (authorize c req) = Ok resp ->
     (json_Unmarshal (content rc) ApiKeys.zero).2 = None ->
     ApiKeyService.List c
     = Returns (ApiKeys.API (json_Unmarshal (content rc) ApiKeys.zero).1,
                None))
  /\ (forall apiKeyId req e0,
     Sub.NewRequest c "DELETE" ("api/" +:+ apiKeyId +:+ "/delete") no_body
       = (Some req, e0) ->
     http_Client_Do (httpClient c) (authorize c req) = Ok resp ->
     (json_Unmarshal (content rc) DeleteResponse.zero).2 = None ->
     ApiKeyService.Delete c apiKeyId
     = Returns (Some (json_Unmarshal (content rc) DeleteResponse.zero).1,
                None)).
Proof.
  intros Hband Hrc Hread Hno.
  assert (forall T (U : Unmarshaler T) (zero : T),
    (json_Unmarshal (content rc) zero).2 = None ->
    decodes_to resp zero (json_Unmarshal (content rc) zero).1) as Hdec.
  { intros T U zero Herr. exists rc. repeat split; try assumption.
    destruct (json_Unmarshal (content rc) zero) as [v e]. simpl in *.
    by subst. }
  split; [|split].
  - intros params req e0 Hreq Hdo Herr.
    rewrite (Create_decoded _ _ _ _ _ _ Hreq Hdo Hband (Hdec _ _ _ Herr)).
    by rewrite (no_status_CreateApiKeyResponse _ Hno).
  - intros req e0 Hreq Hdo Herr.
    rewrite (List_decoded _ _ _ _ _ Hreq Hdo Hband (Hdec _ _ _ Herr)).
    by rewrite (no_status_ApiKeys _ Hno).
  - intros apiKeyId req e0 Hreq Hdo Herr.
    rewrite (Delete_decoded _ _ _ _ _ _ Hreq Hdo Hband (Hdec _ _ _ Herr)).
    by rewrite (no_status_DeleteResponse _ Hno).
Qed.

(** The method of a request that [NewRequest] returns. *)
Lemma Sub_NewRequest_Method {P} `{Marshaler P} (c : client)
    (method url : string) (body : list (option P)) (req : Request)
    (e : option error) :
  method <> "" ->
  Sub.NewRequest c method url body = (Some req, e) ->
  Method req = method.
Proof.
  intros Hne. unfold Sub.NewRequest.
  destruct (URL_Parse _ _); [|discriminate].
  destruct (encode_body body); [|discriminate].
  unfold http_NewRequest.
  destruct (String.eqb_spec method "") as [?|_]; [done|].
  destruct (negb _); [discriminate|].
  destruct (url_Parse _); [|discriminate]. by intros [= <- <-].
Qed.

Lemma Sub_NewRequest_base {P} `{Marshaler P} (c c' : client)
    (method url : string) (body : list (option P)) :
  baseURL c' = baseURL c ->
  Sub.NewRequest c' method url body = Sub.NewRequest c method url body.
Proof. intros Hb. unfold Sub.NewRequest. by rewrite Hb. Qed.

Lemma Sub_NewRequest_no_body (c : client) (method url : string)
    (req : Request) (e : option error) :
  Sub.NewRequest c method url no_body = (Some req, e) ->
  ReqBody (authorize c req) = None.
Proof.
  unfold Sub.NewRequest, no_body. simpl encode_body.
  destruct (URL_Parse _ _); [|discriminate].
  destruct (http_NewRequest _ _ _) as [r|] eqn:Hr; [|discriminate].
  apply http_NewRequest_inv in Hr as (_ & Hbody & _).
  intros [= <- <-]. simpl. exact Hbody.
Qed.


End No_status.

Lemma service_no_status_witness :
  @ApiKeyService.Delete Example.simple_url (Example.server 201 (Example.js "{'Message':'gone','id':7}"))
    (Example.client_of 201 (Example.js "{'Message':'gone','id':7}")) "7"
  = Returns (Some {| DeleteResponse.Status := "";
                     DeleteResponse.Message := "gone" |}, None).
Proof.
  set (text := Example.js "{'Message':'gone','id':7}").
  assert (exists req,
    @Sub.NewRequest Example.simple_url _ _ (Example.client_of 201 text)
      "DELETE" ("api/" +:+ "7" +:+ "/delete") no_body = (Some req, None))
    as [req Hreq] by (eexists; vm_compute; reflexivity).
  assert (no_status_key text) as Hno.
  { intros ms Hp. vm_compute in Hp. injection Hp as <-.
    intros k x [[= <- <-]|[[= <- <-]|[]]]; vm_compute; discriminate. }
  rewrite (proj2 (proj2 (@service_no_status Example.simple_url (Example.server 201 text)
             (Example.client_of 201 text) (Example.reply 201 text)
             {| content := text; readErr := None |}
             ltac:(simpl; lia) eq_refl eq_refl Hno))
             "7"%string req None Hreq eq_refl eq_refl).
  vm_compute. reflexivity.
Defined.


Section Accessors.
Context `{NetURL} `{Network}.

(** X19: on a client that [NewClient] of either copy returned, the
    accessors [Account] and [ApiKey] return a service, not nil, whatever
    the options did to the two pointers: the services are assigned after
    the options have run.  And a returned client comes with a nil error. *)
Theorem NewClient_accessors (tok : string) (options : list ClientOption)
    (c : client) (e : option error) :
  Root.NewClient tok options = (Some c, e)
  \/ Sub.NewClient tok options = (Some c, e) ->
  Account c = Some commonService /\ ApiKey c = Some commonService
  /\ e = None.
Proof.
  unfold Account, ApiKey.
  intros [Hc|Hc].
  - destruct (Root_NewClient_result tok options)
      as [(c' & Hc' & Ha & Hk)|[e' He']]; rewrite Hc in *; [|discriminate].
    by injection Hc' as -> ->.
  - destruct (Sub_NewClient_result tok options)
      as [(c' & Hc' & Ha & Hk)|[e' He']]; rewrite Hc in *; [|discriminate].
    by injection Hc' as -> ->.
Qed.

End Accessors.

Lemma NewClient_accessors_witness :
  exists c,
    @Sub.NewClient Example.simple_url (Example.server 200 "{}") "tok"
      [Cases.with_timeout 9] = (Some c, None)
    /\ (Cases.with_timeout 9 c).1.(account) = None
    /\ Account c = Some commonService /\ ApiKey c = Some commonService.
Proof.
  assert (exists c,
    @Sub.NewClient Example.simple_url (Example.server 200 "{}") "tok"
      [Cases.with_timeout 9] = (Some c, None))
    as [c Hc] by (eexists; vm_compute; reflexivity).
  exists c. split; [exact Hc|]. split; [reflexivity|].
  destruct (@NewClient_accessors Example.simple_url (Example.server 200 "{}")
              "tok" [Cases.with_timeout 9] c None (or_intror Hc))
    as (Ha & Hk & _).
  by split.
Defined.
